(** * Lambda handlers of the ECS infrastructure stacks, embedded in Rocq

    The repository is CDK glue; its executable logic lives in a handful of
    Lambda handlers and one naming helper:

    - [jp-holidays.ts] ........ [isJapanHolidayJst]
    - [ecs-business-hours] .... [EcsBusinessHours.handler]
    - [ec2-business-hours] .... [Ec2BusinessHours.handler]
    - [rds-business-hours] .... [RdsBusinessHours.handler]
    - [db-init] ............... [DbInit.handler], [DbInit.ensureUser]
    - [ecr-validate-single-arch] [EcrValidateSingleArch.handler]
    - [rdsDbName] ............. [rdsDbName]
    - [logs-firehose-transform] [LogsFirehoseTransform.handler]

    Strings are byte strings ([string]); a JavaScript string is read as its
    UTF-8 encoding.  A [Date] is its time value, the number of milliseconds
    since the epoch, as a [Z].  Calls into the AWS SDK, the MySQL driver and
    the clock are effects: each handler is a function of an explicit world
    that answers the calls, and returns its completion together with the
    list of calls it made. *)

From Stdlib Require Import ZArith NArith List String Ascii Bool Lia.
From Stdlib Require Import DecimalString DecimalZ DecimalPos.
Import ListNotations.
Open Scope string_scope.
Open Scope Z_scope.

(* ================================================================== *)
(** * Part I: definitions                                             *)
(* ================================================================== *)

(** ** JavaScript values and strings *)

(** Strict equality of two strings. *)
Notation "a === b" := (String.eqb a b) (at level 70, no associativity).

(** Truthiness of a string that may be [undefined]: [undefined] and the
    empty string are falsy. *)
Definition truthy (v : option string) : bool :=
  match v with
  | Some s => negb (s === "")
  | None => false
  end.

(** [a || b] on a string that may be [undefined], with a string default. *)
Definition or_else (a : option string) (b : string) : string :=
  match a with
  | Some s => if s === "" then b else s
  | None => b
  end.

(** [a || b] on two strings that may be [undefined]. *)
Definition or_opt (a b : option string) : option string :=
  if truthy a then a else b.

(** [a === 'lit'] for a value that may be [undefined]. *)
Definition is_str (a : option string) (lit : string) : bool :=
  match a with
  | Some s => s === lit
  | None => false
  end.

(** A value interpolated into a template literal. *)
Definition interpolate (a : option string) : string :=
  match a with
  | Some s => s
  | None => "undefined"
  end.

(** [Number.prototype.toString] on an integer. *)
Definition toString (n : Z) : string :=
  NilZero.string_of_int (Z.to_int n).

Fixpoint repeat_char (c : ascii) (n : nat) : string :=
  match n with
  | O => ""
  | S n' => String c (repeat_char c n')
  end.

(** [s.padStart(width, '0')]. *)
Definition padStart (width : nat) (s : string) : string :=
  repeat_char "0"%char (width - String.length s) ++ s.

(** [hay.startsWith(needle)] *)
Fixpoint startsWith (needle hay : string) : bool :=
  match needle, hay with
  | EmptyString, _ => true
  | String a n', String b h' => Ascii.eqb a b && startsWith n' h'
  | String _ _, EmptyString => false
  end.

(** [hay.includes(needle)] *)
Fixpoint includes (needle hay : string) : bool :=
  startsWith needle hay ||
  match hay with
  | EmptyString => false
  | String _ h' => includes needle h'
  end.

(** ** Dates

    The time value of a [Date] is an integer number of milliseconds; the
    calendar fields follow ECMAScript's [Day], [WeekDay], [YearFromTime],
    [MonthFromTime] and [DateFromTime] on the proleptic Gregorian
    calendar. *)

Definition Date := Z.

Definition msPerDay : Z := 86400000.

(** [Day(t)], the number of whole days since the epoch. *)
Definition Day (t : Date) : Z := t / msPerDay.

(** [WeekDay(t)]: 0 is Sunday, 6 is Saturday; the epoch was a Thursday. *)
Definition WeekDay (t : Date) : Z := (Day t + 4) mod 7.

(** Year, month (1 to 12) and day of the month of a day number. *)
Definition civil_from_days (days : Z) : Z * Z * Z :=
  let z := days + 719468 in
  let era := z / 146097 in
  let doe := z - era * 146097 in
  let yoe := (doe - doe / 1460 + doe / 36524 - doe / 146096) / 365 in
  let doy := doe - (365 * yoe + yoe / 4 - yoe / 100) in
  let mp := (5 * doy + 2) / 153 in
  let d := doy - (153 * mp + 2) / 5 + 1 in
  let m := if mp <? 10 then mp + 3 else mp - 9 in
  let y := yoe + era * 400 + (if m <=? 2 then 1 else 0) in
  (y, m, d).

Definition getFullYear (t : Date) : Z := fst (fst (civil_from_days (Day t))).
(** [getMonth] counts from 0. *)
Definition getMonth (t : Date) : Z := snd (fst (civil_from_days (Day t))) - 1.
Definition getDate (t : Date) : Z := snd (civil_from_days (Day t)).
Definition getDay (t : Date) : Z := WeekDay t.

(** A time value is valid within 8.64e15 ms of the epoch. *)
Definition valid_time (t : Z) : bool :=
  (-8640000000000000 <=? t) && (t <=? 8640000000000000).

(** ** shared/jp-holidays.ts *)

(** [new Date(date.toLocaleString('en-US', { timeZone: 'Asia/Tokyo' }))]:
    a date whose local fields read the wall clock of Tokyo.  Tokyo has
    been nine hours ahead of UTC all year since 1952; it kept summer time
    from 1948 to 1951 and its local mean time before 1888, and the text
    that [toLocaleString] writes is not read back as written for a year
    below 100 or past the last instant a [Date] can hold.  [toJst] is what
    the code computes where [tokyoClock] below holds, in a process whose
    own time zone is UTC, as Lambda's is; the fields the code reads do not
    depend on the fraction of the second, which [toLocaleString] drops. *)
Definition toJst (date : Date) : Date := date + 9 * 3600000.

Definition holidays : list string :=
  [ (* 2024 *)
    "2024-01-01"; "2024-01-08"; "2024-02-11"; "2024-02-12"; "2024-02-23";
    "2024-03-20"; "2024-04-29"; "2024-05-03"; "2024-05-04"; "2024-05-05";
    "2024-05-06"; "2024-07-15"; "2024-08-11"; "2024-08-12"; "2024-09-16";
    "2024-09-22"; "2024-09-23"; "2024-10-14"; "2024-11-03"; "2024-11-04";
    "2024-11-23";
    (* 2025 *)
    "2025-01-01"; "2025-01-13"; "2025-02-11"; "2025-02-23"; "2025-02-24";
    "2025-03-20"; "2025-04-29"; "2025-05-03"; "2025-05-04"; "2025-05-05";
    "2025-05-06"; "2025-07-21"; "2025-08-11"; "2025-09-15"; "2025-09-23";
    "2025-10-13"; "2025-11-03"; "2025-11-23"; "2025-11-24";
    (* 2026 (partial) *)
    "2026-01-01"; "2026-01-12"; "2026-02-11"; "2026-02-23"; "2026-03-20";
    "2026-04-29"; "2026-05-03"; "2026-05-04"; "2026-05-05"; "2026-07-20";
    "2026-08-11"; "2026-09-21"; "2026-09-22"; "2026-09-23"; "2026-10-12";
    "2026-11-03"; "2026-11-23" ].

(** [holidays.has(key)] *)
Definition has (set : list string) (key : string) : bool :=
  existsb (String.eqb key) set.

(** The [YYYY-MM-DD] key of the Tokyo date. *)
Definition holidayKey (date : Date) : string :=
  let jst := toJst date in
  let y := getFullYear jst in
  let m := padStart 2 (toString (getMonth jst + 1)) in
  let d := padStart 2 (toString (getDate jst)) in
  toString y ++ "-" ++ m ++ "-" ++ d.

Definition isJapanHolidayJst (date : Date) : bool :=
  let jst := toJst date in
  let key := holidayKey date in
  let dow := getDay jst in
  if (dow =? 0) || (dow =? 6) then true
  else has holidays key.

(** ** Effects: calls to the cloud provider

    A handler runs against a [Provider] that answers each command it is
    sent, knowing what was sent before.  The run yields the handler's
    completion and the journal of what it did, oldest entry first; what is
    written to the console is not part of it. *)

Record Instance := {
  State_Name : option string;
  PublicIpAddress : option string
}.

Record Reservation := { Instances : option (list Instance) }.

Record DescribeInstancesResult := {
  Reservations : option (list Reservation)
}.

Inductive Command :=
| UpdateServiceCommand (cluster service : option string) (desiredCount : Z)
| DescribeInstancesCommand (InstanceIds : list (option string))
| StartInstancesCommand (InstanceIds : list (option string))
| StopInstancesCommand (InstanceIds : list (option string))
| ChangeResourceRecordSetsCommand (HostedZoneId Action Name type : string)
    (TTL : Z) (Value : string)
| StartDBInstanceCommand (DBInstanceIdentifier : option string)
| StopDBInstanceCommand (DBInstanceIdentifier : option string).

Inductive Output :=
| Described (r : DescribeInstancesResult)
| Done.

(** A promise settles: fulfilled with a value or rejected with an error. *)
Inductive Settled (A : Type) :=
| Fulfilled (a : A)
| Rejected (error : string).
Arguments Fulfilled {A} a.
Arguments Rejected {A} error.

Inductive Entry :=
| Sent (c : Command)
| Delayed (ms : Z).

Definition Journal := list Entry.

Definition Provider := Journal -> Command -> Settled Output.

(** The completion of an async function: a value or a thrown error. *)
Inductive Completion (A : Type) :=
| Return (a : A)
| Throw (error : string).
Arguments Return {A} a.
Arguments Throw {A} error.

(** An effectful computation reads a world of type [W], threads a state of
    type [S] and completes. *)
Definition Eff (W S A : Type) : Type := W -> S -> Completion A * S.

Definition ret {W S A} (a : A) : Eff W S A := fun _ s => (Return a, s).

Definition throw {W S A} (error : string) : Eff W S A :=
  fun _ s => (Throw error, s).

Definition bind {W S A B} (m : Eff W S A) (k : A -> Eff W S B) : Eff W S B :=
  fun w s =>
    match m w s with
    | (Return a, s') => k a w s'
    | (Throw e, s') => (Throw e, s')
    end.

Notation "x <- m ;; k" := (bind m (fun x => k))
  (at level 61, m at next level, right associativity).
Notation "m ;; k" := (bind m (fun _ => k))
  (at level 61, right associativity).

(** [try { body } catch (e) { }] around a body whose value is not used. *)
Definition try_catch {W S A} (body : Eff W S A) : Eff W S unit :=
  fun w s => (Return tt, snd (body w s)).

(** [try { body } finally { cleanup }]: the cleanup always runs, and an
    error it throws replaces the completion of the body. *)
Definition try_finally {W S A} (body : Eff W S A) (cleanup : Eff W S unit)
  : Eff W S A :=
  fun w s =>
    let (c, s') := body w s in
    match cleanup w s' with
    | (Return _, s'') => (c, s'')
    | (Throw e, s'') => (Throw e, s'')
    end.

Definition Async (A : Type) : Type := Eff Provider Journal A.

(** [await client.send(command)] *)
Definition send (c : Command) : Async Output :=
  fun p j =>
    match p j c with
    | Fulfilled o => (Return o, (j ++ [Sent c])%list)
    | Rejected e => (Throw e, (j ++ [Sent c])%list)
    end.

(** [try { await client.send(command) } catch (e) { }] *)
Definition try_send (c : Command) : Async unit := try_catch (send c).

(** [await delay(ms)] *)
Definition delay (ms : Z) : Async unit :=
  fun _ j => (Return tt, (j ++ [Delayed ms])%list).

(** The sends inside [Promise.all([...])]: every command of the array is
    sent when the array is built; what each settles to is kept. *)
Fixpoint send_each (cs : list Command) (p : Provider) (j : Journal)
  : list (Settled Output) * Journal :=
  match cs with
  | [] => ([], j)
  | c :: cs' =>
      let r := p j c in
      let (rs, j') := send_each cs' p ((j ++ [Sent c])%list) in
      (r :: rs, j')
  end.

Fixpoint first_rejection (rs : list (Settled Output)) : option string :=
  match rs with
  | [] => None
  | Rejected e :: _ => Some e
  | Fulfilled _ :: rs' => first_rejection rs'
  end.

(** [await Promise.all(cs.map(c => client.send(c)))]: every command is
    sent, and the await throws when one of the sends is rejected.  When
    several are rejected, [Promise.all] throws the rejection that settles
    first; a run has no clock, and the model takes the first in array
    order.  The properties below say of the error thrown only that it is
    the error of one of the rejected sends. *)
Definition promise_all (cs : list Command) : Async unit :=
  fun p j =>
    let (rs, j') := send_each cs p j in
    match first_rejection rs with
    | Some e => (Throw e, j')
    | None => (Return tt, j')
    end.

(** Run a handler from an empty journal. *)
Definition run {A} (m : Async A) (p : Provider) : Completion A * Journal :=
  m p [].

(** What a scheduler handler returns: [{ skipped: true }] or
    [{ ok: <bool> }]. *)
Inductive Reply :=
| skipped
| ok (b : bool).

(** ** functions/ecs-business-hours/index.ts *)

Module EcsBusinessHours.

Record Env := {
  CLUSTER : option string;
  FRONTEND_SERVICE : option string;
  BACKEND_SERVICE : option string;
  JOB_SERVICE : option string;
  DESIRED_UP : Z
}.

Definition handler (env : Env) (now : Date) (action : string) : Async Reply :=
  let isHoliday := isJapanHolidayJst now in
  if action === "up" then
    if isHoliday then ret skipped
    else
      promise_all
        [ UpdateServiceCommand (CLUSTER env) (FRONTEND_SERVICE env) (DESIRED_UP env);
          UpdateServiceCommand (CLUSTER env) (BACKEND_SERVICE env) (DESIRED_UP env);
          UpdateServiceCommand (CLUSTER env) (JOB_SERVICE env) (DESIRED_UP env) ] ;;
      ret (ok true)
  else if action === "down" then
    promise_all
      [ UpdateServiceCommand (CLUSTER env) (FRONTEND_SERVICE env) 0;
        UpdateServiceCommand (CLUSTER env) (BACKEND_SERVICE env) 0;
        UpdateServiceCommand (CLUSTER env) (JOB_SERVICE env) 0 ] ;;
    ret (ok true)
  else ret (ok false).

End EcsBusinessHours.

(** ** functions/ec2-business-hours/index.ts *)

Module Ec2BusinessHours.

Record Env := {
  INSTANCE_ID : option string;
  HOSTED_ZONE_ID : string;
  RECORD_NAME : string
}.

(** [desc.Reservations?.[0]?.Instances?.[0]] *)
Definition firstInstance (o : Output) : option Instance :=
  match o with
  | Described {| Reservations := Some ({| Instances := Some (i :: _) |} :: _) |} =>
      Some i
  | _ => None
  end.

Definition stateName (i : option Instance) : option string :=
  match i with
  | Some i => State_Name i
  | None => None
  end.

Definition publicIp (i : option Instance) : option string :=
  match i with
  | Some i => PublicIpAddress i
  | None => None
  end.

(** The loop [for (let i = 0; i < maxAttempts; i++)], with [attempts]
    iterations still to run and [i] the loop counter. *)
Fixpoint waitForIp (env : Env) (attempts : nat) (i : Z) : Async unit :=
  match attempts with
  | O => ret tt
  | S attempts' =>
      (if 0 <? i then delay 15000 else ret tt) ;;
      desc <- send (DescribeInstancesCommand [INSTANCE_ID env]) ;;
      let res := firstInstance desc in
      let ip := publicIp res in
      if truthy ip then
        send (ChangeResourceRecordSetsCommand (HOSTED_ZONE_ID env) "UPSERT"
                (RECORD_NAME env) "A" 60 (interpolate ip)) ;;
        ret tt
      else waitForIp env attempts' (i + 1)
  end.

Definition maxAttempts : nat := 20.

Definition handler (env : Env) (now : Date) (action : string) : Async Reply :=
  let isHoliday := isJapanHolidayJst now in
  if action === "start" then
    desc0 <- send (DescribeInstancesCommand [INSTANCE_ID env]) ;;
    let inst0 := firstInstance desc0 in
    let state0 := stateName inst0 in
    let isRunning := is_str state0 "running" in
    let isPending := is_str state0 "pending" in
    let skipStartDueToHoliday := isHoliday && negb isRunning && negb isPending in
    (if negb skipStartDueToHoliday && negb isRunning && negb isPending
     then try_send (StartInstancesCommand [INSTANCE_ID env])
     else ret tt) ;;
    (if negb (HOSTED_ZONE_ID env === "") && negb (RECORD_NAME env === "") then
       if skipStartDueToHoliday && negb isRunning && negb isPending
       then ret tt
       else waitForIp env maxAttempts 0
     else ret tt) ;;
    ret (if skipStartDueToHoliday && negb isRunning && negb isPending
         then skipped else ok true)
  else if action === "stop" then
    try_send (StopInstancesCommand [INSTANCE_ID env]) ;;
    ret (ok true)
  else ret (ok false).

End Ec2BusinessHours.

(** ** functions/rds-business-hours/index.ts *)

Module RdsBusinessHours.

Record Env := { DB_INSTANCE_IDENTIFIER : option string }.

Definition handler (env : Env) (now : Date) (action : string) : Async Reply :=
  let isHoliday := isJapanHolidayJst now in
  if action === "start" then
    if isHoliday then ret skipped
    else
      send (StartDBInstanceCommand (DB_INSTANCE_IDENTIFIER env)) ;;
      ret (ok true)
  else if action === "stop" then
    send (StopDBInstanceCommand (DB_INSTANCE_IDENTIFIER env)) ;;
    ret (ok true)
  else ret (ok false).

End RdsBusinessHours.

(** ** functions/db-init/index.ts *)

Module DbInit.

Record ProcessEnv := {
  DB_HOST : option string;
  DB_PORT : option string;
  DB_NAME : option string;
  MASTER_SECRET_ARN : option string;
  APPUSER_SECRET_ARN : option string;
  READONLY_SECRET_ARN : option string
}.

Record Event := {
  RequestType : option string;
  PhysicalResourceId : option string
}.

Record SecretJson := {
  username : option string;
  password : option string
}.

(** The statements [ensureUser] sends, by their shape. *)
Inductive Statement :=
| CreateUserIfNotExists (user pass : string)
| AlterUser (user pass : string)
| GrantAllPrivileges (dbName user : string)
| RevokeDrop (dbName user : string)
| GrantSelect (dbName user : string)
| FlushPrivileges.

(** The text and the placeholder values of a statement, as the handler
    writes them. *)
Definition sql (st : Statement) : string * list string :=
  match st with
  | CreateUserIfNotExists user pass =>
      ("CREATE USER IF NOT EXISTS `" ++ user ++ "`@'%' IDENTIFIED BY ?", [pass])
  | AlterUser user pass =>
      ("ALTER USER `" ++ user ++ "`@'%' IDENTIFIED BY ?", [pass])
  | GrantAllPrivileges dbName user =>
      ("GRANT ALL PRIVILEGES ON `" ++ dbName ++ "`.* TO `" ++ user ++ "`@'%'", [])
  | RevokeDrop dbName user =>
      ("REVOKE DROP ON `" ++ dbName ++ "`.* FROM `" ++ user ++ "`@'%'", [])
  | GrantSelect dbName user =>
      ("GRANT SELECT ON `" ++ dbName ++ "`.* TO `" ++ user ++ "`@'%'", [])
  | FlushPrivileges => ("FLUSH PRIVILEGES", [])
  end.

(** *** The database engine

    The server is outside the repository; it is modelled by what the
    statements above read and write: accounts with a password and the
    privileges granted at database level, kept under the database name as
    the statement writes it ([ON db.*]).  [GRANT ALL PRIVILEGES] grants
    every privilege of the list.  MySQL reads [_] and [%] in the name of a
    grant as wildcards, so that a grant also gives access to the databases
    of other names that match; what an account may do on such a database
    is not modelled, only what is recorded for the name as written. *)
Inductive Privilege :=
| SELECT | INSERT | UPDATE | DELETE | CREATE | DROP | REFERENCES | INDEX
| ALTER | CREATE_TEMPORARY_TABLES | LOCK_TABLES | EXECUTE | CREATE_VIEW
| SHOW_VIEW | CREATE_ROUTINE | ALTER_ROUTINE | EVENT | TRIGGER.

Definition is_SELECT (p : Privilege) : bool :=
  match p with SELECT => true | _ => false end.

Definition is_DROP (p : Privilege) : bool :=
  match p with DROP => true | _ => false end.

Record Account := {
  identified_by : string;
  granted : string -> Privilege -> bool
}.

Definition Database := string -> option Account.

Definition no_accounts : Database := fun _ => None.

Definition put (user : string) (a : Account) (d : Database) : Database :=
  fun u => if u === user then Some a else d u.

(** Change the privileges of an account on one database. *)
Definition regrant (dbName : string) (f : Privilege -> bool -> bool)
  (a : Account) : Account :=
  {| identified_by := identified_by a;
     granted := fun db p =>
       if db === dbName then f p (granted a db p) else granted a db p |}.

(** The engine runs a statement; [None] is an error of the engine (the
    account of an [ALTER], [GRANT] or [REVOKE] does not exist). *)
Definition execute (st : Statement) (d : Database) : option Database :=
  match st with
  | CreateUserIfNotExists user pass =>
      match d user with
      | Some _ => Some d
      | None =>
          Some (put user {| identified_by := pass;
                            granted := fun _ _ => false |} d)
      end
  | AlterUser user pass =>
      match d user with
      | Some a =>
          Some (put user {| identified_by := pass; granted := granted a |} d)
      | None => None
      end
  | GrantAllPrivileges dbName user =>
      match d user with
      | Some a => Some (put user (regrant dbName (fun _ _ => true) a) d)
      | None => None
      end
  | RevokeDrop dbName user =>
      match d user with
      | Some a =>
          Some (put user
                  (regrant dbName (fun p g => if is_DROP p then false else g) a) d)
      | None => None
      end
  | GrantSelect dbName user =>
      match d user with
      | Some a =>
          Some (put user
                  (regrant dbName (fun p g => if is_SELECT p then true else g) a) d)
      | None => None
      end
  | FlushPrivileges => Some d
  end.

(** *** Effects of the handler *)

Inductive Action :=
| GetSecretValue (SecretId : string)
| CreateConnection (host port user pass database : string)
| Wait (ms : Z)
| Query (st : Statement)
| EndConnection.

(** What the handler has done so far and the database it talks to. *)
Record Run := {
  journal : list Action;
  database : Database
}.

(** The surroundings of an invocation: the secret store, whether the
    server accepts a connection, and failures of the connection under a
    query or at its end. *)
Record World := {
  secret_value : string -> Settled SecretJson;
  connection : list Action -> Settled unit;
  query_failure : list Action -> Statement -> option string;
  end_failure : list Action -> option string
}.

Definition Db (A : Type) : Type := Eff World Run A.

Definition log (a : Action) (r : Run) : Run :=
  {| journal := (journal r ++ [a])%list; database := database r |}.

(** [JSON.parse] of the secret that [sm.send(new GetSecretValueCommand)]
    returns. *)
Definition getSecretJson (arn : string) : Db SecretJson :=
  fun w r =>
    match secret_value w arn with
    | Fulfilled s => (Return s, log (GetSecretValue arn) r)
    | Rejected e => (Throw e, log (GetSecretValue arn) r)
    end.

(** [await mysql.createConnection(opts)] *)
Definition createConnection (host port user pass db : string) : Db unit :=
  fun w r =>
    match connection w (journal r) with
    | Fulfilled _ => (Return tt, log (CreateConnection host port user pass db) r)
    | Rejected e => (Throw e, log (CreateConnection host port user pass db) r)
    end.

Definition wait (ms : Z) : Db unit :=
  fun _ r => (Return tt, log (Wait ms) r).

(** [await conn.query(text, values)] *)
Definition query (st : Statement) : Db unit :=
  fun w r =>
    match query_failure w (journal r) st with
    | Some e => (Throw e, log (Query st) r)
    | None =>
        match execute st (database r) with
        | Some d =>
            (Return tt, {| journal := (journal r ++ [Query st])%list;
                           database := d |})
        | None => (Throw "ER_SQL", log (Query st) r)
        end
    end.

(** [await conn.end()] *)
Definition endConnection : Db unit :=
  fun w r =>
    match end_failure w (journal r) with
    | Some e => (Throw e, log EndConnection r)
    | None => (Return tt, log EndConnection r)
    end.

Definition ensureUser (user pass dbName : string) (isApp : bool) : Db unit :=
  query (CreateUserIfNotExists user pass) ;;
  query (AlterUser user pass) ;;
  (if isApp then
     query (GrantAllPrivileges dbName user) ;;
     query (RevokeDrop dbName user)
   else
     query (GrantSelect dbName user)) ;;
  query FlushPrivileges.

(** The loop of [connectWithRetry], with [attempts] iterations still to run
    and the error of the last failed attempt. *)
Fixpoint connectLoop (host port user pass db : string) (attempts : nat)
  (lastErr : string) : Db unit :=
  match attempts with
  | O => throw lastErr
  | S attempts' =>
      fun w r =>
        match createConnection host port user pass db w r with
        | (Return _, r') => (Return tt, r')
        | (Throw e, r') =>
            (wait 10000 ;; connectLoop host port user pass db attempts' e) w r'
        end
  end.

Definition connectWithRetry (host port user pass db : string) : Db unit :=
  connectLoop host port user pass db 12 "undefined".

Definition fallbackId (env : ProcessEnv) : string :=
  if truthy (DB_HOST env) && truthy (DB_NAME env)
  then interpolate (DB_HOST env) ++ ":" ++ interpolate (DB_NAME env)
  else "db-init".

(** The handler returns [{ PhysicalResourceId }]; the model returns the
    identifier. *)
Definition handler (env : ProcessEnv) (event : Event) : Db string :=
  let reqType := or_else (RequestType event) "Create" in
  if reqType === "Delete" then
    let existingId := PhysicalResourceId event in
    ret (or_else existingId (fallbackId env))
  else
    match DB_HOST env, DB_PORT env, DB_NAME env,
          MASTER_SECRET_ARN env, APPUSER_SECRET_ARN env, READONLY_SECRET_ARN env
    with
    | Some host, Some port, Some name, Some masterArn, Some appArn, Some roArn =>
        if (host === "") || (port === "") || (name === "") ||
           (masterArn === "") || (appArn === "") || (roArn === "")
        then throw "Missing required environment variables"
        else
          master <- getSecretJson masterArn ;;
          appuser <- getSecretJson appArn ;;
          readonly <- getSecretJson roArn ;;
          if negb (truthy (username master)) || negb (truthy (password master))
          then throw "Master secret missing username/password"
          else if negb (truthy (username appuser)) || negb (truthy (password appuser))
          then throw "AppUser secret missing username/password"
          else if negb (truthy (username readonly)) || negb (truthy (password readonly))
          then throw "ReadOnlyUser secret missing username/password"
          else
            connectWithRetry host port (interpolate (username master))
              (interpolate (password master)) name ;;
            try_finally
              (ensureUser (interpolate (username appuser))
                 (interpolate (password appuser)) name true ;;
               ensureUser (interpolate (username readonly))
                 (interpolate (password readonly)) name false)
              endConnection ;;
            ret (host ++ ":" ++ name)
    | _, _, _, _, _, _ => throw "Missing required environment variables"
    end.

End DbInit.

(** ** functions/ecr-validate-single-arch/index.ts *)

Module EcrValidateSingleArch.

Record ImageDetail := {
  artifactMediaType : option string;
  imageManifestMediaType : option string
}.

Record DescribeImagesResponse := {
  imageDetails : option (list ImageDetail)
}.

Record Event := {
  RequestType : string;
  RepositoryName : string;
  ImageTag : option string
}.

(** [DescribeImagesCommand({ repositoryName, imageIds: [{ imageTag }] })] *)
Inductive Call := DescribeImagesCommand (repositoryName imageTag : string).

Definition Registry := string -> string -> Settled DescribeImagesResponse.

Definition Ecr (A : Type) : Type := Eff Registry (list Call) A.

Definition describeImages (repo tag : string) : Ecr DescribeImagesResponse :=
  fun w calls =>
    match w repo tag with
    | Fulfilled r => (Return r, (calls ++ [DescribeImagesCommand repo tag])%list)
    | Rejected e => (Throw e, (calls ++ [DescribeImagesCommand repo tag])%list)
    end.

Definition isIndex (v : option string) : bool :=
  match v with
  | Some s =>
      negb (s === "") && (includes "manifest.list" s || includes "image.index" s)
  | None => false
  end.

Definition notFoundMessage (repo tag : string) : string :=
  "ECR tag not found: " ++ repo ++ ":" ++ tag ++ ". Push the image before deploy.".

Definition multiArchMessage (repo tag : string)
  (artifactType manifestType : option string) : string :=
  "Repository '" ++ repo ++ "' tag '" ++ tag ++
  "' is a multi-arch Image Index (" ++
  interpolate (or_opt artifactType manifestType) ++
  "). Please push a single-arch (linux/amd64) image.".

(** The handler returns [{ PhysicalResourceId }]; the model returns the
    identifier. *)
Definition handler (event : Event) : Ecr string :=
  if RequestType event === "Delete" then ret "ecr-validate-single-arch"
  else
    let repo := RepositoryName event in
    let tag := or_else (ImageTag event) "latest" in
    res <- describeImages repo tag ;;
    match imageDetails res with
    | Some (details :: _) =>
        let artifactType := artifactMediaType details in
        let manifestType := imageManifestMediaType details in
        if isIndex artifactType || isIndex manifestType
        then throw (multiArchMessage repo tag artifactType manifestType)
        else ret "ecr-validate-single-arch"
    | _ => throw (notFoundMessage repo tag)
    end.

End EcrValidateSingleArch.

(** ** rdsDbName *)

Definition is_lower (c : ascii) : bool :=
  let n := nat_of_ascii c in (97 <=? n)%nat && (n <=? 122)%nat.

Definition is_upper (c : ascii) : bool :=
  let n := nat_of_ascii c in (65 <=? n)%nat && (n <=? 90)%nat.

Definition is_digit (c : ascii) : bool :=
  let n := nat_of_ascii c in (48 <=? n)%nat && (n <=? 57)%nat.

Definition is_underscore (c : ascii) : bool := Ascii.eqb c "_"%char.

(** The class [[a-z0-9_]]. *)
Definition is_word (c : ascii) : bool :=
  is_lower c || is_digit c || is_underscore c.

Fixpoint map_string (f : ascii -> ascii) (s : string) : string :=
  match s with
  | EmptyString => EmptyString
  | String c s' => String (f c) (map_string f s')
  end.

(** [s.toLowerCase()] on the letters of ASCII; other bytes are kept.  On
    a string of ASCII this is what the code computes; beyond ASCII
    JavaScript also maps the Kelvin sign to [k] and the dotted capital I
    to [i] and a combining dot. *)
Definition toLowerCase (s : string) : string :=
  map_string
    (fun c => if is_upper c then ascii_of_nat (nat_of_ascii c + 32) else c) s.

(** [s.replace(/[^a-z0-9_]/g, '_')] *)
Definition replace_non_word (s : string) : string :=
  map_string (fun c => if is_word c then c else "_"%char) s.

(** [s.replace(/_+/g, '_')] *)
Fixpoint collapse_underscores (s : string) : string :=
  match s with
  | EmptyString => EmptyString
  | String c s' =>
      if is_underscore c then
        match s' with
        | String c' _ =>
            if is_underscore c' then collapse_underscores s'
            else String c (collapse_underscores s')
        | EmptyString => String c EmptyString
        end
      else String c (collapse_underscores s')
  end.

(** [/^[a-z]/.test(s)] *)
Definition starts_with_letter (s : string) : bool :=
  match s with
  | String c _ => is_lower c
  | EmptyString => false
  end.

(** Drop the longest prefix, or suffix, of characters of a class. *)
Fixpoint strip_leading (p : ascii -> bool) (s : string) : string :=
  match s with
  | String c s' => if p c then strip_leading p s' else s
  | EmptyString => EmptyString
  end.

Fixpoint strip_trailing (p : ascii -> bool) (s : string) : string :=
  match s with
  | EmptyString => EmptyString
  | String c s' =>
      match strip_trailing p s' with
      | EmptyString => if p c then EmptyString else String c EmptyString
      | rest => String c rest
      end
  end.

(** [s.replace(/^_+|_+$/g, '')] *)
Definition strip_underscores (s : string) : string :=
  strip_trailing is_underscore (strip_leading is_underscore s).

(** [s.slice(0, n)] *)
Fixpoint slice0 (n : nat) (s : string) : string :=
  match n, s with
  | S n', String c s' => String c (slice0 n' s')
  | _, _ => EmptyString
  end.

(** The body of [rdsDbName] from the lower-cased base on. *)
Definition cleanDbName (base : string) : string :=
  let cleaned := replace_non_word base in
  let cleaned := collapse_underscores cleaned in
  let cleaned := if negb (starts_with_letter cleaned)
                 then "db_" ++ cleaned else cleaned in
  let cleaned := strip_underscores cleaned in
  slice0 64 cleaned.

Definition rdsDbName (project environment : string) : string :=
  let base := toLowerCase (project ++ "_db_" ++ environment) in
  cleanDbName base.

(** ** Base64 (RFC 4648), as [Buffer.prototype.toString('base64')] writes it *)

Module Base64.

Definition alphabet : string :=
  "ABCDEFGHIJKLMNOPQRSTUVWXYZabcdefghijklmnopqrstuvwxyz0123456789+/".

(** The character of a six-bit value. *)
Definition char_of_sextet (n : N) : ascii :=
  match String.get (N.to_nat n) alphabet with
  | Some c => c
  | None => "="%char
  end.

(** The six-bit value of a character of the alphabet. *)
Definition sextet_of_char (c : ascii) : option N :=
  let n := N_of_ascii c in
  if (65 <=? n)%N && (n <=? 90)%N then Some (n - 65)%N
  else if (97 <=? n)%N && (n <=? 122)%N then Some (n - 71)%N
  else if (48 <=? n)%N && (n <=? 57)%N then Some (n + 4)%N
  else if (n =? 43)%N then Some 62%N
  else if (n =? 47)%N then Some 63%N
  else None.

Definition pad : ascii := "="%char.

Fixpoint encode (bytes : string) : string :=
  match bytes with
  | String a (String b (String c rest)) =>
      let n := (N_of_ascii a * 65536 + N_of_ascii b * 256 + N_of_ascii c)%N in
      String (char_of_sextet (n / 262144))
        (String (char_of_sextet ((n / 4096) mod 64))
           (String (char_of_sextet ((n / 64) mod 64))
              (String (char_of_sextet (n mod 64)) (encode rest))))
  | String a (String b EmptyString) =>
      let n := (N_of_ascii a * 256 + N_of_ascii b)%N in
      String (char_of_sextet (n / 1024))
        (String (char_of_sextet ((n / 16) mod 64))
           (String (char_of_sextet ((n mod 16) * 4))
              (String pad EmptyString)))
  | String a EmptyString =>
      let n := N_of_ascii a in
      String (char_of_sextet (n / 4))
        (String (char_of_sextet ((n mod 4) * 16))
           (String pad (String pad EmptyString)))
  | EmptyString => EmptyString
  end.

(** Strict decoding: groups of four characters of the alphabet, padding
    only in the last group. *)
Fixpoint decode (text : string) : option string :=
  match text with
  | EmptyString => Some EmptyString
  | String c1 (String c2 (String c3 (String c4 rest))) =>
      match sextet_of_char c1, sextet_of_char c2 with
      | Some s1, Some s2 =>
          if Ascii.eqb c3 pad && Ascii.eqb c4 pad then
            match rest with
            | EmptyString =>
                Some (String (ascii_of_N (s1 * 4 + s2 / 16)) EmptyString)
            | _ => None
            end
          else
            match sextet_of_char c3 with
            | Some s3 =>
                if Ascii.eqb c4 pad then
                  match rest with
                  | EmptyString =>
                      let n := (s1 * 1024 + s2 * 16 + s3 / 4)%N in
                      Some (String (ascii_of_N (n / 256))
                              (String (ascii_of_N (n mod 256)) EmptyString))
                  | _ => None
                  end
                else
                  match sextet_of_char c4, decode rest with
                  | Some s4, Some bytes =>
                      let n := (s1 * 262144 + s2 * 4096 + s3 * 64 + s4)%N in
                      Some (String (ascii_of_N (n / 65536))
                              (String (ascii_of_N ((n / 256) mod 256))
                                 (String (ascii_of_N (n mod 256)) bytes)))
                  | _, _ => None
                  end
            | None => None
            end
      | _, _ => None
      end
  | _ => None
  end.

End Base64.

(** ** JSON values

    What [JSON.parse] returns.  An object is the list of its properties in
    property order; when a key occurs twice the later occurrence is the
    property.  The handlers never compute with the numbers of a log line:
    a number is carried from [JSON.parse] to [JSON.stringify] as it is, and
    [number] is the type the runtime has for them (the doubles of
    JavaScript, with their infinities and signed zero, in Node). *)

#[warnings="-register-all"]
Inductive json (number : Type) :=
| JNull
| JBool (b : bool)
| JNumber (n : number)
| JString (s : string)
| JArray (items : list (json number))
| JObject (members : list (string * json number)).

Arguments JNull {number}.
Arguments JBool {number} b.
Arguments JNumber {number} n.
Arguments JString {number} s.
Arguments JArray {number} items.
Arguments JObject {number} members.

Definition object (number : Type) := list (string * json number).

Section Properties.

Context {number : Type}.

(** [o[key]], [None] for [undefined]. *)
Fixpoint get (key : string) (o : object number) : option (json number) :=
  match o with
  | [] => None
  | (k, v) :: o' =>
      match get key o' with
      | Some v' => Some v'
      | None => if k === key then Some v else None
      end
  end.

Definition has_key (key : string) (o : object number) : bool :=
  existsb (fun kv => fst kv === key) o.

(** [o[key] = v]: an existing property keeps its place, a new one is
    added last. *)
Fixpoint set (key : string) (v : json number) (o : object number)
  : object number :=
  match o with
  | [] => [(key, v)]
  | (k, v') :: o' =>
      if k === key then
        if has_key key o' then (k, v') :: set key v o' else (k, v) :: o'
      else (k, v') :: set key v o'
  end.

Fixpoint indexed (i : Z) (items : list (json number)) : object number :=
  match items with
  | [] => []
  | v :: items' => (toString i, v) :: indexed (i + 1) items'
  end.

(** The own enumerable properties of a value that [typeof] calls an
    object: the members of an object, the indexed items of an array. *)
Definition ownProperties (v : json number) : object number :=
  match v with
  | JObject members => members
  | JArray items => indexed 0 items
  | _ => []
  end.

(** [{ ...source }] copied onto [target], property by property. *)
Definition spread (source : json number) (target : object number)
  : object number :=
  fold_left (fun o kv => set (fst kv) (snd kv) o) (ownProperties source) target.

(** [!structured || typeof structured !== 'object'] is false. *)
Definition isObject (v : json number) : bool :=
  match v with
  | JObject _ | JArray _ => true
  | _ => false
  end.

End Properties.

(** The line feed, and [parts.join(sep)]. *)
Definition LF : string := String "010"%char EmptyString.

Fixpoint join (sep : string) (parts : list string) : string :=
  match parts with
  | [] => ""
  | [p] => p
  | p :: parts' => p ++ sep ++ join sep parts'
  end.

(** [new Date(t).toISOString()]; [None] is the [RangeError] of an invalid
    time value. *)
Definition isoYear (y : Z) : string :=
  if (0 <=? y) && (y <=? 9999) then padStart 4 (toString y)
  else (if y <? 0 then "-" else "+") ++ padStart 6 (toString (Z.abs y)).

Definition toISOString (t : Z) : option string :=
  if valid_time t then
    let ms := t mod msPerDay in
    Some (isoYear (getFullYear t) ++ "-" ++
          padStart 2 (toString (getMonth t + 1)) ++ "-" ++
          padStart 2 (toString (getDate t)) ++ "T" ++
          padStart 2 (toString (ms / 3600000)) ++ ":" ++
          padStart 2 (toString ((ms / 60000) mod 60)) ++ ":" ++
          padStart 2 (toString ((ms / 1000) mod 60)) ++ "." ++
          padStart 3 (toString (ms mod 1000)) ++ "Z")
  else None.

(** ** functions/logs-firehose-transform/index.ts *)

Module LogsFirehoseTransform.

Record FirehoseTransformationEventRecord := {
  recordId : string;
  approximateArrivalTimestamp : Z;
  data : string
}.

Record FirehoseTransformationEvent := {
  invocationId : string;
  deliveryStreamArn : string;
  region : string;
  records : list FirehoseTransformationEventRecord
}.

Inductive FirehoseRecordResult := Ok | Dropped | ProcessingFailed.

Record FirehoseTransformationResultRecord := {
  result_recordId : string;
  result : FirehoseRecordResult;
  result_data : string
}.

Record LogEvent := {
  id : string;
  timestamp : Z;
  message : option string
}.

(** The payload at its declared type; [logEvents] and [message] may be
    missing, as the handler provides for with [??] and [?.]. *)
Record CloudWatchLogsFirehosePayload := {
  messageType : string;
  owner : string;
  logGroup : string;
  logStream : string;
  logEvents : option (list LogEvent)
}.

(** The library functions the handler calls, and the numbers they read
    and write.  [None] is a thrown error.  [JSON_parse_payload] is
    [JSON.parse(text) as CloudWatchLogsFirehosePayload]. *)
Class Runtime := {
  number : Type;
  Buffer_from_base64 : string -> string;
  gunzipSync : string -> option string;
  JSON_parse_payload : string -> option CloudWatchLogsFirehosePayload;
  JSON_parse : string -> option (json number);
  JSON_stringify : json number -> string;
  trim : string -> string
}.

Section Handler.
Context {rt : Runtime}.

Definition encodeRecords (values : list (object number)) : string :=
  let text := join LF (map (fun value => JSON_stringify (JObject value)) values)
              ++ LF in
  Base64.encode text.

Definition buildErrorRecord (record : FirehoseTransformationEventRecord)
  (result : FirehoseRecordResult) : FirehoseTransformationResultRecord :=
  {| result_recordId := recordId record;
     result := result;
     result_data := data record |}.

(** The object literal of the loop body. *)
Definition enrich (parsed : CloudWatchLogsFirehosePayload)
  (structured : json number) (ingestion_time_iso : string) : object number :=
  set "ingestion_time_iso" (JString ingestion_time_iso)
    (set "log_stream" (JString (logStream parsed))
       (set "log_group" (JString (logGroup parsed))
          (spread structured []))).

(** The value a log event parses to when the loop keeps it: its trimmed
    message is not empty and parses to an object. *)
Definition structuredOf (logEvent : LogEvent) : option (json number) :=
  match message logEvent with
  | None => None
  | Some m =>
      let rawMessage := trim m in
      if rawMessage === "" then None
      else
        match JSON_parse rawMessage with
        | Some structured => if isObject structured then Some structured else None
        | None => None
        end
  end.

(** The loop over the log events; [None] when [toISOString] throws. *)
Fixpoint enrichedMessages (parsed : CloudWatchLogsFirehosePayload)
  (events : list LogEvent) : option (list (object number)) :=
  match events with
  | [] => Some []
  | logEvent :: events' =>
      match structuredOf logEvent with
      | None => enrichedMessages parsed events'
      | Some structured =>
          match toISOString (timestamp logEvent) with
          | None => None
          | Some iso =>
              match enrichedMessages parsed events' with
              | Some rest => Some (enrich parsed structured iso :: rest)
              | None => None
              end
          end
      end
  end.

(** The body of the [try] block; [None] when it throws. *)
Definition tryProcess (record : FirehoseTransformationEventRecord)
  : option (list FirehoseTransformationResultRecord) :=
  let payload := Buffer_from_base64 (data record) in
  match gunzipSync payload with
  | None => None
  | Some decompressed =>
      match JSON_parse_payload decompressed with
      | None => None
      | Some parsed =>
          if negb (messageType parsed === "DATA_MESSAGE")
          then Some [buildErrorRecord record Dropped]
          else
            match enrichedMessages parsed
                    (match logEvents parsed with Some l => l | None => [] end)
            with
            | None => None
            | Some [] => Some [buildErrorRecord record Dropped]
            | Some enriched =>
                Some [ {| result_recordId := recordId record;
                          result := Ok;
                          result_data := encodeRecords enriched |} ]
            end
      end
  end.

Definition processRecord (record : FirehoseTransformationEventRecord)
  : list FirehoseTransformationResultRecord :=
  match tryProcess record with
  | Some results => results
  | None => [buildErrorRecord record ProcessingFailed]
  end.

(** The handler returns [{ records: transformed }]; the model returns the
    records. *)
Definition handler (event : FirehoseTransformationEvent)
  : list FirehoseTransformationResultRecord :=
  fold_left (fun transformed record => (transformed ++ processRecord record)%list)
    (records event) [].

(** The log events the loop keeps, each with the value it parsed to. *)
Fixpoint survivors (events : list LogEvent) : list (LogEvent * json number) :=
  match events with
  | [] => []
  | logEvent :: events' =>
      match structuredOf logEvent with
      | Some structured => (logEvent, structured) :: survivors events'
      | None => survivors events'
      end
  end.

End Handler.

End LogsFirehoseTransform.


(** The keys the transform writes. *)
Definition enrichmentKey (k : string) : bool :=
  (k === "log_group") || (k === "log_stream") || (k === "ingestion_time_iso").

(** ** A reference runtime

    One runtime to run the transform on fixtures, not a model of Node: its
    numbers are the integers, its codec reads and writes compact JSON text
    only (no white space between tokens, no fraction or exponent, [\u]
    escapes below U+0080) and refuses every other text, its [trim] is on
    the white space of ASCII, and its payloads are stored uncompressed.  On
    the texts of the fixtures it reads and writes what [JSON.parse] and
    [JSON.stringify] do. *)

Module Reference.

Import LogsFirehoseTransform.

Definition dquote : ascii := "034"%char.
Definition backslash : ascii := "092"%char.

Definition hex_char (n : N) : ascii :=
  match String.get (N.to_nat n) "0123456789abcdef" with
  | Some c => c
  | None => "0"%char
  end.

Definition hex_value (c : ascii) : option N :=
  let n := N_of_ascii c in
  if (48 <=? n)%N && (n <=? 57)%N then Some (n - 48)%N
  else if (97 <=? n)%N && (n <=? 102)%N then Some (n - 87)%N
  else if (65 <=? n)%N && (n <=? 70)%N then Some (n - 55)%N
  else None.

(** *** Writing *)

Definition escape_char (c : ascii) : string :=
  let n := N_of_ascii c in
  if Ascii.eqb c dquote then String backslash (String dquote "")
  else if Ascii.eqb c backslash then String backslash (String backslash "")
  else if (n =? 8)%N then String backslash "b"
  else if (n =? 9)%N then String backslash "t"
  else if (n =? 10)%N then String backslash "n"
  else if (n =? 12)%N then String backslash "f"
  else if (n =? 13)%N then String backslash "r"
  else if (n <? 32)%N then
    String backslash
      (String "u" (String "0" (String "0"
         (String (hex_char (n / 16)) (String (hex_char (n mod 16)) "")))))
  else String c "".

Fixpoint escape (s : string) : string :=
  match s with
  | EmptyString => EmptyString
  | String c s' => escape_char c ++ escape s'
  end.

Definition quote (s : string) : string :=
  String dquote (escape s ++ String dquote "").

Fixpoint write_items (write : json Z -> string) (items : list (json Z)) : string :=
  match items with
  | [] => "]"
  | y :: items' => "," ++ write y ++ write_items write items'
  end.

Fixpoint write_members (write : json Z -> string) (members : object Z) : string :=
  match members with
  | [] => "}"
  | (k, y) :: members' =>
      "," ++ quote k ++ ":" ++ write y ++ write_members write members'
  end.

Fixpoint stringify (v : json Z) : string :=
  match v with
  | JNull => "null"
  | JBool true => "true"
  | JBool false => "false"
  | JNumber n => toString n
  | JString s => quote s
  | JArray [] => "[]"
  | JArray (x :: items) => "[" ++ stringify x ++ write_items stringify items
  | JObject [] => "{}"
  | JObject ((k, x) :: members) =>
      "{" ++ quote k ++ ":" ++ stringify x ++ write_members stringify members
  end.

(** *** Reading *)

Definition unescape (e : ascii) : option ascii :=
  if Ascii.eqb e dquote then Some dquote
  else if Ascii.eqb e backslash then Some backslash
  else if Ascii.eqb e "/" then Some "/"%char
  else if Ascii.eqb e "b" then Some "008"%char
  else if Ascii.eqb e "t" then Some "009"%char
  else if Ascii.eqb e "n" then Some "010"%char
  else if Ascii.eqb e "f" then Some "012"%char
  else if Ascii.eqb e "r" then Some "013"%char
  else None.

Definition consChar (c : ascii) (r : option (string * string))
  : option (string * string) :=
  match r with
  | Some (s, rest) => Some (String c s, rest)
  | None => None
  end.

(** The characters of a string literal after its opening quote, and what
    follows the closing quote. *)
Fixpoint parse_chars (s : string) : option (string * string) :=
  match s with
  | EmptyString => None
  | String c r =>
      if Ascii.eqb c dquote then Some (EmptyString, r)
      else if Ascii.eqb c backslash then
        match r with
        | String e r' =>
            match unescape e with
            | Some ch => consChar ch (parse_chars r')
            | None =>
                if Ascii.eqb e "u" then
                  match r' with
                  | String h1 (String h2 (String h3 (String h4 r''))) =>
                      match hex_value h1, hex_value h2, hex_value h3, hex_value h4 with
                      | Some a, Some b, Some c', Some d =>
                          let n := (a * 4096 + b * 256 + c' * 16 + d)%N in
                          if (n <? 128)%N
                          then consChar (ascii_of_N n) (parse_chars r'')
                          else None
                      | _, _, _, _ => None
                      end
                  | _ => None
                  end
                else None
            end
        | EmptyString => None
        end
      else if (N_of_ascii c <? 32)%N then None
      else consChar c (parse_chars r)
  end.

Definition digit_of_char (c : ascii) : option (Decimal.uint -> Decimal.uint) :=
  if Ascii.eqb c "0" then Some Decimal.D0
  else if Ascii.eqb c "1" then Some Decimal.D1
  else if Ascii.eqb c "2" then Some Decimal.D2
  else if Ascii.eqb c "3" then Some Decimal.D3
  else if Ascii.eqb c "4" then Some Decimal.D4
  else if Ascii.eqb c "5" then Some Decimal.D5
  else if Ascii.eqb c "6" then Some Decimal.D6
  else if Ascii.eqb c "7" then Some Decimal.D7
  else if Ascii.eqb c "8" then Some Decimal.D8
  else if Ascii.eqb c "9" then Some Decimal.D9
  else None.

(** The longest run of digits at the head of a text. *)
Fixpoint read_digits (s : string) : Decimal.uint * string :=
  match s with
  | EmptyString => (Decimal.Nil, s)
  | String c r =>
      match digit_of_char c with
      | Some d => let (ds, rest) := read_digits r in (d ds, rest)
      | None => (Decimal.Nil, s)
      end
  end.

(** An integer in the decimal form [toString] writes: at least one digit,
    no sign before zero and no zero before another digit. *)
Definition canonical (i : Decimal.int) : option Z :=
  let n := Z.of_int i in
  if toString n === NilEmpty.string_of_int i then Some n else None.

Definition parse_number (s : string) : option (json Z * string) :=
  match s with
  | EmptyString => None
  | String c r =>
      if Ascii.eqb c "-" then
        let (ds, rest) := read_digits r in
        match canonical (Decimal.Neg ds) with
        | Some n => Some (JNumber n, rest)
        | None => None
        end
      else
        let (ds, rest) := read_digits s in
        match canonical (Decimal.Pos ds) with
        | Some n => Some (JNumber n, rest)
        | None => None
        end
  end.

(** What follows a word at the head of a text. *)
Fixpoint after (word s : string) : option string :=
  match word, s with
  | EmptyString, _ => Some s
  | String a word', String b s' => if Ascii.eqb a b then after word' s' else None
  | String _ _, EmptyString => None
  end.

Definition expect (word : string) (s : string) (v : json Z)
  : option (json Z * string) :=
  match after word s with
  | Some rest => Some (v, rest)
  | None => None
  end.

Fixpoint parse_value (fuel : nat) (s : string) : option (json Z * string) :=
  match fuel with
  | O => None
  | S fuel' =>
      match s with
      | EmptyString => None
      | String c r =>
          if Ascii.eqb c "n" then expect "ull" r JNull
          else if Ascii.eqb c "t" then expect "rue" r (JBool true)
          else if Ascii.eqb c "f" then expect "alse" r (JBool false)
          else if Ascii.eqb c dquote then
            match parse_chars r with
            | Some (str, rest) => Some (JString str, rest)
            | None => None
            end
          else if Ascii.eqb c "[" then
            if startsWith "]" r then expect "]" r (JArray [])
            else
              match parse_value fuel' r with
              | Some (x, r1) =>
                  match parse_items fuel' r1 with
                  | Some (items, rest) => Some (JArray (x :: items), rest)
                  | None => None
                  end
              | None => None
              end
          else if Ascii.eqb c "{" then
            if startsWith "}" r then expect "}" r (JObject [])
            else
              match parse_member fuel' r with
              | Some (m, r1) =>
                  match parse_members fuel' r1 with
                  | Some (members, rest) => Some (JObject (m :: members), rest)
                  | None => None
                  end
              | None => None
              end
          else parse_number s
      end
  end

with parse_items (fuel : nat) (s : string) : option (list (json Z) * string) :=
  match fuel with
  | O => None
  | S fuel' =>
      match s with
      | EmptyString => None
      | String c r =>
          if Ascii.eqb c "]" then Some ([], r)
          else if Ascii.eqb c "," then
            match parse_value fuel' r with
            | Some (y, r1) =>
                match parse_items fuel' r1 with
                | Some (items, rest) => Some (y :: items, rest)
                | None => None
                end
            | None => None
            end
          else None
      end
  end

with parse_member (fuel : nat) (s : string) : option (string * json Z * string) :=
  match fuel with
  | O => None
  | S fuel' =>
      match s with
      | EmptyString => None
      | String c r =>
          if Ascii.eqb c dquote then
            match parse_chars r with
            | Some (k, r0) =>
                match after ":" r0 with
                | Some r1 =>
                    match parse_value fuel' r1 with
                    | Some (x, rest) => Some ((k, x), rest)
                    | None => None
                    end
                | None => None
                end
            | None => None
            end
          else None
      end
  end

with parse_members (fuel : nat) (s : string) : option (object Z * string) :=
  match fuel with
  | O => None
  | S fuel' =>
      match s with
      | EmptyString => None
      | String c r =>
          if Ascii.eqb c "}" then Some ([], r)
          else if Ascii.eqb c "," then
            match parse_member fuel' r with
            | Some (m, r1) =>
                match parse_members fuel' r1 with
                | Some (members, rest) => Some (m :: members, rest)
                | None => None
                end
            | None => None
            end
          else None
      end
  end.

Definition parse (s : string) : option (json Z) :=
  match parse_value (S (String.length s)) s with
  | Some (v, EmptyString) => Some v
  | _ => None
  end.

(** A text a number can be followed by: it does not begin with a digit. *)
Definition follows (rest : string) : Prop :=
  match rest with
  | EmptyString => True
  | String c _ => digit_of_char c = None
  end.

(** *** The rest of the runtime *)

Definition is_space (c : ascii) : bool :=
  let n := N_of_ascii c in
  ((9 <=? n)%N && (n <=? 13)%N) || (n =? 32)%N.

Definition trimAscii (s : string) : string :=
  strip_trailing is_space (strip_leading is_space s).

Definition asString (v : option (json Z)) : option string :=
  match v with
  | Some (JString s) => Some s
  | _ => None
  end.

Definition logEventOf (v : json Z) : option LogEvent :=
  match v with
  | JObject o =>
      match asString (get "id" o), get "timestamp" o with
      | Some i, Some (JNumber t) =>
          Some {| id := i; timestamp := t; message := asString (get "message" o) |}
      | _, _ => None
      end
  | _ => None
  end.

Fixpoint logEventsOf (items : list (json Z)) : option (list LogEvent) :=
  match items with
  | [] => Some []
  | v :: items' =>
      match logEventOf v, logEventsOf items' with
      | Some e, Some es => Some (e :: es)
      | _, _ => None
      end
  end.

(** A payload read from JSON text; texts that are not of the declared type
    are refused. *)
Definition payloadOf (text : string) : option CloudWatchLogsFirehosePayload :=
  match parse text with
  | Some (JObject o) =>
      match asString (get "messageType" o), asString (get "owner" o),
            asString (get "logGroup" o), asString (get "logStream" o) with
      | Some mt, Some ow, Some lg, Some ls =>
          match get "logEvents" o with
          | Some (JArray items) =>
              match logEventsOf items with
              | Some es =>
                  Some {| messageType := mt; owner := ow; logGroup := lg;
                          logStream := ls; logEvents := Some es |}
              | None => None
              end
          | None =>
              Some {| messageType := mt; owner := ow; logGroup := lg;
                      logStream := ls; logEvents := None |}
          | _ => None
          end
      | _, _, _, _ => None
      end
  | _ => None
  end.

Definition base64Bytes (text : string) : string :=
  match Base64.decode text with
  | Some bytes => bytes
  | None => ""
  end.

#[export] Instance runtime : Runtime := {|
  number := Z;
  Buffer_from_base64 := base64Bytes;
  gunzipSync := fun bytes => Some bytes;
  JSON_parse_payload := payloadOf;
  JSON_parse := parse;
  JSON_stringify := stringify;
  trim := trimAscii
|}.

End Reference.

(** ** Observations on a run *)

(** A command that starts or scales up a resource. *)
Definition isStart (e : Entry) : bool :=
  match e with
  | Sent (StartInstancesCommand _) => true
  | Sent (StartDBInstanceCommand _) => true
  | Sent (UpdateServiceCommand _ _ n) => negb (n =? 0)
  | _ => false
  end.

Definition startCalls (j : Journal) : nat := List.length (filter isStart j).

(** A computation is quiet when it starts nothing. *)
Definition quiet {A} (m : Async A) : Prop :=
  forall (p : Provider) (j : Journal), startCalls (snd (m p j)) = startCalls j.

(** The statements among the actions of a run of the bootstrap. *)
Fixpoint queries (actions : list DbInit.Action) : list DbInit.Statement :=
  match actions with
  | [] => []
  | DbInit.Query st :: actions' => st :: queries actions'
  | _ :: actions' => queries actions'
  end.

(** The statements of [ensureUser], in the order it sends them. *)
Definition ensureStatements (user pass dbName : string) (isApp : bool)
  : list DbInit.Statement :=
  ([ DbInit.CreateUserIfNotExists user pass; DbInit.AlterUser user pass ] ++
   (if isApp
    then [ DbInit.GrantAllPrivileges dbName user; DbInit.RevokeDrop dbName user ]
    else [ DbInit.GrantSelect dbName user ]) ++
   [ DbInit.FlushPrivileges ])%list.

(** The engine running statements one after the other. *)
Fixpoint executeAll (sts : list DbInit.Statement) (d : DbInit.Database)
  : option DbInit.Database :=
  match sts with
  | [] => Some d
  | st :: sts' =>
      match DbInit.execute st d with
      | Some d' => executeAll sts' d'
      | None => None
      end
  end.

(** Whether an account holds a privilege on a database. *)
Definition holds (d : DbInit.Database) (user dbName : string)
  (p : DbInit.Privilege) : bool :=
  match d user with
  | Some a => DbInit.granted a dbName p
  | None => false
  end.

(** Whether an account exists. *)
Definition known (d : DbInit.Database) (user : string) : bool :=
  match d user with
  | Some _ => true
  | None => false
  end.

(** The account a statement is about. *)
Definition subject (st : DbInit.Statement) : option string :=
  match st with
  | DbInit.CreateUserIfNotExists u _ | DbInit.AlterUser u _
  | DbInit.GrantAllPrivileges _ u | DbInit.RevokeDrop _ u
  | DbInit.GrantSelect _ u => Some u
  | DbInit.FlushPrivileges => None
  end.

(** What a statement makes of one privilege of one account on one
    database, given whether it was held before. *)
Definition effect (st : DbInit.Statement) (user dbName : string)
  (p : DbInit.Privilege) (held : bool) : bool :=
  match st with
  | DbInit.GrantAllPrivileges db u =>
      if (user === u) && (dbName === db) then true else held
  | DbInit.RevokeDrop db u =>
      if (user === u) && (dbName === db) && DbInit.is_DROP p then false else held
  | DbInit.GrantSelect db u =>
      if (user === u) && (dbName === db) && DbInit.is_SELECT p then true else held
  | _ => held
  end.

(** The read-only account holds nothing beyond [SELECT]. *)
Definition readOnlyAtMost (dbName ro : string) (d : DbInit.Database) : Prop :=
  forall p, holds d ro dbName p = true -> p = DbInit.SELECT.

(** The privilege invariant of the bootstrap: the application account
    cannot drop, the read-only account holds [SELECT] and nothing else. *)
Definition leastPrivilege (dbName app ro : string) (d : DbInit.Database) : Prop :=
  holds d app dbName DbInit.DROP = false /\
  forall p, holds d ro dbName p = DbInit.is_SELECT p.

(** A media type that contains [manifest.list] or [image.index]. *)
Definition mentionsIndex (v : option string) : bool :=
  match v with
  | Some s => includes "manifest.list" s || includes "image.index" s
  | None => false
  end.

(** Every character of a string is of a class. *)
Fixpoint forallChars (p : ascii -> bool) (s : string) : bool :=
  match s with
  | EmptyString => true
  | String c s' => p c && forallChars p s'
  end.

(** ** Fixtures *)

Module Fixtures.

(** 2025-01-01 02:53:20 UTC, New Year's Day in Tokyo, a Wednesday. *)
Definition newYearsDay : Date := 1735700000000.

Definition bastion : Ec2BusinessHours.Env :=
  {| Ec2BusinessHours.INSTANCE_ID := Some "i-0123456789abcdef0";
     Ec2BusinessHours.HOSTED_ZONE_ID := "Z0123456789ABCDEFGHIJ";
     Ec2BusinessHours.RECORD_NAME := "bastion.dev.example.com" |}.

Definition describedAs (state : string) : Output :=
  Described
    {| Reservations :=
         Some [ {| Instances :=
                     Some [ {| State_Name := Some state;
                               PublicIpAddress := Some "203.0.113.7" |} ] |} ] |}.

(** A provider whose instance is already running. *)
Definition runningProvider : Provider :=
  fun _ c =>
    match c with
    | DescribeInstancesCommand _ => Fulfilled (describedAs "running")
    | _ => Fulfilled Done
    end.

Definition devDatabase : RdsBusinessHours.Env :=
  {| RdsBusinessHours.DB_INSTANCE_IDENTIFIER := Some "myapp-dev-db" |}.

(** A provider whose database instance is already stopped: it refuses
    [StopDBInstance] as the instance is not in the available state. *)
Definition stoppedDbProvider : Provider :=
  fun _ c =>
    match c with
    | StopDBInstanceCommand _ => Rejected "InvalidDBInstanceStateFault"
    | _ => Fulfilled Done
    end.

Definition dbEnv : DbInit.ProcessEnv :=
  {| DbInit.DB_HOST := Some "myapp-dev.cluster-abc.ap-northeast-1.rds.amazonaws.com";
     DbInit.DB_PORT := Some "3306";
     DbInit.DB_NAME := Some "myapp_db_dev";
     DbInit.MASTER_SECRET_ARN := Some "arn:master";
     DbInit.APPUSER_SECRET_ARN := Some "arn:appuser";
     DbInit.READONLY_SECRET_ARN := Some "arn:readonlyuser" |}.

Definition deleteWithId : DbInit.Event :=
  {| DbInit.RequestType := Some "Delete";
     DbInit.PhysicalResourceId := Some "myapp-dev.cluster-abc.ap-northeast-1.rds.amazonaws.com:myapp_db_dev" |}.

Definition createEvent : DbInit.Event :=
  {| DbInit.RequestType := Some "Create";
     DbInit.PhysicalResourceId := None |}.

(** A world where the three secrets exist and the server is reachable at
    the third attempt. *)
Definition dbWorld : DbInit.World :=
  {| DbInit.secret_value := fun arn =>
       if arn === "arn:master" then
         Fulfilled {| DbInit.username := Some "admin";
                      DbInit.password := Some "m-secret" |}
       else if arn === "arn:appuser" then
         Fulfilled {| DbInit.username := Some "appuser";
                      DbInit.password := Some "a-secret" |}
       else if arn === "arn:readonlyuser" then
         Fulfilled {| DbInit.username := Some "readonlyuser";
                      DbInit.password := Some "r-secret" |}
       else Rejected "ResourceNotFoundException";
     DbInit.connection := fun done =>
       if (List.length done <? 7)%nat then Rejected "ECONNREFUSED"
       else Fulfilled tt;
     DbInit.query_failure := fun _ _ => None;
     DbInit.end_failure := fun _ => None |}.

Definition freshRun : DbInit.Run :=
  {| DbInit.journal := []; DbInit.database := DbInit.no_accounts |}.

Definition createImageCheck : EcrValidateSingleArch.Event :=
  {| EcrValidateSingleArch.RequestType := "Create";
     EcrValidateSingleArch.RepositoryName := "myapp/backend";
     EcrValidateSingleArch.ImageTag := Some "v1.4.2" |}.

(** A registry where every tag is a multi-architecture manifest list. *)
Definition multiArchRegistry : EcrValidateSingleArch.Registry :=
  fun _ _ =>
    Fulfilled
      {| EcrValidateSingleArch.imageDetails :=
           Some [ {| EcrValidateSingleArch.artifactMediaType := None;
                     EcrValidateSingleArch.imageManifestMediaType :=
                       Some "application/vnd.docker.distribution.manifest.list.v2+json" |} ] |}.

(** A subscription's health check, as CloudWatch Logs sends it. *)
Definition controlPayload : json Z :=
  JObject
    [ ("messageType", JString "CONTROL_MESSAGE");
      ("owner", JString "CloudwatchLogs");
      ("logGroup", JString "");
      ("logStream", JString "");
      ("subscriptionFilters", JArray []);
      ("logEvents",
       JArray
         [ JObject
             [ ("id", JString "");
               ("timestamp", JNumber 1700000000000);
               ("message",
                JString "CWL CONTROL MESSAGE: Checking health of destination Firehose.") ] ]) ].

Definition logEventJson (i : string) (t : Z) (m : string) : json Z :=
  JObject [ ("id", JString i); ("timestamp", JNumber t); ("message", JString m) ].

Definition dataPayloadOf (events : list (json Z)) : json Z :=
  JObject
    [ ("messageType", JString "DATA_MESSAGE");
      ("owner", JString "123456789012");
      ("logGroup", JString "/ecs/myapp-dev/backend");
      ("logStream", JString "backend/app/0f1e2d3c");
      ("subscriptionFilters", JArray [JString "all"]);
      ("logEvents", JArray events) ].

(** Two structured lines and a line of plain text. *)
Definition dataPayload : json Z :=
  dataPayloadOf
    [ logEventJson "e1" 1700000000123
        (Reference.stringify
           (JObject [ ("type", JString "operation"); ("http_status", JNumber 200) ]));
      logEventJson "e2" 1700000001000 "Booting worker with pid: 17";
      logEventJson "e3" 1700000002456
        (Reference.stringify
           (JObject [ ("type", JString "error"); ("http_status", JNumber 503) ])) ].

(** A record as Firehose delivers it: the payload in base64. *)
Definition recordOf (i : string) (payload : json Z)
  : LogsFirehoseTransform.FirehoseTransformationEventRecord :=
  {| LogsFirehoseTransform.recordId := i;
     LogsFirehoseTransform.approximateArrivalTimestamp := 1700000003000;
     LogsFirehoseTransform.data := Base64.encode (Reference.stringify payload) |}.

Definition controlRecord := recordOf "rec-control" controlPayload.
Definition dataRecord := recordOf "rec-data" dataPayload.

Definition batch : LogsFirehoseTransform.FirehoseTransformationEvent :=
  {| LogsFirehoseTransform.invocationId := "inv-1";
     LogsFirehoseTransform.deliveryStreamArn :=
       "arn:aws:firehose:ap-northeast-1:123456789012:deliverystream/logs";
     LogsFirehoseTransform.region := "ap-northeast-1";
     LogsFirehoseTransform.records := [controlRecord; dataRecord] |}.

(** The same batch, but the last structured line carries a timestamp one
    millisecond past the last instant a [Date] can hold. *)
Definition overflowPayload : json Z :=
  dataPayloadOf
    [ logEventJson "e1" 1700000000123
        (Reference.stringify
           (JObject [ ("type", JString "operation"); ("http_status", JNumber 200) ]));
      logEventJson "e2" 1700000001000 "Booting worker with pid: 17";
      logEventJson "e3" 8640000000000001
        (Reference.stringify
           (JObject [ ("type", JString "error"); ("http_status", JNumber 503) ])) ].

Definition overflowRecord := recordOf "rec-late" overflowPayload.

Definition overflowBatch : LogsFirehoseTransform.FirehoseTransformationEvent :=
  {| LogsFirehoseTransform.invocationId := "inv-2";
     LogsFirehoseTransform.deliveryStreamArn :=
       "arn:aws:firehose:ap-northeast-1:123456789012:deliverystream/logs";
     LogsFirehoseTransform.region := "ap-northeast-1";
     LogsFirehoseTransform.records := [controlRecord; overflowRecord] |}.



End Fixtures.

(** ** Observations on dates *)

(** The dates at which [toJst] is what the code computes: from the first
    instant of 1952 (UTC), since when the clock of Tokyo has been nine
    hours ahead of UTC all year, to the last instant of the year 9999 in
    Tokyo. *)
Definition tokyoClock (date : Date) : bool :=
  (-568080000000 <=? date) && (date <? 253402268400000).

(** ** More observations on a run *)

Definition isDescribe (e : Entry) : bool :=
  match e with
  | Sent (DescribeInstancesCommand _) => true
  | _ => false
  end.

Definition isDnsChange (e : Entry) : bool :=
  match e with
  | Sent (ChangeResourceRecordSetsCommand _ _ _ _ _ _) => true
  | _ => false
  end.

Definition countEntries (f : Entry -> bool) (j : Journal) : nat :=
  List.length (filter f j).

(** The milliseconds a run has spent in [delay]. *)
Fixpoint delayed (j : Journal) : Z :=
  match j with
  | [] => 0
  | Delayed ms :: j' => ms + delayed j'
  | _ :: j' => delayed j'
  end.



(** A computation adds at most [n] entries of a kind to the journal. *)
Definition bounded {A} (f : Entry -> bool) (n : nat) (m : Async A) : Prop :=
  forall (p : Provider) (j : Journal),
    (countEntries f (snd (m p j)) <= countEntries f j + n)%nat.

(** A computation spends at most [ms] milliseconds in [delay]. *)
Definition delaysWithin {A} (ms : Z) (m : Async A) : Prop :=
  forall (p : Provider) (j : Journal), delayed (snd (m p j)) <= delayed j + ms.

(** ** Observations on the bootstrap *)

(** The password an account is identified by. *)
Definition password_of (d : DbInit.Database) (user : string) : option string :=
  match d user with
  | Some a => Some (DbInit.identified_by a)
  | None => None
  end.

(** A secret that has both a user name and a password. *)
Definition complete (s : DbInit.SecretJson) : bool :=
  truthy (DbInit.username s) && truthy (DbInit.password s).

(** The journal of [n] refused connections, each followed by its wait. *)
Fixpoint refusals (host port user pass db : string) (n : nat)
  : list DbInit.Action :=
  match n with
  | O => []
  | S n' =>
      DbInit.CreateConnection host port user pass db :: DbInit.Wait 10000 ::
      refusals host port user pass db n'
  end.

(** A computation sends the statements [sts] in order and nothing else,
    stopping at the first that fails; it returns only after the last. *)
Definition sendsInOrder (sts : list DbInit.Statement) (m : DbInit.Db unit) : Prop :=
  forall (w : DbInit.World) (r : DbInit.Run),
  exists n : nat,
    (n <= List.length sts)%nat /\
    DbInit.journal (snd (m w r))
    = (DbInit.journal r ++ map DbInit.Query (firstn n sts))%list /\
    (forall u, fst (m w r) = Return u -> n = List.length sts).

(** The environment of the bootstrap with its six variables set. *)
Definition configuration (host port name masterArn appArn roArn : string)
  : DbInit.ProcessEnv :=
  {| DbInit.DB_HOST := Some host;
     DbInit.DB_PORT := Some port;
     DbInit.DB_NAME := Some name;
     DbInit.MASTER_SECRET_ARN := Some masterArn;
     DbInit.APPUSER_SECRET_ARN := Some appArn;
     DbInit.READONLY_SECRET_ARN := Some roArn |}.

(** All the statements of a bootstrap, in the order the handler sends
    them. *)
Definition bootstrapStatements (appuser readonly : DbInit.SecretJson)
  (name : string) : list DbInit.Statement :=
  (ensureStatements (interpolate (DbInit.username appuser))
     (interpolate (DbInit.password appuser)) name true ++
   ensureStatements (interpolate (DbInit.username readonly))
     (interpolate (DbInit.password readonly)) name false)%list.

(** ** Observations on objects *)

(** A key made of digits only.  JavaScript lists the keys of an object
    that are array indices before its other keys, whatever the order they
    were written in; every array index is made of digits only. *)
Definition digitsOnly (k : string) : bool :=
  negb (k === "") && forallChars is_digit k.

(** ** Observations on database names *)

(** A character of ASCII. *)
Definition is_ascii (c : ascii) : bool := (nat_of_ascii c <? 128)%nat.

(** The class [[a-z0-9]]. *)
Definition is_alnum (c : ascii) : bool := is_lower c || is_digit c.

(** Two underscores in a row somewhere in a string. *)
Fixpoint doubled_underscore (s : string) : bool :=
  match s with
  | EmptyString => false
  | String c s' =>
      match s' with
      | EmptyString => false
      | String c' _ => (is_underscore c && is_underscore c') || doubled_underscore s'
      end
  end.

(** The last character of a string is an underscore. *)
Fixpoint ends_with_underscore (s : string) : bool :=
  match s with
  | EmptyString => false
  | String c s' =>
      match s' with
      | EmptyString => is_underscore c
      | String _ _ => ends_with_underscore s'
      end
  end.

(** ** stacks/rds-stack.ts: chooseRetention

    The same function stands in the ECS and the bastion stacks. *)

(** The members of [logs.RetentionDays] the function returns. *)
Inductive RetentionDays := ONE_DAY | ONE_WEEK | TWO_WEEKS | ONE_MONTH.

Definition chooseRetention (days : Z) : RetentionDays :=
  if days <=? 1 then ONE_DAY
  else if days <=? 7 then ONE_WEEK
  else if days <=? 14 then TWO_WEEKS
  else if days <=? 30 then ONE_MONTH
  else ONE_MONTH.

(** The number of days a member of [logs.RetentionDays] stands for. *)
Definition retentionInDays (r : RetentionDays) : Z :=
  match r with
  | ONE_DAY => 1
  | ONE_WEEK => 7
  | TWO_WEEKS => 14
  | ONE_MONTH => 30
  end.

(** ** shared/parameter-names.ts *)

Definition rdsSecurityGroupIdParameterName (project environment : string) : string :=
  "/" ++ project ++ "/" ++ environment ++ "/rds/security-group-id".

Definition rdsEndpointAddressParameterName (project environment : string) : string :=
  "/" ++ project ++ "/" ++ environment ++ "/rds/endpoint-address".

Definition rdsEndpointPortParameterName (project environment : string) : string :=
  "/" ++ project ++ "/" ++ environment ++ "/rds/endpoint-port".

Definition ecsClusterNameParameterName (project environment : string) : string :=
  "/" ++ project ++ "/" ++ environment ++ "/ecs/cluster-name".

Definition ecsBackendServiceNameParameterName (project environment : string) : string :=
  "/" ++ project ++ "/" ++ environment ++ "/ecs/backend-service-name".

Definition ecsFrontendServiceNameParameterName (project environment : string) : string :=
  "/" ++ project ++ "/" ++ environment ++ "/ecs/frontend-service-name".

Definition ecsJobServiceNameParameterName (project environment : string) : string :=
  "/" ++ project ++ "/" ++ environment ++ "/ecs/job-service-name".

Definition albFullNameParameterName (project environment : string) : string :=
  "/" ++ project ++ "/" ++ environment ++ "/alb/load-balancer-full-name".

Definition rdsInstanceIdentifierParameterName (project environment : string) : string :=
  "/" ++ project ++ "/" ++ environment ++ "/rds/instance-identifier".

Definition bastionSecurityGroupIdParameterName (project environment : string) : string :=
  "/" ++ project ++ "/" ++ environment ++ "/bastion/security-group-id".

(** The ten functions of the file. *)
Definition parameterNameFunctions : list (string -> string -> string) :=
  [ rdsSecurityGroupIdParameterName; rdsEndpointAddressParameterName;
    rdsEndpointPortParameterName; ecsClusterNameParameterName;
    ecsBackendServiceNameParameterName; ecsFrontendServiceNameParameterName;
    ecsJobServiceNameParameterName; albFullNameParameterName;
    rdsInstanceIdentifierParameterName; bastionSecurityGroupIdParameterName ].

Definition is_slash (c : ascii) : bool := Ascii.eqb c "/"%char.

(** A string without a slash. *)
Definition slashFree (s : string) : bool :=
  forallChars (fun c => negb (is_slash c)) s.

(** ** config/index.ts *)

Module Config.

Record Task := { cpu : Z; memoryMiB : Z; desiredCount : Z }.

Record PerService := { frontend : Z; backend : Z; jobs : Z }.

Record Grace := { grace_frontend : Z; grace_backend : Z }.

Record Ecs := {
  ecs_frontend : Task;
  ecs_backend : Task;
  ecs_jobs : Task;
  min : PerService;
  max : PerService;
  healthCheckGraceSeconds : Grace
}.

Record Rds := {
  instanceClass : string;
  multiAz : bool;
  backupRetentionDays : Z
}.

Record EnvConfig := {
  ecs : Ecs;
  rds : Rds;
  logsRetentionDays : Z
}.

Definition dev : EnvConfig :=
  {| ecs :=
       {| ecs_frontend := {| cpu := 256; memoryMiB := 512; desiredCount := 1 |};
          ecs_backend := {| cpu := 256; memoryMiB := 512; desiredCount := 1 |};
          ecs_jobs := {| cpu := 256; memoryMiB := 512; desiredCount := 1 |};
          min := {| frontend := 0; backend := 0; jobs := 1 |};
          max := {| frontend := 2; backend := 2; jobs := 1 |};
          healthCheckGraceSeconds :=
            {| grace_frontend := 120; grace_backend := 300 |} |};
     rds := {| instanceClass := "t4g.micro"; multiAz := false;
               backupRetentionDays := 0 |};
     logsRetentionDays := 1 |}.

Definition staging : EnvConfig :=
  {| ecs :=
       {| ecs_frontend := {| cpu := 256; memoryMiB := 512; desiredCount := 1 |};
          ecs_backend := {| cpu := 512; memoryMiB := 1024; desiredCount := 2 |};
          ecs_jobs := {| cpu := 512; memoryMiB := 1024; desiredCount := 1 |};
          min := {| frontend := 1; backend := 2; jobs := 1 |};
          max := {| frontend := 3; backend := 4; jobs := 1 |};
          healthCheckGraceSeconds :=
            {| grace_frontend := 120; grace_backend := 300 |} |};
     rds := {| instanceClass := "t3.small"; multiAz := true;
               backupRetentionDays := 3 |};
     logsRetentionDays := 14 |}.

Definition prod : EnvConfig :=
  {| ecs :=
       {| ecs_frontend := {| cpu := 256; memoryMiB := 512; desiredCount := 1 |};
          ecs_backend := {| cpu := 512; memoryMiB := 1024; desiredCount := 2 |};
          ecs_jobs := {| cpu := 512; memoryMiB := 1024; desiredCount := 1 |};
          min := {| frontend := 1; backend := 2; jobs := 1 |};
          max := {| frontend := 6; backend := 10; jobs := 1 |};
          healthCheckGraceSeconds :=
            {| grace_frontend := 120; grace_backend := 300 |} |};
     rds := {| instanceClass := "t3.small"; multiAz := true;
               backupRetentionDays := 7 |};
     logsRetentionDays := 30 |}.

(** What [envConfigs[key]] evaluates to: a configuration of the table, a
    member the object literal inherits from [Object.prototype] (a function,
    or the prototype itself for [__proto__]: truthy, and no configuration),
    or [undefined]. *)
Inductive Property :=
| Own (c : EnvConfig)
| Inherited (name : string)
| Undefined.

Definition objectPrototype : list string :=
  [ "constructor"; "hasOwnProperty"; "isPrototypeOf"; "propertyIsEnumerable";
    "toLocaleString"; "toString"; "valueOf"; "__proto__";
    "__defineGetter__"; "__defineSetter__"; "__lookupGetter__";
    "__lookupSetter__" ].

Definition inherited (key : string) : bool :=
  existsb (String.eqb key) objectPrototype.

Definition envConfigs (key : string) : Property :=
  if key === "dev" then Own dev
  else if key === "staging" then Own staging
  else if key === "prod" then Own prod
  else if inherited key then Inherited key
  else Undefined.

Definition getEnvConfig (env : string) : Property :=
  match envConfigs env with
  | Undefined => envConfigs "dev"
  | found => found
  end.

End Config.

(** The desired count of every service lies within its scaling bounds. *)
Definition withinBounds (c : Config.EnvConfig) : bool :=
  let e := Config.ecs c in
  (Config.frontend (Config.min e) <=? Config.desiredCount (Config.ecs_frontend e)) &&
  (Config.desiredCount (Config.ecs_frontend e) <=? Config.frontend (Config.max e)) &&
  (Config.backend (Config.min e) <=? Config.desiredCount (Config.ecs_backend e)) &&
  (Config.desiredCount (Config.ecs_backend e) <=? Config.backend (Config.max e)) &&
  (Config.jobs (Config.min e) <=? Config.desiredCount (Config.ecs_jobs e)) &&
  (Config.desiredCount (Config.ecs_jobs e) <=? Config.jobs (Config.max e)).

(** ** functions/slack-notifier/index.ts *)

Module SlackNotifier.

(** The fields the handler reads of the alarm notification in
    [record.Sns.Message], at the type CloudWatch writes them: strings, any
    of which may be missing. *)
Record AlarmMessage := {
  AlarmName : option string;
  NewStateValue : option string;
  NewStateReason : option string;
  AlarmDescription : option string;
  OldStateValue : option string
}.

(** [record.Sns.Message] *)
Record SNSEventRecord := { Sns_Message : string }.

Record SNSEvent := { Records : list SNSEventRecord }.

(** What the module does; the message of a [Send] is the argument of
    [webhook.send], an object literal that holds no number. *)
Inductive Action :=
| GetSecretValue (SecretId : string)
| Send (url : string) (message : json Empty_set).

(** The state of the module between invocations: the [webhook] variable,
    an [IncomingWebhook] known by its URL once it is set, and what the
    module has done so far. *)
Record Notifier := {
  webhook : option string;
  journal : list Action
}.

(** The surroundings: the secret store answers with the [SecretString] of
    the secret, Slack answers a posted message, and [JSON.parse] reads the
    [url] of the secret and the fields of a notification, or throws; the
    URL is a string or missing. *)
Record World := {
  secretString : list Action -> string -> Settled (option string);
  JSON_parse_url : string -> Completion (option string);
  JSON_parse_alarm : string -> Completion AlarmMessage;
  post : list Action -> string -> json Empty_set -> Settled unit
}.

Definition Slack (A : Type) : Type := Eff World Notifier A.

Definition log (a : Action) (s : Notifier) : Notifier :=
  {| webhook := webhook s; journal := (journal s ++ [a])%list |}.

(** The check at the top of the module; a module that throws here has no
    handler. *)
Definition secretArn (SLACK_WEBHOOK_SECRET_ARN : option string)
  : Completion string :=
  if negb (truthy SLACK_WEBHOOK_SECRET_ARN)
  then Throw "SLACK_WEBHOOK_SECRET_ARN environment variable not set."
  else Return (interpolate SLACK_WEBHOOK_SECRET_ARN).

Definition getWebhook (secretArn : string) : Slack string :=
  fun w s =>
    match webhook s with
    | Some hook => (Return hook, s)
    | None =>
        match secretString w (journal s) secretArn with
        | Rejected e => (Throw e, log (GetSecretValue secretArn) s)
        | Fulfilled secret =>
            let text := match secret with Some t => t | None => "{}" end in
            match JSON_parse_url w text with
            | Throw e => (Throw e, log (GetSecretValue secretArn) s)
            | Return webhookUrl =>
                if negb (truthy webhookUrl)
                then (Throw "Slack webhook URL not found in secret.",
                      log (GetSecretValue secretArn) s)
                else
                  (Return (interpolate webhookUrl),
                   {| webhook := Some (interpolate webhookUrl);
                      journal := (journal s ++ [GetSecretValue secretArn])%list |})
            end
        end
    end.

(** [await webhook.send(message)] *)
Definition send (hook : string) (message : json Empty_set) : Slack unit :=
  fun w s =>
    match post w (journal s) hook message with
    | Fulfilled _ => (Return tt, log (Send hook message) s)
    | Rejected e => (Throw e, log (Send hook message) s)
    end.

Definition mrkdwn (text : string) : json Empty_set :=
  JObject [ ("type", JString "mrkdwn"); ("text", JString text) ].

(** The argument of [webhook.send] for one notification. *)
Definition notification (message : AlarmMessage) : json Empty_set :=
  let isOk := is_str (NewStateValue message) "OK" in
  let color := if isOk then "good" else "danger" in
  let state := if isOk then "OK" else "ALARM" in
  let emoji := if isOk then ":white_check_mark:" else ":warning:" in
  JObject
    [ ("attachments",
       JArray
         [ JObject
             [ ("color", JString color);
               ("blocks",
                JArray
                  [ JObject
                      [ ("type", JString "section");
                        ("text",
                         mrkdwn (emoji ++ " *" ++ state ++ ": " ++
                                 interpolate (AlarmName message) ++ "*")) ];
                    JObject
                      [ ("type", JString "section");
                        ("fields",
                         JArray
                           [ mrkdwn ("*Description:*" ++ LF ++
                                     interpolate (AlarmDescription message));
                             mrkdwn ("*State Change:*" ++ LF ++
                                     interpolate (OldStateValue message) ++
                                     " -> " ++
                                     interpolate (NewStateValue message)) ]) ];
                    JObject
                      [ ("type", JString "context");
                        ("elements",
                         JArray
                           [ mrkdwn ("*Reason:*" ++ LF ++
                                     interpolate (NewStateReason message)) ]) ]
                  ]) ] ]) ].

(** The loop [for (const record of event.Records)]. *)
Fixpoint forEachRecord (hook : string) (records : list SNSEventRecord)
  : Slack unit :=
  match records with
  | [] => ret tt
  | record :: records' =>
      fun w s =>
        match JSON_parse_alarm w (Sns_Message record) with
        | Throw e => (Throw e, s)
        | Return message =>
            (send hook (notification message) ;;
             forEachRecord hook records') w s
        end
  end.

Definition handler (secretArn : string) (event : SNSEvent) : Slack unit :=
  webhook <- getWebhook secretArn ;;
  forEachRecord webhook (Records event).

End SlackNotifier.

(** How often a run of the notifier has read the secret. *)
Definition secretReads (actions : list SlackNotifier.Action) : nat :=
  List.length
    (filter (fun a => match a with
                      | SlackNotifier.GetSecretValue _ => true
                      | _ => false
                      end) actions).

(** ** More fixtures *)

Module Cases.

(** 2025-01-07 00:00:00 UTC, a Tuesday morning in Tokyo and no holiday. *)
Definition tuesday : Date := 1736208000000.

(** 2027-01-01 03:00:00 UTC: New Year's Day 2027 in Tokyo, a Friday, past
    the end of the holiday list. *)
Definition newYear2027 : Date := 1798772400000.

(** A provider whose instance stays stopped and never gets an address. *)
Definition stoppedProvider : Provider :=
  fun _ c =>
    match c with
    | DescribeInstancesCommand _ =>
        Fulfilled
          (Described
             {| Reservations :=
                  Some [ {| Instances :=
                              Some [ {| State_Name := Some "stopped";
                                        PublicIpAddress := None |} ] |} ] |})
    | _ => Fulfilled Done
    end.

Definition services : EcsBusinessHours.Env :=
  {| EcsBusinessHours.CLUSTER := Some "myapp-dev-cluster";
     EcsBusinessHours.FRONTEND_SERVICE := Some "myapp-dev-frontend-svc";
     EcsBusinessHours.BACKEND_SERVICE := Some "myapp-dev-backend-svc";
     EcsBusinessHours.JOB_SERVICE := Some "myapp-dev-job-svc";
     EcsBusinessHours.DESIRED_UP := 1 |}.

(** A bastion with no DNS record to maintain. *)
Definition plainBastion : Ec2BusinessHours.Env :=
  {| Ec2BusinessHours.INSTANCE_ID := Some "i-0123456789abcdef0";
     Ec2BusinessHours.HOSTED_ZONE_ID := "";
     Ec2BusinessHours.RECORD_NAME := "" |}.

(** The bootstrap's environment without [DB_PORT]. *)
Definition noPort : DbInit.ProcessEnv :=
  {| DbInit.DB_HOST := DbInit.DB_HOST Fixtures.dbEnv;
     DbInit.DB_PORT := None;
     DbInit.DB_NAME := DbInit.DB_NAME Fixtures.dbEnv;
     DbInit.MASTER_SECRET_ARN := DbInit.MASTER_SECRET_ARN Fixtures.dbEnv;
     DbInit.APPUSER_SECRET_ARN := DbInit.APPUSER_SECRET_ARN Fixtures.dbEnv;
     DbInit.READONLY_SECRET_ARN := DbInit.READONLY_SECRET_ARN Fixtures.dbEnv |}.

(** A world whose read-only secret has no password. *)
Definition halfSecretWorld : DbInit.World :=
  {| DbInit.secret_value := fun arn =>
       if arn === "arn:readonlyuser" then
         Fulfilled {| DbInit.username := Some "readonlyuser";
                      DbInit.password := None |}
       else DbInit.secret_value Fixtures.dbWorld arn;
     DbInit.connection := DbInit.connection Fixtures.dbWorld;
     DbInit.query_failure := DbInit.query_failure Fixtures.dbWorld;
     DbInit.end_failure := DbInit.end_failure Fixtures.dbWorld |}.

(** A world whose server refuses every connection. *)
Definition unreachableWorld : DbInit.World :=
  {| DbInit.secret_value := DbInit.secret_value Fixtures.dbWorld;
     DbInit.connection := fun _ => Rejected "ETIMEDOUT";
     DbInit.query_failure := DbInit.query_failure Fixtures.dbWorld;
     DbInit.end_failure := DbInit.end_failure Fixtures.dbWorld |}.

(** A world whose server accepts the first connection and then loses it
    under the read-only account's [GRANT]. *)
Definition droppedWorld : DbInit.World :=
  {| DbInit.secret_value := DbInit.secret_value Fixtures.dbWorld;
     DbInit.connection := fun _ => Fulfilled tt;
     DbInit.query_failure := fun _ st =>
       match st with
       | DbInit.GrantSelect _ _ => Some "PROTOCOL_CONNECTION_LOST"
       | _ => None
       end;
     DbInit.end_failure := DbInit.end_failure Fixtures.dbWorld |}.

(** Two alarm notifications as CloudWatch publishes them to the topic,
    reduced to the fields the notifier reads. *)
Definition cpuAlarm : SlackNotifier.AlarmMessage :=
  {| SlackNotifier.AlarmName := Some "myapp-dev-backend-cpu-critical";
     SlackNotifier.NewStateValue := Some "ALARM";
     SlackNotifier.NewStateReason := Some "Threshold Crossed";
     SlackNotifier.AlarmDescription := Some "Backend ECS CPU > 80% for 5 minutes";
     SlackNotifier.OldStateValue := Some "OK" |}.

Definition cpuRecovered : SlackNotifier.AlarmMessage :=
  {| SlackNotifier.AlarmName := Some "myapp-dev-backend-cpu-critical";
     SlackNotifier.NewStateValue := Some "OK";
     SlackNotifier.NewStateReason := Some "Threshold Crossed";
     SlackNotifier.AlarmDescription := Some "Backend ECS CPU > 80% for 5 minutes";
     SlackNotifier.OldStateValue := Some "ALARM" |}.

(** A world where the secret holds a URL, Slack accepts every message and
    the texts [alarm], [recovered] and [secret] stand for the JSON of the
    two notifications and of the secret. *)
Definition slackWorld : SlackNotifier.World :=
  {| SlackNotifier.secretString := fun _ _ => Fulfilled (Some "secret");
     SlackNotifier.JSON_parse_url := fun text =>
       if text === "secret"
       then Return (Some "https://hooks.slack.com/services/T0/B0/x")
       else if text === "{}" then Return None
       else Throw "SyntaxError";
     SlackNotifier.JSON_parse_alarm := fun text =>
       if text === "alarm" then Return cpuAlarm
       else if text === "recovered" then Return cpuRecovered
       else Throw "SyntaxError";
     SlackNotifier.post := fun _ _ _ => Fulfilled tt |}.

Definition coldStart : SlackNotifier.Notifier :=
  {| SlackNotifier.webhook := None; SlackNotifier.journal := [] |}.

Definition twoAlarms : SlackNotifier.SNSEvent :=
  {| SlackNotifier.Records :=
       [ {| SlackNotifier.Sns_Message := "alarm" |};
         {| SlackNotifier.Sns_Message := "recovered" |} ] |}.

Definition brokenSecond : SlackNotifier.SNSEvent :=
  {| SlackNotifier.Records :=
       [ {| SlackNotifier.Sns_Message := "alarm" |};
         {| SlackNotifier.Sns_Message := "not json" |};
         {| SlackNotifier.Sns_Message := "recovered" |} ] |}.

End Cases.

(* ================================================================== *)
(** * Part II: properties                                             *)
(* ================================================================== *)

Open Scope list_scope.

(** ** The schedulers *)

Section Schedulers.

Lemma send_journal (c : Command) (p : Provider) (j : Journal) :
  snd (send c p j) = (j ++ [Sent c])%list.
Proof.
  unfold send. destruct (p j c); reflexivity.
Qed.

(** A rest day is a Saturday or a Sunday in Tokyo, or a date of the
    holiday list. *)
Lemma isJapanHolidayJst_iff (date : Date) :
  isJapanHolidayJst date = true <->
  getDay (toJst date) = 0 \/ getDay (toJst date) = 6 \/
  In (holidayKey date) holidays.
Proof.
  unfold isJapanHolidayJst, has. split.
  - destruct (getDay (toJst date) =? 0) eqn:H0; [left; lia|].
    destruct (getDay (toJst date) =? 6) eqn:H6; [right; left; lia|].
    cbn [orb]. intros H. right. right. apply existsb_exists in H.
    destruct H as (k & Hin & Hk). apply String.eqb_eq in Hk. subst k. exact Hin.
  - intros [H|[H|H]].
    + rewrite H. reflexivity.
    + rewrite H. reflexivity.
    + destruct (_ || _); [reflexivity|]. apply existsb_exists.
      exists (holidayKey date). split; [exact H | apply String.eqb_refl].
Qed.

Lemma bind_run {W S A B} (m : Eff W S A) (k : A -> Eff W S B) (w : W) (s : S) :
  bind m k w s =
  let (c, s') := m w s in
  match c with
  | Return a => k a w s'
  | Throw e => (Throw e, s')
  end.
Proof. reflexivity. Qed.

Lemma send_fulfilled (c : Command) (p : Provider) (j : Journal) (o : Output) :
  p j c = Fulfilled o -> send c p j = (Return o, j ++ [Sent c]).
Proof. intros H. unfold send. rewrite H. reflexivity. Qed.

Lemma send_rejected (c : Command) (p : Provider) (j : Journal) (e : string) :
  p j c = Rejected e -> send c p j = (Throw e, j ++ [Sent c]).
Proof. intros H. unfold send. rewrite H. reflexivity. Qed.

Lemma startCalls_app (j1 j2 : Journal) :
  startCalls (j1 ++ j2) = (startCalls j1 + startCalls j2)%nat.
Proof.
  unfold startCalls. rewrite filter_app, length_app. reflexivity.
Qed.

Lemma quiet_ret {A} (a : A) : quiet (ret a).
Proof. intros p j. reflexivity. Qed.

Lemma quiet_bind {A B} (m : Async A) (k : A -> Async B) :
  quiet m -> (forall a, quiet (k a)) -> quiet (bind m k).
Proof.
  intros Hm Hk p j. unfold bind. specialize (Hm p j).
  destruct (m p j) as [[a|e] j']; cbn [snd] in *.
  - rewrite Hk. exact Hm.
  - exact Hm.
Qed.

Lemma quiet_delay (ms : Z) : quiet (delay ms).
Proof.
  intros p j. unfold delay. cbn [snd]. rewrite startCalls_app. cbn. lia.
Qed.

Lemma quiet_send (c : Command) : isStart (Sent c) = false -> quiet (send c).
Proof.
  intros Hc p j. rewrite send_journal, startCalls_app.
  unfold startCalls at 2. cbn [filter]. rewrite Hc. cbn. lia.
Qed.

(** Waiting for the address and writing the DNS record starts nothing. *)
Lemma waitForIp_quiet (env : Ec2BusinessHours.Env) (attempts : nat) :
  forall i : Z, quiet (Ec2BusinessHours.waitForIp env attempts i).
Proof.
  induction attempts as [|n IH]; intros i; [apply quiet_ret|].
  cbn [Ec2BusinessHours.waitForIp].
  apply quiet_bind; [destruct (0 <? i); [apply quiet_delay | apply quiet_ret]|].
  intros _. apply quiet_bind; [apply quiet_send; reflexivity|].
  intros desc.
  destruct (truthy (Ec2BusinessHours.publicIp (Ec2BusinessHours.firstInstance desc))).
  - apply quiet_bind; [apply quiet_send; reflexivity | intros; apply quiet_ret].
  - apply IH.
Qed.

(** C1, as the code has it.  On a rest day the ECS "up" and the RDS "start"
    handlers report [skipped] and call nothing.  The EC2 "start" handler
    sends no start command either; it reports [skipped] when the instance it
    describes is neither running nor pending, and does not report [skipped]
    when the instance is already running or pending. *)
Theorem rest_day_start_is_suppressed (now : Date) :
  isJapanHolidayJst now = true ->
  (forall env p,
     run (EcsBusinessHours.handler env now "up") p = (Return skipped, [])) /\
  (forall env p,
     run (RdsBusinessHours.handler env now "start") p = (Return skipped, [])) /\
  (forall env p,
     let describe := DescribeInstancesCommand [Ec2BusinessHours.INSTANCE_ID env] in
     let r := run (Ec2BusinessHours.handler env now "start") p in
     startCalls (snd r) = 0%nat /\
     forall o, p [] describe = Fulfilled o ->
       let state0 := Ec2BusinessHours.stateName (Ec2BusinessHours.firstInstance o) in
       if is_str state0 "running" || is_str state0 "pending"
       then fst r <> Return skipped
       else r = (Return skipped, [Sent describe])).
Proof.
  intros Hrest. split; [|split; [|intros env p; split]].
  - intros env p. unfold run, EcsBusinessHours.handler. rewrite Hrest. reflexivity.
  - intros env p. unfold run, RdsBusinessHours.handler. rewrite Hrest. reflexivity.
  - unfold run.
    assert (Hq : quiet (Ec2BusinessHours.handler env now "start")).
    { unfold Ec2BusinessHours.handler. rewrite Hrest. cbn [String.eqb Ascii.eqb Bool.eqb].
      apply quiet_bind; [apply quiet_send; reflexivity|]. intros desc0.
      destruct (is_str _ "running"), (is_str _ "pending"); cbn [andb negb];
        (apply quiet_bind; [apply quiet_ret|]); intros _;
        (apply quiet_bind; [|intros; apply quiet_ret]);
        repeat match goal with
          | |- quiet (if ?b then _ else _) => destruct b
          end;
        first [apply quiet_ret | apply waitForIp_quiet]. }
    apply (Hq p []).
  - intros o Ho. cbv zeta. unfold run, Ec2BusinessHours.handler. rewrite Hrest.
    cbn [String.eqb Ascii.eqb Bool.eqb].
    rewrite bind_run, (send_fulfilled _ _ _ _ Ho). cbn [app].
    destruct (is_str _ "running") eqn:Hr, (is_str _ "pending") eqn:Hp;
      cbn [andb negb orb].
    4: { rewrite !bind_run. cbn [ret].
         destruct (negb _ && negb _); reflexivity. }
    all: rewrite bind_run; cbn [ret]; rewrite bind_run;
      match goal with
      | |- context [let (_, _) := ?m ?w ?j in _] =>
          destruct (m w j) as [[?|?] ?]
      end; cbn [fst]; discriminate.
Qed.

Lemma rest_day_start_is_suppressed_witness :
  isJapanHolidayJst Fixtures.newYearsDay = true /\
  forall env p,
    run (RdsBusinessHours.handler env Fixtures.newYearsDay "start") p
    = (Return skipped, []).
Proof.
  assert (Hrest : isJapanHolidayJst Fixtures.newYearsDay = true)
    by (vm_compute; reflexivity).
  split; [exact Hrest|].
  exact (proj1 (proj2 (rest_day_start_is_suppressed Fixtures.newYearsDay Hrest))).
Defined.

(** C1 as stated fails for the EC2 handler: on New Year's Day, with the
    instance already running, "start" describes the instance, writes the
    DNS record and reports [ok], not [skipped]. *)
Lemma ec2_start_on_rest_day_reports_ok :
  isJapanHolidayJst Fixtures.newYearsDay = true /\
  run (Ec2BusinessHours.handler Fixtures.bastion Fixtures.newYearsDay "start")
    Fixtures.runningProvider
  = (Return (ok true),
     [ Sent (DescribeInstancesCommand [Some "i-0123456789abcdef0"]);
       Sent (DescribeInstancesCommand [Some "i-0123456789abcdef0"]);
       Sent (ChangeResourceRecordSetsCommand "Z0123456789ABCDEFGHIJ" "UPSERT"
               "bastion.dev.example.com" "A" 60 "203.0.113.7") ]) /\
  fst (run (Ec2BusinessHours.handler Fixtures.bastion Fixtures.newYearsDay "start")
         Fixtures.runningProvider)
  <> Return skipped.
Proof.
  split; [vm_compute; reflexivity|].
  split; [vm_compute; reflexivity|].
  vm_compute. discriminate.
Qed.

(** C3 on the code.  The EC2 handler swallows whatever [StopInstances]
    answers and reports [ok].  The RDS handler has no such guard: when the
    provider rejects [StopDBInstance], as RDS does for an instance that is
    already stopped, the handler throws that error. *)
Theorem stop_on_stopped_resource (now : Date) :
  (forall env p,
     fst (run (Ec2BusinessHours.handler env now "stop") p) = Return (ok true)) /\
  (forall env p e,
     p [] (StopDBInstanceCommand (RdsBusinessHours.DB_INSTANCE_IDENTIFIER env))
     = Rejected e ->
     run (RdsBusinessHours.handler env now "stop") p
     = (Throw e,
        [Sent (StopDBInstanceCommand (RdsBusinessHours.DB_INSTANCE_IDENTIFIER env))])).
Proof.
  split; intros env p.
  - unfold run, Ec2BusinessHours.handler.
    destruct (isJapanHolidayJst now); cbn [String.eqb Ascii.eqb Bool.eqb];
      reflexivity.
  - intros e He. unfold run, RdsBusinessHours.handler.
    destruct (isJapanHolidayJst now); cbn [String.eqb Ascii.eqb Bool.eqb];
      rewrite bind_run, (send_rejected _ _ _ _ He); reflexivity.
Qed.

Lemma stop_on_stopped_resource_witness :
  run (RdsBusinessHours.handler Fixtures.devDatabase Fixtures.newYearsDay "stop")
    Fixtures.stoppedDbProvider
  = (Throw "InvalidDBInstanceStateFault",
     [Sent (StopDBInstanceCommand (Some "myapp-dev-db"))]).
Proof.
  apply (proj2 (stop_on_stopped_resource Fixtures.newYearsDay)).
  reflexivity.
Defined.

(** C4.  Whatever the date, a rest day or not, "down" sends the three
    scale-to-zero commands and "stop" sends the stop command. *)
Theorem stop_is_unconditional (now : Date) :
  (forall env p,
     snd (run (EcsBusinessHours.handler env now "down") p)
     = [ Sent (UpdateServiceCommand (EcsBusinessHours.CLUSTER env)
                 (EcsBusinessHours.FRONTEND_SERVICE env) 0);
         Sent (UpdateServiceCommand (EcsBusinessHours.CLUSTER env)
                 (EcsBusinessHours.BACKEND_SERVICE env) 0);
         Sent (UpdateServiceCommand (EcsBusinessHours.CLUSTER env)
                 (EcsBusinessHours.JOB_SERVICE env) 0) ]) /\
  (forall env p,
     snd (run (Ec2BusinessHours.handler env now "stop") p)
     = [Sent (StopInstancesCommand [Ec2BusinessHours.INSTANCE_ID env])]) /\
  (forall env p,
     snd (run (RdsBusinessHours.handler env now "stop") p)
     = [Sent (StopDBInstanceCommand (RdsBusinessHours.DB_INSTANCE_IDENTIFIER env))]).
Proof.
  split; [|split]; intros env p.
  - unfold run, EcsBusinessHours.handler.
    destruct (isJapanHolidayJst now); cbn [String.eqb Ascii.eqb Bool.eqb];
      rewrite bind_run; unfold promise_all; cbn [send_each app];
      destruct (first_rejection _); reflexivity.
  - unfold run, Ec2BusinessHours.handler.
    destruct (isJapanHolidayJst now); cbn [String.eqb Ascii.eqb Bool.eqb];
      rewrite bind_run; unfold try_send, try_catch; cbn [snd ret];
      apply send_journal.
  - unfold run, RdsBusinessHours.handler.
    destruct (isJapanHolidayJst now); cbn [String.eqb Ascii.eqb Bool.eqb];
      rewrite bind_run;
      match goal with
      | |- context [send ?c ?w ?j] =>
          pose proof (send_journal c w j) as Hs;
          destruct (send c w j) as [[?|?] ?]
      end; exact Hs.
Qed.

End Schedulers.

(** ** The database bootstrap *)

Section Bootstrap.

Import DbInit.

Lemma eqb_empty_false (s : string) : (s === "") = false <-> s <> ""%string.
Proof. apply String.eqb_neq. Qed.

Lemma truthy_some (s : string) : truthy (Some s) = true <-> s <> ""%string.
Proof.
  unfold truthy. rewrite negb_true_iff. apply String.eqb_neq.
Qed.

Lemma append_nonempty (a b : string) : a <> ""%string -> (a ++ b)%string <> ""%string.
Proof. destruct a; [congruence|discriminate]. Qed.

Lemma fallbackId_nonempty (env : ProcessEnv) : fallbackId env <> ""%string.
Proof.
  unfold fallbackId.
  destruct (truthy (DB_HOST env)) eqn:Hh; cbn [andb]; [|discriminate].
  destruct (truthy (DB_NAME env)); [|discriminate].
  destruct (DB_HOST env) as [host|]; [|discriminate].
  apply truthy_some in Hh. cbn [interpolate].
  apply append_nonempty. exact Hh.
Qed.

(** C5.  A [Delete] touches neither the journal nor the database and
    returns the identifier it was given; without one (or with the empty
    string, which [||] treats alike) it returns the fallback, which is
    [DB_HOST:DB_NAME] when both are set, the constant [db-init] otherwise,
    and never empty. *)
Theorem delete_returns_given_identity
  (env : ProcessEnv) (event : Event) (w : World) (r : Run) :
  RequestType event = Some "Delete"%string ->
  exists id,
    handler env event w r = (Return id, r) /\
    id <> ""%string /\
    (forall given, PhysicalResourceId event = Some given ->
       given <> ""%string -> id = given) /\
    (truthy (PhysicalResourceId event) = false -> id = fallbackId env) /\
    (forall host name, DB_HOST env = Some host -> DB_NAME env = Some name ->
       host <> ""%string -> name <> ""%string ->
       fallbackId env = (host ++ ":" ++ name)%string) /\
    (truthy (DB_HOST env) && truthy (DB_NAME env) = false ->
       fallbackId env = "db-init"%string).
Proof.
  intros Hdel.
  exists (or_else (PhysicalResourceId event) (fallbackId env)).
  split; [|split; [|split; [|split; [|split]]]].
  - unfold handler. rewrite Hdel. reflexivity.
  - unfold or_else. destruct (PhysicalResourceId event) as [given|].
    + destruct (given === "") eqn:Hg.
      * apply fallbackId_nonempty.
      * apply String.eqb_neq. exact Hg.
    + apply fallbackId_nonempty.
  - intros given Hgiven Hne. rewrite Hgiven. unfold or_else.
    apply String.eqb_neq in Hne. rewrite Hne. reflexivity.
  - unfold truthy, or_else. destruct (PhysicalResourceId event) as [given|];
      [|reflexivity].
    intros Hg. apply negb_false_iff in Hg. rewrite Hg. reflexivity.
  - intros host name Hh Hn Hhne Hnne. unfold fallbackId. rewrite Hh, Hn.
    apply truthy_some in Hhne, Hnne. rewrite Hhne, Hnne. reflexivity.
  - intros Hf. unfold fallbackId. rewrite Hf. reflexivity.
Qed.

Lemma delete_returns_given_identity_witness :
  exists id,
    handler Fixtures.dbEnv Fixtures.deleteWithId Fixtures.dbWorld Fixtures.freshRun
    = (Return id, Fixtures.freshRun) /\
    id <> ""%string.
Proof.
  destruct (delete_returns_given_identity Fixtures.dbEnv Fixtures.deleteWithId
              Fixtures.dbWorld Fixtures.freshRun eq_refl)
    as (id & Hrun & Hne & _).
  exists id. split; assumption.
Defined.

Lemma queries_app (a b : list Action) : queries (a ++ b) = queries a ++ queries b.
Proof.
  induction a as [|[] a IH]; cbn; rewrite ?IH; reflexivity.
Qed.

Lemma executeAll_app (s1 s2 : list Statement) (d : Database) :
  executeAll (s1 ++ s2) d =
  match executeAll s1 d with
  | Some d' => executeAll s2 d'
  | None => None
  end.
Proof.
  revert d. induction s1 as [|st s1 IH]; intros d; cbn; [reflexivity|].
  destruct (execute st d); [apply IH | reflexivity].
Qed.

(** A query that returns has been run by the engine and is in the journal. *)
Lemma query_returns (st : Statement) (w : World) (r r' : Run) (u : unit) :
  query st w r = (Return u, r') ->
  journal r' = journal r ++ [Query st] /\
  execute st (database r) = Some (database r').
Proof.
  unfold query. destruct (query_failure w (journal r) st); [discriminate|].
  destruct (execute st (database r)) as [d|]; [|discriminate].
  intros H. injection H as _ <-. split; reflexivity.
Qed.

Ltac query_step H :=
  rewrite bind_run in H;
  match type of H with
  | context [query ?st ?w ?r] =>
      let Hq := fresh "Hq" in
      destruct (query st w r) as [[[]|?] ?] eqn:Hq; [|discriminate H];
      apply query_returns in Hq; destruct Hq as [? ?]
  end.

Lemma ensureUser_returns (user pass dbName : string) (isApp : bool)
  (w : World) (r r' : Run) (u : unit) :
  ensureUser user pass dbName isApp w r = (Return u, r') ->
  journal r' = journal r ++ map Query (ensureStatements user pass dbName isApp) /\
  executeAll (ensureStatements user pass dbName isApp) (database r)
  = Some (database r').
Proof.
  unfold ensureUser. intros H.
  query_step H. query_step H. rewrite bind_run in H.
  destruct isApp.
  - rewrite bind_run in H.
    match type of H with
    | context [query ?st ?w ?r] =>
        destruct (query st w r) as [[[]|?] ?] eqn:Hq3; [|discriminate H]
    end.
    apply query_returns in Hq3. destruct Hq3 as [? ?].
    match type of H with
    | context [query ?st ?w ?r] =>
        destruct (query st w r) as [[[]|?] ?] eqn:Hq4; [|discriminate H]
    end.
    apply query_returns in Hq4. destruct Hq4 as [? ?].
    apply query_returns in H. destruct H as [? ?].
    split.
    + cbn [ensureStatements map app]. repeat match goal with
        | E : journal _ = _ |- _ => rewrite E; clear E end.
      rewrite <- !app_assoc. reflexivity.
    + cbn [ensureStatements app executeAll].
      repeat match goal with
        | E : execute _ _ = Some _ |- _ => rewrite E; clear E end.
      reflexivity.
  - match type of H with
    | context [query ?st ?w ?r] =>
        destruct (query st w r) as [[[]|?] ?] eqn:Hq3; [|discriminate H]
    end.
    apply query_returns in Hq3. destruct Hq3 as [? ?].
    apply query_returns in H. destruct H as [? ?].
    split.
    + cbn [ensureStatements map app]. repeat match goal with
        | E : journal _ = _ |- _ => rewrite E; clear E end.
      rewrite <- !app_assoc. reflexivity.
    + cbn [ensureStatements app executeAll].
      repeat match goal with
        | E : execute _ _ = Some _ |- _ => rewrite E; clear E end.
      reflexivity.
Qed.

Lemma known_put (user : string) (a : Account) (d : Database) (u : string) :
  known (put user a d) u = (u === user) || known d u.
Proof. unfold known, put. destruct (u === user); reflexivity. Qed.

Lemma holds_put (user : string) (a : Account) (d : Database)
  (u dbName : string) (p : Privilege) :
  holds (put user a d) u dbName p =
  if u === user then granted a dbName p else holds d u dbName p.
Proof. unfold holds, put. destruct (u === user); reflexivity. Qed.

Lemma holds_unknown (d : Database) (u dbName : string) (p : Privilege) :
  known d u = false -> holds d u dbName p = false.
Proof. unfold known, holds. destruct (d u); [discriminate|reflexivity]. Qed.

(** The engine runs a statement about an existing account, and a
    [CREATE USER IF NOT EXISTS] in any case; accounts stay, and the
    privileges change as [effect] says. *)
Lemma execute_effect (st : Statement) (d : Database) :
  (forall u, subject st = Some u ->
     known d u = true \/ exists pass, st = CreateUserIfNotExists u pass) ->
  exists d',
    execute st d = Some d' /\
    (forall u, known d u = true -> known d' u = true) /\
    (forall u, subject st = Some u -> known d' u = true) /\
    (forall u db p, holds d' u db p = effect st u db p (holds d u db p)).
Proof.
  intros Hsub.
  destruct st as [user pass|user pass|db user|db user|db user|];
    cbn [execute subject effect] in *.
  1: destruct (d user) as [a|] eqn:Hd.
  1: { exists d. repeat split; auto. intros u [= <-]. unfold known. now rewrite Hd. }
  1: { eexists. split; [reflexivity|]. split; [|split].
       - intros u Hu. rewrite known_put, Hu. apply orb_true_r.
       - intros u [= <-]. rewrite known_put, String.eqb_refl. reflexivity.
       - intros u db p. rewrite holds_put. destruct (u === user) eqn:Hu; [|reflexivity].
         apply String.eqb_eq in Hu. subst u. unfold holds. now rewrite Hd. }
  5: { exists d. repeat split; auto. discriminate. }
  all: destruct (Hsub user eq_refl) as [Hk|[pass' Hc]]; [|discriminate Hc];
    unfold known in Hk; destruct (d user) as [a|] eqn:Hd; [|discriminate Hk];
    eexists; (split; [reflexivity|]); (split; [|split]);
    [ intros u Hu; rewrite known_put, Hu; apply orb_true_r
    | intros u [= <-]; rewrite known_put, String.eqb_refl; reflexivity
    | intros u db' p; rewrite holds_put; unfold holds;
      destruct (u === user) eqn:Hu;
      [ apply String.eqb_eq in Hu; subst u; rewrite Hd; cbn;
        try destruct (db' === db); try destruct (is_DROP p);
        try destruct (is_SELECT p); reflexivity
      | reflexivity ] ].
Qed.

(** What the statements of [ensureUser] make of the privileges: the
    application account ends with everything but [DROP] on the database,
    the read-only account gains [SELECT]; nothing else changes. *)
Lemma ensure_effect (user pass dbName : string) (isApp : bool) (d : Database) :
  exists d',
    executeAll (ensureStatements user pass dbName isApp) d = Some d' /\
    known d' user = true /\
    (forall u, known d u = true -> known d' u = true) /\
    (forall u db p,
       holds d' u db p =
       if (u === user) && (db === dbName)
       then (if isApp then negb (is_DROP p) else is_SELECT p || holds d u db p)
       else holds d u db p).
Proof.
  destruct (execute_effect (CreateUserIfNotExists user pass) d)
    as (d1 & E1 & K1 & S1 & H1).
  { intros u [= <-]. right. eexists. reflexivity. }
  specialize (S1 user eq_refl).
  destruct (execute_effect (AlterUser user pass) d1) as (d2 & E2 & K2 & S2 & H2).
  { intros u [= <-]. left. exact S1. }
  specialize (S2 user eq_refl).
  destruct isApp; cbn [ensureStatements app executeAll]; rewrite E1, E2.
  - destruct (execute_effect (GrantAllPrivileges dbName user) d2)
      as (d3 & E3 & K3 & S3 & H3).
    { intros u [= <-]. left. exact S2. }
    specialize (S3 user eq_refl).
    destruct (execute_effect (RevokeDrop dbName user) d3)
      as (d4 & E4 & K4 & S4 & H4).
    { intros u [= <-]. left. exact S3. }
    specialize (S4 user eq_refl).
    rewrite E3, E4. cbn [execute]. exists d4.
    split; [reflexivity|]. split; [exact S4|]. split; [auto|].
    intros u db p. rewrite H4, H3, H2, H1. cbn [effect].
    destruct (u === user), (db === dbName), (is_DROP p); reflexivity.
  - destruct (execute_effect (GrantSelect dbName user) d2)
      as (d3 & E3 & K3 & S3 & H3).
    { intros u [= <-]. left. exact S2. }
    specialize (S3 user eq_refl).
    rewrite E3. cbn [execute]. exists d3.
    split; [reflexivity|]. split; [exact S3|]. split; [auto|].
    intros u db p. rewrite H3, H2, H1. cbn [effect].
    destruct (u === user), (db === dbName), (is_SELECT p); reflexivity.
Qed.

(** Connecting changes no account and sends no statement. *)
Lemma connectLoop_database (host port user pass db : string) (attempts : nat) :
  forall (lastErr : string) (w : World) (r : Run),
    let r' := snd (connectLoop host port user pass db attempts lastErr w r) in
    database r' = database r /\ queries (journal r') = queries (journal r).
Proof.
  induction attempts as [|n IH]; intros lastErr w r; cbn zeta.
  - split; reflexivity.
  - cbn [connectLoop]. unfold createConnection.
    destruct (connection w (journal r)) as [[]|e].
    + cbn [snd log database journal]. rewrite queries_app, app_nil_r.
      split; reflexivity.
    + rewrite bind_run. cbn [wait].
      destruct (IH e w (log (Wait 10000)
                  (log (CreateConnection host port user pass db) r))) as [Hd Hq].
      split.
      * rewrite Hd. reflexivity.
      * rewrite Hq. cbn [log journal]. rewrite !queries_app, !app_nil_r.
        reflexivity.
Qed.

Lemma getSecretJson_run (arn : string) (w : World) (r : Run) :
  let r' := snd (getSecretJson arn w r) in
  database r' = database r /\ queries (journal r') = queries (journal r).
Proof.
  unfold getSecretJson. destruct (secret_value w arn); cbn [snd log database journal];
    rewrite queries_app, app_nil_r; split; reflexivity.
Qed.

Lemma getSecretJson_returns (arn : string) (w : World) (r r' : Run) (s : SecretJson) :
  getSecretJson arn w r = (Return s, r') -> secret_value w arn = Fulfilled s.
Proof.
  unfold getSecretJson. destruct (secret_value w arn); [|discriminate].
  intros [= -> _]. reflexivity.
Qed.

Lemma truthy_both (a b : option string) :
  negb (truthy a) || negb (truthy b) = false ->
  exists x y, a = Some x /\ b = Some y.
Proof.
  destruct a as [x|], b as [y|]; cbn; rewrite ?orb_true_r; try discriminate.
  intros _. exists x, y. split; reflexivity.
Qed.

Lemma leastPrivilege_readOnlyAtMost (dbName app ro : string) (d : Database) :
  leastPrivilege dbName app ro d -> readOnlyAtMost dbName ro d.
Proof.
  intros [_ Hro] p Hp. rewrite Hro in Hp. destruct p; try discriminate Hp.
  reflexivity.
Qed.

Ltac effect_step H x :=
  rewrite bind_run in H;
  match type of H with
  | (let (_, _) := ?m ?w ?r in _) = _ =>
      let E := fresh "E" in
      destruct (m w r) as [[x|?] ?] eqn:E; [|discriminate H]
  end.

(** C6.  A Create or Update that returns has sent, for the application
    account and then for the read-only account, exactly the statements of
    [ensureUser]: the only grant to the read-only account is [SELECT], and
    the [REVOKE DROP] of the application account follows its [GRANT ALL].
    In the database the application account cannot drop afterwards and the
    read-only account holds [SELECT]; with two distinct accounts, the run
    adds nothing but [SELECT] to the read-only account, so the invariant
    [leastPrivilege] is established from any database where that account
    held no more, and is kept by every further run. *)
Theorem bootstrap_least_privilege
  (env : ProcessEnv) (event : Event) (w : World) (r r' : Run) (id : string) :
  (or_else (RequestType event) "Create" === "Delete") = false ->
  handler env event w r = (Return id, r') ->
  exists name appArn roArn appuser readonly app appPass ro roPass,
    DB_NAME env = Some name /\
    APPUSER_SECRET_ARN env = Some appArn /\
    READONLY_SECRET_ARN env = Some roArn /\
    secret_value w appArn = Fulfilled appuser /\
    secret_value w roArn = Fulfilled readonly /\
    username appuser = Some app /\ password appuser = Some appPass /\
    username readonly = Some ro /\ password readonly = Some roPass /\
    queries (journal r') =
      queries (journal r) ++ ensureStatements app appPass name true
        ++ ensureStatements ro roPass name false /\
    holds (database r') app name DROP = false /\
    holds (database r') ro name SELECT = true /\
    (app <> ro ->
       forall p, holds (database r') ro name p
                 = is_SELECT p || holds (database r) ro name p) /\
    (app <> ro -> readOnlyAtMost name ro (database r) ->
       leastPrivilege name app ro (database r')) /\
    (app <> ro -> leastPrivilege name app ro (database r) ->
       leastPrivilege name app ro (database r')).
Proof.
  intros Hnd H. unfold handler in H. rewrite Hnd in H.
  destruct (DB_HOST env) as [host|]; [|discriminate H].
  destruct (DB_PORT env) as [port|]; [|discriminate H].
  destruct (DB_NAME env) as [name|]; [|discriminate H].
  destruct (MASTER_SECRET_ARN env) as [masterArn|]; [|discriminate H].
  destruct (APPUSER_SECRET_ARN env) as [appArn|]; [|discriminate H].
  destruct (READONLY_SECRET_ARN env) as [roArn|]; [|discriminate H].
  match type of H with
  | (if ?b then _ else _) _ _ = _ => destruct b; [discriminate H|]
  end.
  effect_step H master. effect_step H appuser. effect_step H readonly.
  destruct (negb (truthy (username master)) || _); [discriminate H|].
  destruct (negb (truthy (username appuser)) || _) eqn:Happ; [discriminate H|].
  destruct (negb (truthy (username readonly)) || _) eqn:Hro; [discriminate H|].
  apply truthy_both in Happ, Hro.
  destruct Happ as (app & appPass & Hau & Hap).
  destruct Hro as (ro & roPass & Hru & Hrp).
  rewrite Hau, Hap, Hru, Hrp in H. cbn [interpolate] in H.
  effect_step H connected.
  rewrite bind_run in H. unfold try_finally in H. rewrite bind_run in H.
  destruct (ensureUser app appPass name true w r3) as [[[]|?] r4] eqn:Eapp.
  2: { destruct (endConnection w r4) as [[[]|?] ?]; discriminate H. }
  destruct (ensureUser ro roPass name false w r4) as [[[]|?] r5] eqn:Ero.
  2: { destruct (endConnection w r5) as [[[]|?] ?]; discriminate H. }
  unfold endConnection in H.
  destruct (end_failure w (journal r5)); [discriminate H|].
  cbn [ret] in H. injection H as _ <-.
  (* the journal and the database before the statements *)
  pose proof (getSecretJson_run masterArn w r) as [Hd0 Hq0]. rewrite E in Hd0, Hq0.
  pose proof (getSecretJson_run appArn w r0) as [Hd1 Hq1]. rewrite E0 in Hd1, Hq1.
  pose proof (getSecretJson_run roArn w r1) as [Hd2 Hq2]. rewrite E1 in Hd2, Hq2.
  pose proof (connectLoop_database host port (interpolate (username master))
                (interpolate (password master)) name 12 "undefined" w r2)
    as [Hd3 Hq3].
  unfold connectWithRetry in E2. rewrite E2 in Hd3, Hq3. cbn [snd] in *.
  assert (Hdb : database r3 = database r) by congruence.
  assert (Hqs : queries (journal r3) = queries (journal r)) by congruence.
  apply getSecretJson_returns in E0, E1.
  apply ensureUser_returns in Eapp, Ero.
  destruct Eapp as [Hj4 Hx4]. destruct Ero as [Hj5 Hx5].
  destruct (ensure_effect app appPass name true (database r3))
    as (d4 & Hd4 & Hk4 & _ & Hh4).
  destruct (ensure_effect ro roPass name false (database r4))
    as (d5 & Hd5 & Hk5 & _ & Hh5).
  rewrite Hx4 in Hd4. injection Hd4 as <-.
  rewrite Hx5 in Hd5. injection Hd5 as <-.
  assert (Hro_after : app <> ro ->
            forall p, holds (database r5) ro name p
                      = is_SELECT p || holds (database r) ro name p).
  { intros Hne p. rewrite Hh5, Hh4, !String.eqb_refl, Hdb. cbn [andb].
    apply not_eq_sym in Hne. apply String.eqb_neq in Hne. rewrite Hne.
    reflexivity. }
  assert (Hdrop : holds (database r5) app name DROP = false).
  { rewrite Hh5, Hh4, !String.eqb_refl. cbn [andb is_SELECT is_DROP negb orb].
    destruct (app === ro); reflexivity. }
  exists name, appArn, roArn, appuser, readonly, app, appPass, ro, roPass.
  repeat (split; [solve [reflexivity | assumption]|]).
  split.
  { assert (Hmap : forall l, queries (map Query l) = l).
    { induction l as [|st l IH]; cbn; [reflexivity | now rewrite IH]. }
    cbn [log journal]. rewrite queries_app, app_nil_r, Hj5, Hj4.
    rewrite !queries_app, !Hmap, Hqs, <- app_assoc. reflexivity. }
  cbn [log database].
  split; [exact Hdrop|].
  split.
  { rewrite Hh5, !String.eqb_refl. reflexivity. }
  split; [exact Hro_after|].
  assert (Hest : app <> ro -> readOnlyAtMost name ro (database r) ->
                 leastPrivilege name app ro (database r5)).
  { intros Hne Hmost. split; [exact Hdrop|].
    intros p. rewrite (Hro_after Hne).
    destruct (holds (database r) ro name p) eqn:Hp.
    - apply Hmost in Hp. subst p. reflexivity.
    - apply orb_false_r. }
  split; [exact Hest|].
  intros Hne Hinv. apply Hest; [exact Hne|].
  eapply leastPrivilege_readOnlyAtMost. exact Hinv.
Qed.

Lemma bootstrap_least_privilege_witness :
  let r' := snd (handler Fixtures.dbEnv Fixtures.createEvent Fixtures.dbWorld
                   Fixtures.freshRun) in
  exists name app ro,
    holds (database r') app name DROP = false /\
    holds (database r') ro name SELECT = true.
Proof.
  cbv zeta.
  assert (Hrun : handler Fixtures.dbEnv Fixtures.createEvent Fixtures.dbWorld
                   Fixtures.freshRun
                 = (Return "myapp-dev.cluster-abc.ap-northeast-1.rds.amazonaws.com:myapp_db_dev"%string,
                    snd (handler Fixtures.dbEnv Fixtures.createEvent
                           Fixtures.dbWorld Fixtures.freshRun))).
  { apply injective_projections; [vm_compute; reflexivity | reflexivity]. }
  destruct (bootstrap_least_privilege Fixtures.dbEnv Fixtures.createEvent
              Fixtures.dbWorld Fixtures.freshRun _ _ eq_refl Hrun)
    as (name & appArn & roArn & appuser & readonly & app & appPass & ro & roPass
        & _ & _ & _ & _ & _ & _ & _ & _ & _ & _ & Hdrop & Hselect & _).
  exists name, app, ro. split; assumption.
Defined.

End Bootstrap.

(** ** The image guard *)

Section ImageGuard.

Import EcrValidateSingleArch.

Lemma startsWith_app (s rest : string) : startsWith s (s ++ rest)%string = true.
Proof.
  induction s as [|c s IH]; cbn; [reflexivity|].
  rewrite Ascii.eqb_refl. exact IH.
Qed.

Lemma includes_here (needle hay : string) :
  startsWith needle hay = true -> includes needle hay = true.
Proof. intros H. destruct hay; cbn in *; rewrite H; reflexivity. Qed.

Lemma includes_after (needle before hay : string) :
  includes needle hay = true -> includes needle (before ++ hay)%string = true.
Proof.
  intros H. induction before as [|c b IH]; cbn [append]; [exact H|].
  cbn [includes]. rewrite IH. apply orb_true_r.
Qed.

(** A template literal contains what is interpolated into it. *)
Ltac interpolated :=
  repeat first [ apply includes_here, startsWith_app | apply includes_after ].

Lemma isIndex_mentionsIndex (v : option string) : isIndex v = mentionsIndex v.
Proof.
  destruct v as [s|]; [|reflexivity]. cbn.
  destruct s; reflexivity.
Qed.

(** C8.  For a Create or an Update whose lookup is answered: without image
    details the handler throws the tag-not-found error, which names the
    repository and the tag; when the artifact or the manifest media type
    of the first image contains [manifest.list] or [image.index] it throws
    the multi-arch error, which names the tag.  Either way it throws and
    returns no identifier. *)
Theorem image_guard_throws
  (event : Event) (w : Registry) (calls : list Call)
  (res : DescribeImagesResponse) :
  RequestType event = "Create"%string \/ RequestType event = "Update"%string ->
  let repo := RepositoryName event in
  let tag := or_else (ImageTag event) "latest" in
  w repo tag = Fulfilled res ->
  (imageDetails res = None \/ imageDetails res = Some [] ->
     handler event w calls
     = (Throw (notFoundMessage repo tag), calls ++ [DescribeImagesCommand repo tag]) /\
     includes repo (notFoundMessage repo tag) = true /\
     includes tag (notFoundMessage repo tag) = true) /\
  (forall details others,
     imageDetails res = Some (details :: others) ->
     mentionsIndex (artifactMediaType details)
     || mentionsIndex (imageManifestMediaType details) = true ->
     let message := multiArchMessage repo tag (artifactMediaType details)
                      (imageManifestMediaType details) in
     handler event w calls
     = (Throw message, calls ++ [DescribeImagesCommand repo tag]) /\
     includes tag message = true).
Proof.
  intros Hreq repo tag Hres.
  assert (Hnd : (RequestType event === "Delete") = false)
    by (destruct Hreq as [-> | ->]; reflexivity).
  assert (Hrun : describeImages repo tag w calls
                 = (Return res, calls ++ [DescribeImagesCommand repo tag])).
  { unfold describeImages. rewrite Hres. reflexivity. }
  split.
  - intros Hnone. split; [|split].
    + unfold handler. rewrite Hnd. fold repo tag. rewrite bind_run, Hrun.
      destruct Hnone as [-> | ->]; reflexivity.
    + unfold notFoundMessage. interpolated.
    + unfold notFoundMessage. interpolated.
  - intros details others Hsome Hindex message. split.
    + unfold handler. rewrite Hnd. fold repo tag. rewrite bind_run, Hrun, Hsome.
      rewrite !isIndex_mentionsIndex, Hindex. reflexivity.
    + subst message. unfold multiArchMessage. interpolated.
Qed.

Lemma image_guard_throws_witness :
  exists message,
    handler Fixtures.createImageCheck Fixtures.multiArchRegistry []
    = (Throw message, [DescribeImagesCommand "myapp/backend" "v1.4.2"]) /\
    includes "v1.4.2" message = true.
Proof.
  eexists.
  refine (proj2 (image_guard_throws Fixtures.createImageCheck
                   Fixtures.multiArchRegistry [] _ (or_introl eq_refl) eq_refl)
            _ _ eq_refl _).
  vm_compute. reflexivity.
Defined.

End ImageGuard.

(** ** The database name *)

Section DbName.

Lemma lower_not_underscore (c : ascii) : is_lower c = true -> is_underscore c = false.
Proof.
  destruct c as [[] [] [] [] [] [] [] []]; cbn; intros H;
    first [reflexivity | discriminate H].
Qed.

Lemma lower_is_word (c : ascii) : is_lower c = true -> is_word c = true.
Proof. intros H. unfold is_word. rewrite H. reflexivity. Qed.

Lemma forallChars_app (p : ascii -> bool) (a b : string) :
  forallChars p (a ++ b)%string = forallChars p a && forallChars p b.
Proof.
  induction a as [|c a IH]; cbn; [reflexivity|].
  rewrite IH. apply andb_assoc.
Qed.

Lemma replace_non_word_word (s : string) :
  forallChars is_word (replace_non_word s) = true.
Proof.
  unfold replace_non_word.
  induction s as [|c s IH]; cbn [map_string forallChars]; [reflexivity|].
  rewrite IH, andb_true_r. destruct (is_word c) eqn:Hc; [exact Hc|reflexivity].
Qed.

Lemma collapse_keeps (p : ascii -> bool) (s : string) :
  forallChars p s = true -> forallChars p (collapse_underscores s) = true.
Proof.
  induction s as [|c s IH]; [reflexivity|].
  cbn [forallChars]. intros H. apply andb_true_iff in H. destruct H as [Hc Hs].
  specialize (IH Hs). cbn [collapse_underscores].
  destruct (is_underscore c).
  - destruct s as [|c' s']; [cbn; now rewrite Hc|].
    destruct (is_underscore c'); [exact IH|].
    cbn [forallChars]. rewrite Hc. exact IH.
  - cbn [forallChars]. rewrite Hc. exact IH.
Qed.

Lemma strip_leading_keeps (p q : ascii -> bool) (s : string) :
  forallChars p s = true -> forallChars p (strip_leading q s) = true.
Proof.
  induction s as [|c s IH]; [reflexivity|].
  intros H. cbn [strip_leading]. destruct (q c); [|exact H].
  cbn [forallChars] in H. apply andb_true_iff in H. apply IH, H.
Qed.

Lemma strip_trailing_keeps (p q : ascii -> bool) (s : string) :
  forallChars p s = true -> forallChars p (strip_trailing q s) = true.
Proof.
  induction s as [|c s IH]; [reflexivity|].
  cbn [forallChars]. intros H. apply andb_true_iff in H. destruct H as [Hc Hs].
  specialize (IH Hs). cbn [strip_trailing].
  destruct (strip_trailing q s) as [|c' rest].
  - destruct (q c); cbn; [reflexivity | now rewrite Hc].
  - cbn [forallChars] in *. rewrite Hc. exact IH.
Qed.

Lemma slice0_keeps (p : ascii -> bool) (n : nat) :
  forall s, forallChars p s = true -> forallChars p (slice0 n s) = true.
Proof.
  induction n as [|n IH]; intros [|c s]; try reflexivity.
  cbn [forallChars slice0]. intros H. apply andb_true_iff in H.
  destruct H as [Hc Hs]. rewrite Hc. apply IH, Hs.
Qed.

Lemma slice0_length (n : nat) : forall s, (String.length (slice0 n s) <= n)%nat.
Proof.
  induction n as [|n IH]; intros [|c s]; cbn; try lia.
  specialize (IH s). lia.
Qed.

(** A name that starts with a letter keeps its head through the
    stripping of underscores and the cut at 64 characters. *)
Lemma strip_leading_letter (s : string) :
  starts_with_letter s = true -> strip_leading is_underscore s = s.
Proof.
  destruct s as [|c s]; [reflexivity|]. cbn. intros H.
  rewrite (lower_not_underscore c H). reflexivity.
Qed.

Lemma strip_trailing_letter (s : string) :
  starts_with_letter s = true ->
  starts_with_letter (strip_trailing is_underscore s) = true.
Proof.
  destruct s as [|c s]; [discriminate|]. cbn [starts_with_letter strip_trailing].
  intros H. destruct (strip_trailing is_underscore s).
  - rewrite (lower_not_underscore c H). exact H.
  - exact H.
Qed.

Lemma slice0_letter (n : nat) (s : string) :
  starts_with_letter s = true -> starts_with_letter (slice0 (S n) s) = true.
Proof. destruct s as [|c s]; [discriminate|]. intros H. exact H. Qed.

Lemma cleanDbName_wellformed (base : string) :
  let name := cleanDbName base in
  name <> ""%string /\
  (String.length name <= 64)%nat /\
  starts_with_letter name = true /\
  forallChars is_word name = true.
Proof.
  cbv zeta. unfold cleanDbName.
  set (collapsed := collapse_underscores (replace_non_word base)).
  set (prefixed := if negb (starts_with_letter collapsed)
                   then ("db_" ++ collapsed)%string else collapsed).
  assert (Hword : forallChars is_word collapsed = true)
    by apply collapse_keeps, replace_non_word_word.
  assert (Hpw : forallChars is_word prefixed = true).
  { subst prefixed. destruct (starts_with_letter collapsed); cbn [negb];
      [exact Hword|]. rewrite forallChars_app, Hword. reflexivity. }
  assert (Hpl : starts_with_letter prefixed = true).
  { subst prefixed. destruct (starts_with_letter collapsed) eqn:Hl; cbn [negb];
      [exact Hl | reflexivity]. }
  assert (Hletter : starts_with_letter (slice0 64 (strip_underscores prefixed)) = true).
  { unfold strip_underscores. rewrite (strip_leading_letter _ Hpl).
    apply slice0_letter, strip_trailing_letter, Hpl. }
  split; [|split; [|split]].
  - intros Hempty. rewrite Hempty in Hletter. discriminate Hletter.
  - apply slice0_length.
  - exact Hletter.
  - apply slice0_keeps. unfold strip_underscores.
    apply strip_trailing_keeps, strip_leading_keeps, Hpw.
Qed.

(** C10.  Whatever the project and the environment, the database name is
    not empty, has at most 64 characters, begins with a lowercase letter
    and is made of lowercase letters, digits and underscores. *)
Theorem rdsDbName_wellformed (project environment : string) :
  let name := rdsDbName project environment in
  name <> ""%string /\
  (String.length name <= 64)%nat /\
  starts_with_letter name = true /\
  forallChars is_word name = true.
Proof. apply cleanDbName_wellformed. Qed.

End DbName.

(** ** Base64 *)

Section Base64Facts.

Import Base64.

Lemma string_ind3 (P : string -> Prop) :
  P ""%string ->
  (forall a, P (String a "")) ->
  (forall a b, P (String a (String b ""))) ->
  (forall a b c rest, P rest -> P (String a (String b (String c rest)))) ->
  forall s, P s.
Proof.
  intros H0 H1 H2 H3.
  fix IH 1. intros [|a [|b [|c rest]]].
  - exact H0.
  - apply H1.
  - apply H2.
  - apply H3, IH.
Qed.

Lemma sextet_table :
  forallb (fun n =>
             match sextet_of_char (char_of_sextet n) with
             | Some m => N.eqb m n && negb (Ascii.eqb (char_of_sextet n) pad)
             | None => false
             end)
          (map N.of_nat (seq 0 64)) = true.
Proof. vm_compute. reflexivity. Qed.

Lemma sextet_of_char_of_sextet (n : N) :
  (n < 64)%N ->
  sextet_of_char (char_of_sextet n) = Some n /\
  Ascii.eqb (char_of_sextet n) pad = false.
Proof.
  intros Hn.
  pose proof (proj1 (forallb_forall _ _) sextet_table n) as H.
  assert (Hin : In n (map N.of_nat (seq 0 64))).
  { rewrite <- (N2Nat.id n). apply in_map, in_seq. lia. }
  specialize (H Hin). cbv beta in H.
  destruct (sextet_of_char (char_of_sextet n)) as [m|]; [|discriminate H].
  apply andb_true_iff in H. destruct H as [Hm Hp].
  apply N.eqb_eq in Hm. subst m. apply negb_true_iff in Hp.
  split; [reflexivity | exact Hp].
Qed.

Ltac sextet n :=
  let Hs := fresh "Hs" in
  let Hp := fresh "Hp" in
  destruct (sextet_of_char_of_sextet n) as [Hs Hp];
  [ zify; Z.to_euclidean_division_equations; lia
  | rewrite ?Hs, ?Hp ].

Lemma pad_pad : Ascii.eqb pad pad = true.
Proof. reflexivity. Qed.

(** What [toString('base64')] writes decodes to the bytes it was given. *)
Lemma decode_encode (bytes : string) : decode (encode bytes) = Some bytes.
Proof.
  induction bytes as [|a|a b|a b c rest IH] using string_ind3.
  - reflexivity.
  - pose proof (N_ascii_bounded a) as Ha.
    cbn [encode decode]. set (n := N_of_ascii a) in *.
    sextet (n / 4)%N. sextet (n mod 4 * 16)%N.
    rewrite pad_pad. cbn [andb].
    replace (n / 4 * 4 + n mod 4 * 16 / 16)%N with n
      by (zify; Z.to_euclidean_division_equations; lia).
    subst n. rewrite ascii_N_embedding. reflexivity.
  - pose proof (N_ascii_bounded a) as Ha. pose proof (N_ascii_bounded b) as Hb.
    cbn [encode decode].
    set (n := (N_of_ascii a * 256 + N_of_ascii b)%N) in *.
    sextet (n / 1024)%N. sextet (n / 16 mod 64)%N. sextet (n mod 16 * 4)%N.
    rewrite pad_pad. cbn [andb].
    replace (n / 1024 * 1024 + n / 16 mod 64 * 16 + n mod 16 * 4 / 4)%N with n
      by (zify; Z.to_euclidean_division_equations; lia).
    replace (n / 256)%N with (N_of_ascii a)
      by (subst n; zify; Z.to_euclidean_division_equations; lia).
    replace (n mod 256)%N with (N_of_ascii b)
      by (subst n; zify; Z.to_euclidean_division_equations; lia).
    rewrite !ascii_N_embedding. reflexivity.
  - pose proof (N_ascii_bounded a) as Ha. pose proof (N_ascii_bounded b) as Hb.
    pose proof (N_ascii_bounded c) as Hc.
    cbn [encode decode].
    set (n := (N_of_ascii a * 65536 + N_of_ascii b * 256 + N_of_ascii c)%N) in *.
    sextet (n / 262144)%N. sextet (n / 4096 mod 64)%N.
    sextet (n / 64 mod 64)%N. sextet (n mod 64)%N.
    cbn [andb]. fold encode. rewrite IH.
    replace (n / 262144 * 262144 + n / 4096 mod 64 * 4096
             + n / 64 mod 64 * 64 + n mod 64)%N with n
      by (zify; Z.to_euclidean_division_equations; lia).
    replace (n / 65536)%N with (N_of_ascii a)
      by (subst n; zify; Z.to_euclidean_division_equations; lia).
    replace (n / 256 mod 256)%N with (N_of_ascii b)
      by (subst n; zify; Z.to_euclidean_division_equations; lia).
    replace (n mod 256)%N with (N_of_ascii c)
      by (subst n; zify; Z.to_euclidean_division_equations; lia).
    rewrite !ascii_N_embedding. reflexivity.
Qed.

End Base64Facts.

(** ** Objects *)

Section ObjectFacts.

Context {number : Type}.

Lemma get_absent (key : string) (o : object number) :
  has_key key o = false -> get key o = None.
Proof.
  induction o as [|[k v] o IH]; [reflexivity|].
  cbn [has_key existsb fst]. intros H. apply orb_false_iff in H.
  destruct H as [Hk Ho]. cbn [get]. fold (has_key key o) in Ho.
  rewrite (IH Ho), Hk. reflexivity.
Qed.

Lemma get_set_same (key : string) (v : json number) (o : object number) :
  get key (set key v o) = Some v.
Proof.
  induction o as [|[k v'] o IH]; cbn [set get].
  - rewrite String.eqb_refl. reflexivity.
  - destruct (k === key) eqn:Hk.
    + destruct (has_key key o) eqn:Hh; cbn [get].
      * rewrite IH. reflexivity.
      * rewrite (get_absent _ _ Hh), Hk. reflexivity.
    + cbn [get]. rewrite IH. reflexivity.
Qed.

Lemma get_set_other (key other : string) (v : json number) (o : object number) :
  (key === other) = false -> get other (set key v o) = get other o.
Proof.
  intros Hne. induction o as [|[k v'] o IH]; cbn [set get].
  - rewrite Hne. reflexivity.
  - destruct (k === key) eqn:Hk.
    + apply String.eqb_eq in Hk. subst k.
      destruct (has_key key o); cbn [get].
      * rewrite IH. reflexivity.
      * rewrite Hne. reflexivity.
    + cbn [get]. rewrite IH. reflexivity.
Qed.

(** Copying properties onto an object: a key of the source reads as in the
    source, any other key as in the target. *)
Lemma get_fold_set (key : string) (source : object number) :
  forall target : object number,
    get key (fold_left (fun o kv => set (fst kv) (snd kv) o) source target)
    = match get key source with
      | Some v => Some v
      | None => get key target
      end.
Proof.
  induction source as [|[k v] source IH]; intros target; cbn [fold_left get fst snd].
  - reflexivity.
  - rewrite IH. destruct (get key source); [reflexivity|].
    destruct (k === key) eqn:Hk.
    + apply String.eqb_eq in Hk. subst k. apply get_set_same.
    + apply get_set_other. exact Hk.
Qed.

Lemma get_spread (key : string) (structured : json number) :
  get key (spread structured []) = get key (ownProperties structured).
Proof.
  unfold spread. rewrite get_fold_set.
  destruct (get key (ownProperties structured)); reflexivity.
Qed.

End ObjectFacts.

(** ** The log transform *)

Section LogTransform.

Import LogsFirehoseTransform.

Context {rt : Runtime}.

Lemma fold_left_push {A B} (f : A -> list B) (l : list A) (acc : list B) :
  fold_left (fun transformed x => transformed ++ f x) l acc = acc ++ flat_map f l.
Proof.
  revert acc. induction l as [|x l IH]; intros acc; cbn.
  - symmetry. apply app_nil_r.
  - rewrite IH, app_assoc. reflexivity.
Qed.

Lemma handler_flat_map (event : FirehoseTransformationEvent) :
  handler event = flat_map processRecord (records event).
Proof. unfold handler. rewrite fold_left_push. reflexivity. Qed.

(** Every record yields one result, with its own identifier. *)
Lemma processRecord_single (record : FirehoseTransformationEventRecord) :
  exists out, processRecord record = [out] /\ result_recordId out = recordId record.
Proof.
  unfold processRecord, tryProcess.
  destruct (gunzipSync _) as [decompressed|]; [|eexists; split; reflexivity].
  destruct (JSON_parse_payload _) as [parsed|]; [|eexists; split; reflexivity].
  destruct (negb _); [eexists; split; reflexivity|].
  destruct (enrichedMessages _ _) as [[|o enriched]|]; eexists; split; reflexivity.
Qed.

(** C9.  The results correspond to the records one to one, in order, and
    each result carries the identifier of its record, whatever the
    outcome. *)
Theorem handler_one_result_per_record (event : FirehoseTransformationEvent) :
  Forall2 (fun record out =>
             processRecord record = [out] /\
             result_recordId out = recordId record)
          (records event) (handler event) /\
  List.length (handler event) = List.length (records event) /\
  map result_recordId (handler event) = map recordId (records event).
Proof.
  rewrite handler_flat_map.
  assert (H : Forall2 (fun record out =>
                         processRecord record = [out] /\
                         result_recordId out = recordId record)
                      (records event) (flat_map processRecord (records event))).
  { induction (records event) as [|record l IH]; cbn [flat_map]; [constructor|].
    destruct (processRecord_single record) as (out & Hout & Hid).
    rewrite Hout. cbn [app]. constructor; [|exact IH].
    split; [exact Hout | exact Hid]. }
  split; [exact H|].
  split.
  - symmetry. eapply Forall2_length. exact H.
  - induction H as [|record out l l' [_ Hid] _ IH]; cbn; [reflexivity|].
    rewrite Hid, IH. reflexivity.
Qed.

Lemma append_assoc (a b c : string) : ((a ++ b) ++ c = a ++ b ++ c)%string.
Proof. induction a as [|x a IH]; cbn; [reflexivity | now rewrite IH]. Qed.

(** What the object literal of the loop holds. *)
Lemma enrich_fields (parsed : CloudWatchLogsFirehosePayload) (structured : json number)
  (iso : string) :
  let o := enrich parsed structured iso in
  get "log_group" o = Some (JString (logGroup parsed)) /\
  get "log_stream" o = Some (JString (logStream parsed)) /\
  get "ingestion_time_iso" o = Some (JString iso) /\
  forall key, enrichmentKey key = false ->
    get key o = get key (ownProperties structured).
Proof.
  cbv zeta. unfold enrich. repeat split.
  - rewrite !get_set_other by reflexivity. apply get_set_same.
  - rewrite get_set_other by reflexivity. apply get_set_same.
  - apply get_set_same.
  - intros key Hkey. unfold enrichmentKey in Hkey.
    apply orb_false_iff in Hkey. destruct Hkey as [Hkey H3].
    apply orb_false_iff in Hkey. destruct Hkey as [H1 H2].
    rewrite String.eqb_sym in H1, H2, H3.
    rewrite !get_set_other by assumption. apply get_spread.
Qed.

(** *** Lines *)




(** *** The loop *)



Lemma decode_encodeRecords (enriched : list (object number)) :
  Base64.decode (encodeRecords enriched)
  = Some (join LF (map (fun o => JSON_stringify (JObject o)) enriched) ++ LF)%string.
Proof. unfold encodeRecords. apply decode_encode. Qed.

Section Batch.

(** The empty text is not JSON. *)
Hypothesis empty_is_not_json : JSON_parse "" = None.

(** A message that parses to an object is kept. *)
Lemma structuredOf_object (e : LogEvent) (m : string) (o : object number) :
  message e = Some m -> JSON_parse (trim m) = Some (JObject o) ->
  structuredOf e = Some (JObject o).
Proof.
  intros Hm Hp. unfold structuredOf. rewrite Hm.
  destruct (trim m === "") eqn:He.
  - apply String.eqb_eq in He. rewrite He, empty_is_not_json in Hp.
    discriminate Hp.
  - rewrite Hp. reflexivity.
Qed.

(** A message that does not parse is passed over. *)
Lemma structuredOf_not_json (e : LogEvent) (m : string) :
  message e = Some m -> JSON_parse (trim m) = None -> structuredOf e = None.
Proof.
  intros Hm Hp. unfold structuredOf. rewrite Hm, Hp.
  destruct (trim m === ""); reflexivity.
Qed.

Lemma toISOString_valid (t : Z) :
  valid_time t = true -> exists iso, toISOString t = Some iso.
Proof. intros H. unfold toISOString. rewrite H. eexists. reflexivity. Qed.

Lemma decode_encodeRecords_two (o1 o2 : object number) :
  Base64.decode (encodeRecords [o1; o2])
  = Some (JSON_stringify (JObject o1) ++ LF ++
          JSON_stringify (JObject o2) ++ LF)%string.
Proof.
  rewrite decode_encodeRecords. cbn [map join].
  rewrite !append_assoc. reflexivity.
Qed.

(** C2, as the code has it.  A batch of one control record and one data
    record, in either order, where the data record holds two log events
    whose messages parse to JSON objects and whose timestamps are valid
    time values, and one event whose message does not parse, at any place
    among them: the control record comes back [Dropped] with its own
    identifier and data, the data record comes back [Ok], and its data is
    the base64 of exactly two lines, the two enriched objects as the
    runtime writes them.  Each enriched object holds [log_group] and
    [log_stream] of the payload, [ingestion_time_iso] of its event, and
    under every other key what the parsed message holds under it. *)
Theorem control_and_data_batch
  (event : FirehoseTransformationEvent)
  (control dataRec : FirehoseTransformationEventRecord)
  (controlText dataText : string)
  (controlPayload payload : CloudWatchLogsFirehosePayload)
  (e1 e2 bad : LogEvent) (m1 m2 mbad : string) (o1 o2 : object number) :
  records event = [control; dataRec] \/ records event = [dataRec; control] ->
  gunzipSync (Buffer_from_base64 (data control)) = Some controlText ->
  JSON_parse_payload controlText = Some controlPayload ->
  messageType controlPayload = "CONTROL_MESSAGE"%string ->
  gunzipSync (Buffer_from_base64 (data dataRec)) = Some dataText ->
  JSON_parse_payload dataText = Some payload ->
  messageType payload = "DATA_MESSAGE"%string ->
  logEvents payload = Some [e1; e2; bad] \/
  logEvents payload = Some [e1; bad; e2] \/
  logEvents payload = Some [bad; e1; e2] ->
  message e1 = Some m1 -> JSON_parse (trim m1) = Some (JObject o1) ->
  message e2 = Some m2 -> JSON_parse (trim m2) = Some (JObject o2) ->
  message bad = Some mbad -> JSON_parse (trim mbad) = None ->
  valid_time (timestamp e1) = true -> valid_time (timestamp e2) = true ->
  exists iso1 iso2 enriched1 enriched2 out,
    toISOString (timestamp e1) = Some iso1 /\
    toISOString (timestamp e2) = Some iso2 /\
    result out = Ok /\
    result_recordId out = recordId dataRec /\
    Base64.decode (result_data out)
    = Some (JSON_stringify (JObject enriched1) ++ LF ++
            JSON_stringify (JObject enriched2) ++ LF)%string /\
    (get "log_group" enriched1 = Some (JString (logGroup payload)) /\
     get "log_stream" enriched1 = Some (JString (logStream payload)) /\
     get "ingestion_time_iso" enriched1 = Some (JString iso1) /\
     forall key, enrichmentKey key = false -> get key enriched1 = get key o1) /\
    (get "log_group" enriched2 = Some (JString (logGroup payload)) /\
     get "log_stream" enriched2 = Some (JString (logStream payload)) /\
     get "ingestion_time_iso" enriched2 = Some (JString iso2) /\
     forall key, enrichmentKey key = false -> get key enriched2 = get key o2) /\
    let dropped := {| result_recordId := recordId control;
                      result := Dropped;
                      result_data := data control |} in
    (records event = [control; dataRec] -> handler event = [dropped; out]) /\
    (records event = [dataRec; control] -> handler event = [out; dropped]).
Proof.
  intros Hrecords Hcz Hcp Hct Hdz Hdp Hdt Hevents Hm1 Hp1 Hm2 Hp2 Hmb Hpb Ht1 Ht2.
  destruct (toISOString_valid _ Ht1) as [iso1 Hiso1].
  destruct (toISOString_valid _ Ht2) as [iso2 Hiso2].
  pose proof (structuredOf_object e1 m1 o1 Hm1 Hp1) as Hs1.
  pose proof (structuredOf_object e2 m2 o2 Hm2 Hp2) as Hs2.
  pose proof (structuredOf_not_json bad mbad Hmb Hpb) as Hsb.
  exists iso1, iso2, (enrich payload (JObject o1) iso1),
    (enrich payload (JObject o2) iso2),
    {| result_recordId := recordId dataRec;
       result := Ok;
       result_data := encodeRecords [ enrich payload (JObject o1) iso1;
                                      enrich payload (JObject o2) iso2 ] |}.
  assert (Hcontrol : processRecord control = [buildErrorRecord control Dropped]).
  { unfold processRecord, tryProcess. rewrite Hcz, Hcp, Hct. reflexivity. }
  assert (Henriched :
            enrichedMessages payload
              (match logEvents payload with Some l => l | None => [] end)
            = Some [ enrich payload (JObject o1) iso1;
                     enrich payload (JObject o2) iso2 ]).
  { destruct Hevents as [-> | [-> | ->]]; cbn [enrichedMessages];
      rewrite ?Hs1, ?Hs2, ?Hsb, ?Hiso1, ?Hiso2; reflexivity. }
  assert (Hdata : processRecord dataRec
                  = [ {| result_recordId := recordId dataRec;
                         result := Ok;
                         result_data :=
                           encodeRecords [ enrich payload (JObject o1) iso1;
                                           enrich payload (JObject o2) iso2 ] |} ]).
  { unfold processRecord, tryProcess. rewrite Hdz, Hdp, Hdt, Henriched.
    reflexivity. }
  split; [exact Hiso1|]. split; [exact Hiso2|].
  split; [reflexivity|]. split; [reflexivity|].
  split; [apply decode_encodeRecords_two|].
  split; [exact (enrich_fields payload (JObject o1) iso1)|].
  split; [exact (enrich_fields payload (JObject o2) iso2)|].
  cbv zeta. split; intros Hr; rewrite handler_flat_map, Hr; cbn [flat_map];
    rewrite Hcontrol, Hdata; reflexivity.
Qed.

End Batch.


End LogTransform.

(** ** Numerals and strings *)

Section Numerals.

Lemma read_uint (d : Decimal.uint) (rest : string) :
  Reference.follows rest ->
  Reference.read_digits (NilEmpty.string_of_uint d ++ rest) = (d, rest).
Proof.
  intros Hrest.
  induction d; cbn [NilEmpty.string_of_uint append Reference.read_digits];
    try (rewrite IHd; reflexivity).
  destruct rest as [|c r]; [reflexivity|]. cbn in Hrest. cbn [Reference.read_digits].
  rewrite Hrest. reflexivity.
Qed.

Lemma string_of_uint_nonnil (d : Decimal.uint) :
  d <> Decimal.Nil -> NilZero.string_of_uint d = NilEmpty.string_of_uint d.
Proof. destruct d; [congruence|..]; reflexivity. Qed.

Lemma to_int_digits (n : Z) :
  exists d, d <> Decimal.Nil /\
    (Z.to_int n = Decimal.Pos d \/ Z.to_int n = Decimal.Neg d).
Proof.
  destruct n as [|p|p]; cbn [Z.to_int].
  - exists (Decimal.D0 Decimal.Nil). split; [discriminate | left; reflexivity].
  - exists (Pos.to_uint p). split; [apply Unsigned.to_uint_nonnil | left; reflexivity].
  - exists (Pos.to_uint p). split; [apply Unsigned.to_uint_nonnil | right; reflexivity].
Qed.

Lemma length_append (a b : string) :
  String.length (a ++ b) = (String.length a + String.length b)%nat.
Proof. induction a as [|c a IH]; cbn; [reflexivity | now rewrite IH]. Qed.

Lemma append_empty (a : string) : (a ++ "")%string = a.
Proof. induction a as [|c a IH]; cbn; [reflexivity | now rewrite IH]. Qed.

End Numerals.

Section OnFixtures.

Import LogsFirehoseTransform.

Lemma control_and_data_batch_witness :
  map (fun out => (result_recordId out, result out))
      (handler (rt := Reference.runtime) Fixtures.batch)
  = [ ("rec-control"%string, Dropped); ("rec-data"%string, Ok) ] /\
  map (fun out => Base64.decode (result_data out))
      (handler (rt := Reference.runtime) Fixtures.batch)
  = [ Some (Reference.stringify Fixtures.controlPayload);
      Some (Reference.stringify
              (JObject
                 [ ("type", JString "operation"); ("http_status", JNumber 200);
                   ("log_group", JString "/ecs/myapp-dev/backend");
                   ("log_stream", JString "backend/app/0f1e2d3c");
                   ("ingestion_time_iso", JString "2023-11-14T22:13:20.123Z") ])
            ++ LF ++
            Reference.stringify
              (JObject
                 [ ("type", JString "error"); ("http_status", JNumber 503);
                   ("log_group", JString "/ecs/myapp-dev/backend");
                   ("log_stream", JString "backend/app/0f1e2d3c");
                   ("ingestion_time_iso", JString "2023-11-14T22:13:22.456Z") ])
            ++ LF)%string ].
Proof.
  split; [|vm_compute; reflexivity].
  edestruct (@control_and_data_batch Reference.runtime eq_refl Fixtures.batch
               Fixtures.controlRecord Fixtures.dataRecord)
    as (iso1 & iso2 & enriched1 & enriched2 & out & _ & _ & Hres & Hid & _ & _ & _
        & Hfwd & _).
  - left. reflexivity.
  - vm_compute. reflexivity.
  - vm_compute. reflexivity.
  - reflexivity.
  - vm_compute. reflexivity.
  - vm_compute. reflexivity.
  - reflexivity.
  - right. left. reflexivity.
  - reflexivity.
  - vm_compute. reflexivity.
  - reflexivity.
  - vm_compute. reflexivity.
  - reflexivity.
  - vm_compute. reflexivity.
  - reflexivity.
  - reflexivity.
  - rewrite (Hfwd eq_refl). cbn [map result_recordId result].
    rewrite Hres, Hid. reflexivity.
Defined.

(** C2 as stated fails when a kept event carries a number that is no valid
    time value: in this batch of one control record and one data record
    with two lines that parse to objects and one that does not, the data
    record comes back [ProcessingFailed], and no record comes back [Ok]. *)
Lemma late_timestamp_fails_the_record :
  let rt := Reference.runtime in
  let payloads :=
    map (fun record =>
           match gunzipSync (Buffer_from_base64 (data record)) with
           | Some text => JSON_parse_payload text
           | None => None
           end)
        (records Fixtures.overflowBatch) in
  map (option_map messageType) payloads
  = [ Some "CONTROL_MESSAGE"%string; Some "DATA_MESSAGE"%string ] /\
  map (option_map
         (fun payload =>
            map (fun e => match message e with
                          | Some m => option_map isObject (JSON_parse (trim m))
                          | None => None
                          end)
                (match logEvents payload with Some l => l | None => [] end)))
      (tl payloads)
  = [ Some [ Some true; None; Some true ] ] /\
  map (fun out => (result_recordId out, result out))
      (handler Fixtures.overflowBatch)
  = [ ("rec-control"%string, Dropped); ("rec-late"%string, ProcessingFailed) ].
Proof.
  cbv zeta. split; [vm_compute; reflexivity|].
  split; vm_compute; reflexivity.
Qed.



End OnFixtures.

(** ** More on the schedulers *)

Section SchedulersMore.


Lemma delayed_app (j1 j2 : Journal) : delayed (j1 ++ j2) = delayed j1 + delayed j2.
Proof.
  induction j1 as [|[c|ms] j1 IH]; cbn [app delayed]; rewrite ?IH; lia.
Qed.

Lemma key_year_digits (d : Decimal.uint) (rest : string) :
  d <> Decimal.Nil ->
  In (NilEmpty.string_of_uint d ++ String "-" rest)%string holidays ->
  In (Z.of_int (Decimal.Pos d)) [2024; 2025; 2026].
Proof.
  intros Hd Hin.
  assert (Hall : forallb (fun key =>
                            match Reference.read_digits key with
                            | (digits, _) =>
                                existsb (Z.eqb (Z.of_int (Decimal.Pos digits)))
                                        [2024; 2025; 2026]
                            end) holidays = true)
    by (vm_compute; reflexivity).
  pose proof (proj1 (forallb_forall _ _) Hall _ Hin) as H. cbv beta in H.
  rewrite read_uint in H by reflexivity.
  apply existsb_exists in H. destruct H as (y & Hy & Heq).
  apply Z.eqb_eq in Heq. rewrite Heq. exact Hy.
Qed.

Lemma negative_key_absent (tail : string) : ~ In (String "-" tail) holidays.
Proof.
  intros Hin.
  assert (Hall : forallb (fun key => negb (startsWith "-" key)) holidays = true)
    by (vm_compute; reflexivity).
  pose proof (proj1 (forallb_forall _ _) Hall _ Hin) as H.
  discriminate H.
Qed.

Lemma holiday_key_year (date : Date) :
  In (holidayKey date) holidays ->
  In (getFullYear (toJst date)) [2024; 2025; 2026].
Proof.
  unfold holidayKey. set (y := getFullYear (toJst date)).
  set (tail := (padStart 2 _ ++ "-" ++ padStart 2 _)%string).
  unfold toString. intros Hin.
  destruct (to_int_digits y) as (d & Hd & [E|E]); rewrite E in Hin;
    cbn [NilZero.string_of_int] in Hin.
  - rewrite (string_of_uint_nonnil d Hd) in Hin.
    apply key_year_digits in Hin; [|exact Hd].
    rewrite <- E, DecimalZ.of_to in Hin. exact Hin.
  - exfalso. cbn [append] in Hin. exact (negative_key_absent _ Hin).
Qed.

Lemma has_In (set : list string) (key : string) : has set key = true -> In key set.
Proof.
  unfold has. intros H. apply existsb_exists in H.
  destruct H as (k & Hin & Hk). apply String.eqb_eq in Hk. subst k. exact Hin.
Qed.

Lemma listed_years (y : Z) : In y [2024; 2025; 2026] -> 2024 <= y <= 2026.
Proof. cbn [In]. lia. Qed.

(** X1.  The holiday list covers 2024 to 2026 only: in any other year of
    the Tokyo calendar, from 1952 to 9999, the rest days are the Saturdays
    and the Sundays. *)
Theorem only_weekends_outside_the_list (date : Date) :
  tokyoClock date = true ->
  getFullYear (toJst date) < 2024 \/ 2026 < getFullYear (toJst date) ->
  isJapanHolidayJst date
  = (getDay (toJst date) =? 0) || (getDay (toJst date) =? 6).
Proof.
  intros _ Hyear. unfold isJapanHolidayJst.
  destruct ((getDay (toJst date) =? 0) || (getDay (toJst date) =? 6));
    [reflexivity|].
  destruct (has holidays (holidayKey date)) eqn:Hhas; [|reflexivity].
  exfalso. apply has_In, holiday_key_year, listed_years in Hhas.
  revert Hyear Hhas. generalize (getFullYear (toJst date)). intros y Hyear Hin.
  lia.
Qed.

Lemma only_weekends_outside_the_list_witness :
  getFullYear (toJst Cases.newYear2027) = 2027 /\
  getDay (toJst Cases.newYear2027) = 5 /\
  isJapanHolidayJst Cases.newYear2027 = false.
Proof.
  split; [vm_compute; reflexivity|]. split; [vm_compute; reflexivity|].
  rewrite only_weekends_outside_the_list;
    [vm_compute; reflexivity | reflexivity |].
  right. vm_compute. reflexivity.
Defined.

Lemma first_rejection_In (rs : list (Settled Output)) (e : string) :
  first_rejection rs = Some e -> In (Rejected e) rs.
Proof.
  induction rs as [|[o|e'] rs IH]; cbn [first_rejection]; [discriminate| |].
  - intros H. right. apply IH, H.
  - intros [= <-]. left. reflexivity.
Qed.

Lemma first_rejection_none (rs : list (Settled Output)) :
  first_rejection rs = None <-> forall e, ~ In (Rejected e) rs.
Proof.
  induction rs as [|[o|e'] rs IH]; cbn [first_rejection In].
  - split; [intros _ e [] | reflexivity].
  - rewrite IH. split.
    + intros H e [Hin|Hin]; [discriminate Hin | exact (H e Hin)].
    + intros H e Hin. apply (H e). right. exact Hin.
  - split; [discriminate|]. intros H. exfalso. apply (H e'). left. reflexivity.
Qed.

(** X2.  On a day that is not a rest day, "up" sends the three scale-up
    commands with the configured count, all three whatever the provider
    answers; it reports [ok] exactly when none of them is rejected, and
    otherwise throws the error of a rejected one. *)
Theorem ecs_up_on_working_day
  (env : EcsBusinessHours.Env) (now : Date) (p : Provider) :
  isJapanHolidayJst now = false ->
  let up service :=
    UpdateServiceCommand (EcsBusinessHours.CLUSTER env) service
      (EcsBusinessHours.DESIRED_UP env) in
  let c1 := up (EcsBusinessHours.FRONTEND_SERVICE env) in
  let c2 := up (EcsBusinessHours.BACKEND_SERVICE env) in
  let c3 := up (EcsBusinessHours.JOB_SERVICE env) in
  let answers := [ p [] c1; p [Sent c1] c2; p [Sent c1; Sent c2] c3 ] in
  let r := run (EcsBusinessHours.handler env now "up") p in
  snd r = [Sent c1; Sent c2; Sent c3] /\
  (fst r = Return (ok true) <-> forall e, ~ In (Rejected e) answers) /\
  (forall e, fst r = Throw e -> In (Rejected e) answers) /\
  (forall reply, fst r = Return reply -> reply = ok true).
Proof.
  intros Hwork. cbv zeta. unfold run, EcsBusinessHours.handler. rewrite Hwork.
  cbn [String.eqb Ascii.eqb Bool.eqb]. rewrite bind_run.
  unfold promise_all. cbn [send_each app].
  match goal with
  | |- context [first_rejection ?rs] =>
      pose proof (first_rejection_In rs) as Hin;
      pose proof (first_rejection_none rs) as Hnone;
      destruct (first_rejection rs) as [e|]
  end; cbn [fst snd ret].
  - split; [reflexivity|]. split; [|split].
    + split; [discriminate|]. intros H. exfalso. apply (H e), Hin. reflexivity.
    + intros e' [= <-]. apply Hin. reflexivity.
    + discriminate.
  - split; [reflexivity|]. split; [|split].
    + split; [intros _; apply Hnone; reflexivity | reflexivity].
    + discriminate.
    + intros reply [= <-]. reflexivity.
Qed.

Lemma ecs_up_on_working_day_witness :
  snd (run (EcsBusinessHours.handler Cases.services Cases.tuesday "up")
         Cases.stoppedProvider)
  = [ Sent (UpdateServiceCommand (Some "myapp-dev-cluster")
              (Some "myapp-dev-frontend-svc") 1);
      Sent (UpdateServiceCommand (Some "myapp-dev-cluster")
              (Some "myapp-dev-backend-svc") 1);
      Sent (UpdateServiceCommand (Some "myapp-dev-cluster")
              (Some "myapp-dev-job-svc") 1) ].
Proof.
  assert (Hwork : isJapanHolidayJst Cases.tuesday = false)
    by (vm_compute; reflexivity).
  exact (proj1 (ecs_up_on_working_day Cases.services Cases.tuesday
                  Cases.stoppedProvider Hwork)).
Defined.

(** *** Budgets of the EC2 handler *)

Lemma bounded_ret {A} (f : Entry -> bool) (a : A) : bounded f 0 (ret a).
Proof. intros p j. unfold ret. cbn [snd]. lia. Qed.

Lemma bounded_bind {A B} (f : Entry -> bool) (n1 n2 : nat)
  (m : Async A) (k : A -> Async B) :
  bounded f n1 m -> (forall a, bounded f n2 (k a)) -> bounded f (n1 + n2) (bind m k).
Proof.
  intros Hm Hk p j. unfold bind. specialize (Hm p j).
  destruct (m p j) as [[a|e] j']; cbn [snd] in *.
  - specialize (Hk a p j'). lia.
  - lia.
Qed.

Lemma bounded_weaken {A} (f : Entry -> bool) (n n' : nat) (m : Async A) :
  (n <= n')%nat -> bounded f n m -> bounded f n' m.
Proof. intros Hn Hm p j. specialize (Hm p j). lia. Qed.

Lemma bounded_send (f : Entry -> bool) (c : Command) :
  bounded f (if f (Sent c) then 1 else 0) (send c).
Proof.
  intros p j. rewrite send_journal. unfold countEntries.
  rewrite filter_app, length_app. cbn [filter].
  destruct (f (Sent c)); cbn [List.length]; lia.
Qed.

Lemma bounded_delay (f : Entry -> bool) (ms : Z) :
  bounded f (if f (Delayed ms) then 1 else 0) (delay ms).
Proof.
  intros p j. unfold delay. cbn [snd]. unfold countEntries.
  rewrite filter_app, length_app. cbn [filter].
  destruct (f (Delayed ms)); cbn [List.length]; lia.
Qed.

Lemma bounded_try_catch {A} (f : Entry -> bool) (n : nat) (m : Async A) :
  bounded f n m -> bounded f n (try_catch m).
Proof. intros Hm p j. unfold try_catch. cbn [snd]. apply Hm. Qed.

Lemma waitForIp_describes (env : Ec2BusinessHours.Env) (attempts : nat) :
  forall i, bounded isDescribe attempts (Ec2BusinessHours.waitForIp env attempts i).
Proof.
  induction attempts as [|n IH]; intros i; [apply bounded_ret|].
  cbn [Ec2BusinessHours.waitForIp].
  apply (bounded_bind isDescribe 0 (S n)).
  { destruct (0 <? i); [apply (bounded_delay isDescribe) | apply bounded_ret]. }
  intros _. apply (bounded_bind isDescribe 1 n); [apply (bounded_send isDescribe)|].
  intros desc.
  destruct (truthy (Ec2BusinessHours.publicIp (Ec2BusinessHours.firstInstance desc))).
  - apply (bounded_weaken isDescribe 0); [lia|].
    apply (bounded_bind isDescribe 0 0);
      [apply (bounded_send isDescribe) | intros; apply bounded_ret].
  - apply IH.
Qed.

Lemma waitForIp_dns (env : Ec2BusinessHours.Env) (attempts : nat) :
  forall i, bounded isDnsChange 1 (Ec2BusinessHours.waitForIp env attempts i).
Proof.
  induction attempts as [|n IH]; intros i;
    [apply (bounded_weaken isDnsChange 0); [lia | apply bounded_ret]|].
  cbn [Ec2BusinessHours.waitForIp].
  apply (bounded_bind isDnsChange 0 1).
  { destruct (0 <? i); [apply (bounded_delay isDnsChange) | apply bounded_ret]. }
  intros _. apply (bounded_bind isDnsChange 0 1); [apply (bounded_send isDnsChange)|].
  intros desc.
  destruct (truthy (Ec2BusinessHours.publicIp (Ec2BusinessHours.firstInstance desc))).
  - apply (bounded_bind isDnsChange 1 0);
      [apply (bounded_send isDnsChange) | intros; apply bounded_ret].
  - apply IH.
Qed.

Lemma delaysWithin_ret {A} (a : A) : delaysWithin 0 (ret a).
Proof. intros p j. unfold ret. cbn [snd]. lia. Qed.

Lemma delaysWithin_bind {A B} (a b : Z) (m : Async A) (k : A -> Async B) :
  0 <= b ->
  delaysWithin a m -> (forall x, delaysWithin b (k x)) ->
  delaysWithin (a + b) (bind m k).
Proof.
  intros Hb Hm Hk p j. unfold bind. specialize (Hm p j).
  destruct (m p j) as [[x|e] j']; cbn [snd] in *.
  - specialize (Hk x p j'). lia.
  - lia.
Qed.

Lemma delaysWithin_weaken {A} (a b : Z) (m : Async A) :
  a <= b -> delaysWithin a m -> delaysWithin b m.
Proof. intros Hab Hm p j. specialize (Hm p j). lia. Qed.

Lemma delaysWithin_send (c : Command) : delaysWithin 0 (send c).
Proof.
  intros p j. rewrite send_journal, delayed_app. cbn [delayed]. lia.
Qed.

Lemma delaysWithin_delay (ms : Z) : delaysWithin ms (delay ms).
Proof.
  intros p j. unfold delay. cbn [snd]. rewrite delayed_app. cbn [delayed]. lia.
Qed.

Lemma delaysWithin_try_catch {A} (a : Z) (m : Async A) :
  delaysWithin a m -> delaysWithin a (try_catch m).
Proof. intros Hm p j. unfold try_catch. cbn [snd]. apply Hm. Qed.

Lemma waitForIp_delays (env : Ec2BusinessHours.Env) (attempts : nat) :
  forall i,
    delaysWithin (15000 * Z.of_nat attempts)
      (Ec2BusinessHours.waitForIp env attempts i).
Proof.
  induction attempts as [|n IH]; intros i; [apply delaysWithin_ret|].
  cbn [Ec2BusinessHours.waitForIp].
  replace (15000 * Z.of_nat (S n)) with (15000 + (0 + 15000 * Z.of_nat n)) by lia.
  apply delaysWithin_bind; [lia| |].
  { destruct (0 <? i);
      [apply delaysWithin_delay
      | apply (delaysWithin_weaken 0); [lia | apply delaysWithin_ret]]. }
  intros _. apply delaysWithin_bind; [lia | apply delaysWithin_send |].
  intros desc.
  destruct (truthy (Ec2BusinessHours.publicIp (Ec2BusinessHours.firstInstance desc))).
  - apply (delaysWithin_weaken (0 + 0)); [lia|].
    apply delaysWithin_bind;
      [lia | apply delaysWithin_send | intros; apply delaysWithin_ret].
  - apply IH.
Qed.

(** The loop waits fifteen seconds before every attempt but the first. *)
Lemma waitForIp_delays_from_zero (env : Ec2BusinessHours.Env) (attempts : nat) :
  delaysWithin (15000 * Z.of_nat attempts)
    (Ec2BusinessHours.waitForIp env (S attempts) 0).
Proof.
  cbn [Ec2BusinessHours.waitForIp]. change (0 <? 0) with false. cbv iota.
  replace (15000 * Z.of_nat attempts) with (0 + (0 + 15000 * Z.of_nat attempts))
    by lia.
  apply delaysWithin_bind; [lia | apply delaysWithin_ret |].
  intros _. apply delaysWithin_bind; [lia | apply delaysWithin_send |].
  intros desc.
  destruct (truthy (Ec2BusinessHours.publicIp (Ec2BusinessHours.firstInstance desc))).
  - apply (delaysWithin_weaken (0 + 0)); [lia|].
    apply delaysWithin_bind;
      [lia | apply delaysWithin_send | intros; apply delaysWithin_ret].
  - apply waitForIp_delays.
Qed.

Lemma quiet_bounded {A} (m : Async A) : quiet m -> bounded isStart 0 m.
Proof.
  intros Hm p j. specialize (Hm p j). unfold startCalls in Hm.
  unfold countEntries. lia.
Qed.

(** X3.  Whatever the provider answers, one "start" describes the instance
    at most 21 times, sends at most one start command and at most one DNS
    change, and waits at most 285 seconds in all. *)
Theorem ec2_start_budget (env : Ec2BusinessHours.Env) (now : Date) (p : Provider) :
  let j := snd (run (Ec2BusinessHours.handler env now "start") p) in
  (countEntries isDescribe j <= 21)%nat /\
  (countEntries isStart j <= 1)%nat /\
  (countEntries isDnsChange j <= 1)%nat /\
  delayed j <= 285000.
Proof.
  cbv zeta. unfold run.
  assert (Hd : bounded isDescribe (1 + (0 + (20 + 0)))
                 (Ec2BusinessHours.handler env now "start")).
  { unfold Ec2BusinessHours.handler. cbn [String.eqb Ascii.eqb Bool.eqb].
    apply bounded_bind; [apply (bounded_send isDescribe)|]. intros desc0.
    apply bounded_bind.
    { match goal with |- bounded _ _ (if ?b then _ else _) => destruct b end;
        [apply bounded_try_catch, (bounded_send isDescribe) | apply bounded_ret]. }
    intros _. apply bounded_bind; [|intros; apply bounded_ret].
    repeat match goal with |- bounded _ _ (if ?b then _ else _) => destruct b end;
      first [ apply waitForIp_describes
            | apply (bounded_weaken isDescribe 0); [lia | apply bounded_ret] ]. }
  assert (Hs : bounded isStart (0 + (1 + (0 + 0)))
                 (Ec2BusinessHours.handler env now "start")).
  { unfold Ec2BusinessHours.handler. cbn [String.eqb Ascii.eqb Bool.eqb].
    apply bounded_bind; [apply (bounded_send isStart)|]. intros desc0.
    apply bounded_bind.
    { match goal with |- bounded _ _ (if ?b then _ else _) => destruct b end;
        [ apply bounded_try_catch, (bounded_send isStart)
        | apply (bounded_weaken isStart 0); [lia | apply bounded_ret] ]. }
    intros _. apply bounded_bind; [|intros; apply bounded_ret].
    apply quiet_bounded.
    repeat match goal with |- quiet (if ?b then _ else _) => destruct b end;
      first [apply waitForIp_quiet | apply quiet_ret]. }
  assert (Hn : bounded isDnsChange (0 + (0 + (1 + 0)))
                 (Ec2BusinessHours.handler env now "start")).
  { unfold Ec2BusinessHours.handler. cbn [String.eqb Ascii.eqb Bool.eqb].
    apply bounded_bind; [apply (bounded_send isDnsChange)|]. intros desc0.
    apply bounded_bind.
    { match goal with |- bounded _ _ (if ?b then _ else _) => destruct b end;
        [apply bounded_try_catch, (bounded_send isDnsChange) | apply bounded_ret]. }
    intros _. apply bounded_bind; [|intros; apply bounded_ret].
    repeat match goal with |- bounded _ _ (if ?b then _ else _) => destruct b end;
      first [ apply waitForIp_dns
            | apply (bounded_weaken isDnsChange 0); [lia | apply bounded_ret] ]. }
  assert (Hw : delaysWithin (0 + (0 + (285000 + 0)))
                 (Ec2BusinessHours.handler env now "start")).
  { unfold Ec2BusinessHours.handler. cbn [String.eqb Ascii.eqb Bool.eqb].
    apply delaysWithin_bind; [lia | apply delaysWithin_send |]. intros desc0.
    apply delaysWithin_bind; [lia| |].
    { match goal with |- delaysWithin _ (if ?b then _ else _) => destruct b end;
        [apply delaysWithin_try_catch, delaysWithin_send | apply delaysWithin_ret]. }
    intros _. apply delaysWithin_bind; [lia| |intros; apply delaysWithin_ret].
    repeat match goal with |- delaysWithin _ (if ?b then _ else _) => destruct b end;
      first [ apply (waitForIp_delays_from_zero env 19)
            | apply (delaysWithin_weaken 0); [lia | apply delaysWithin_ret] ]. }
  specialize (Hd p []). specialize (Hs p []). specialize (Hn p []).
  specialize (Hw p []).
  change (countEntries isDescribe []) with 0%nat in Hd.
  change (countEntries isStart []) with 0%nat in Hs.
  change (countEntries isDnsChange []) with 0%nat in Hn.
  change (delayed []) with 0 in Hw.
  repeat split; lia.
Qed.

Lemma try_send_run (c : Command) (p : Provider) (j : Journal) :
  try_send c p j = (Return tt, j ++ [Sent c]).
Proof.
  unfold try_send, try_catch. rewrite send_journal. reflexivity.
Qed.

(** X4.  When the instance is described, "start" sends the start command
    exactly when the day is no rest day and the instance is neither
    running nor pending, and then once. *)
Theorem ec2_start_command_when_needed
  (env : Ec2BusinessHours.Env) (now : Date) (p : Provider) (o : Output) :
  p [] (DescribeInstancesCommand [Ec2BusinessHours.INSTANCE_ID env]) = Fulfilled o ->
  let state0 := Ec2BusinessHours.stateName (Ec2BusinessHours.firstInstance o) in
  startCalls (snd (run (Ec2BusinessHours.handler env now "start") p))
  = if negb (isJapanHolidayJst now) && negb (is_str state0 "running")
       && negb (is_str state0 "pending")
    then 1%nat else 0%nat.
Proof.
  intros Ho. cbv zeta. unfold run, Ec2BusinessHours.handler.
  cbn [String.eqb Ascii.eqb Bool.eqb].
  rewrite bind_run, (send_fulfilled _ _ _ _ Ho). cbn [app].
  rewrite bind_run.
  assert (Hrest : forall (m : Async unit) (reply : Reply) (j : Journal),
             (m = ret tt \/
              m = Ec2BusinessHours.waitForIp env Ec2BusinessHours.maxAttempts 0) ->
             startCalls (snd ((m ;; ret reply) p j)) = startCalls j).
  { intros m reply j Hm. apply quiet_bind; [|intros; apply quiet_ret].
    destruct Hm as [-> | ->]; [apply quiet_ret | apply waitForIp_quiet]. }
  destruct (isJapanHolidayJst now), (is_str _ "running"), (is_str _ "pending");
    cbn [andb negb]; rewrite ?try_send_run; cbn [ret app];
    (rewrite Hrest; [reflexivity|]);
    destruct (negb _ && negb _); auto.
Qed.

Lemma ec2_start_command_when_needed_witness :
  startCalls
    (snd (run (Ec2BusinessHours.handler Fixtures.bastion Cases.tuesday "start")
            Cases.stoppedProvider))
  = 1%nat.
Proof.
  rewrite (ec2_start_command_when_needed Fixtures.bastion Cases.tuesday
             Cases.stoppedProvider _ eq_refl).
  vm_compute. reflexivity.
Defined.

(** X5.  With no hosted zone or no record name configured, "start" never
    polls and never touches DNS: it describes the instance once, sends the
    start command when it is needed, and reports [skipped] or [ok]
    whatever the provider answers to the start command. *)
Theorem ec2_start_without_dns
  (env : Ec2BusinessHours.Env) (now : Date) (p : Provider) (o : Output) :
  Ec2BusinessHours.HOSTED_ZONE_ID env = ""%string \/
  Ec2BusinessHours.RECORD_NAME env = ""%string ->
  let describe := DescribeInstancesCommand [Ec2BusinessHours.INSTANCE_ID env] in
  p [] describe = Fulfilled o ->
  let state0 := Ec2BusinessHours.stateName (Ec2BusinessHours.firstInstance o) in
  let stopped := negb (is_str state0 "running") && negb (is_str state0 "pending") in
  run (Ec2BusinessHours.handler env now "start") p
  = (Return (if isJapanHolidayJst now && stopped then skipped else ok true),
     Sent describe ::
     (if negb (isJapanHolidayJst now) && stopped
      then [Sent (StartInstancesCommand [Ec2BusinessHours.INSTANCE_ID env])]
      else [])).
Proof.
  intros Hdns describe Ho. cbv zeta. unfold run, Ec2BusinessHours.handler.
  cbn [String.eqb Ascii.eqb Bool.eqb].
  rewrite bind_run. fold describe. rewrite (send_fulfilled _ _ _ _ Ho). cbn [app].
  rewrite bind_run.
  assert (Hoff : negb (Ec2BusinessHours.HOSTED_ZONE_ID env === "") &&
                 negb (Ec2BusinessHours.RECORD_NAME env === "") = false).
  { destruct Hdns as [-> | ->]; cbn; rewrite ?andb_false_r; reflexivity. }
  rewrite Hoff.
  destruct (isJapanHolidayJst now), (is_str _ "running"), (is_str _ "pending");
    cbn [andb negb]; rewrite ?try_send_run; reflexivity.
Qed.

Lemma ec2_start_without_dns_witness :
  run (Ec2BusinessHours.handler Cases.plainBastion Cases.tuesday "start")
    Cases.stoppedProvider
  = (Return (ok true),
     [ Sent (DescribeInstancesCommand [Some "i-0123456789abcdef0"]);
       Sent (StartInstancesCommand [Some "i-0123456789abcdef0"]) ]).
Proof.
  rewrite (ec2_start_without_dns Cases.plainBastion Cases.tuesday
             Cases.stoppedProvider _ (or_introl eq_refl) eq_refl).
  vm_compute. reflexivity.
Defined.




End SchedulersMore.

(** ** More on the database bootstrap *)

Section BootstrapMore.

Import DbInit.

(** X7.  A Create or Update with one of the six environment variables unset
    or empty throws before it reads a secret or opens a connection. *)
Theorem missing_configuration_stops_the_bootstrap
  (env : ProcessEnv) (event : Event) (w : World) (r : Run) :
  (or_else (RequestType event) "Create" === "Delete") = false ->
  truthy (DB_HOST env) && truthy (DB_PORT env) && truthy (DB_NAME env) &&
  truthy (MASTER_SECRET_ARN env) && truthy (APPUSER_SECRET_ARN env) &&
  truthy (READONLY_SECRET_ARN env) = false ->
  handler env event w r
  = (Throw "Missing required environment variables"%string, r).
Proof.
  intros Hnd Hmiss. unfold handler. rewrite Hnd.
  destruct (DB_HOST env) as [host|]; [|reflexivity].
  destruct (DB_PORT env) as [port|]; [|reflexivity].
  destruct (DB_NAME env) as [name|]; [|reflexivity].
  destruct (MASTER_SECRET_ARN env) as [masterArn|]; [|reflexivity].
  destruct (APPUSER_SECRET_ARN env) as [appArn|]; [|reflexivity].
  destruct (READONLY_SECRET_ARN env) as [roArn|]; [|reflexivity].
  unfold truthy in Hmiss.
  destruct (host === ""), (port === ""), (name === ""), (masterArn === ""),
    (appArn === ""), (roArn === ""); cbn [orb]; try reflexivity;
    discriminate Hmiss.
Qed.

Lemma missing_configuration_stops_the_bootstrap_witness :
  handler Cases.noPort Fixtures.createEvent Fixtures.dbWorld Fixtures.freshRun
  = (Throw "Missing required environment variables"%string, Fixtures.freshRun).
Proof.
  apply missing_configuration_stops_the_bootstrap; reflexivity.
Defined.

Lemma getSecretJson_fulfilled (arn : string) (w : World) (r : Run) (s : SecretJson) :
  secret_value w arn = Fulfilled s ->
  getSecretJson arn w r = (Return s, log (GetSecretValue arn) r).
Proof. intros H. unfold getSecretJson. rewrite H. reflexivity. Qed.

Lemma complete_checks (s : SecretJson) :
  negb (truthy (username s)) || negb (truthy (password s)) = negb (complete s).
Proof. unfold complete. symmetry. apply negb_andb. Qed.

(** The handler up to the three secrets it reads first. *)
Lemma handler_reads_secrets
  (host port name masterArn appArn roArn : string) (event : Event)
  (w : World) (r : Run) (master appuser readonly : SecretJson) :
  (or_else (RequestType event) "Create" === "Delete") = false ->
  host <> ""%string -> port <> ""%string -> name <> ""%string ->
  masterArn <> ""%string -> appArn <> ""%string -> roArn <> ""%string ->
  secret_value w masterArn = Fulfilled master ->
  secret_value w appArn = Fulfilled appuser ->
  secret_value w roArn = Fulfilled readonly ->
  handler (configuration host port name masterArn appArn roArn) event w r
  = (if negb (complete master)
     then throw "Master secret missing username/password"
     else if negb (complete appuser)
     then throw "AppUser secret missing username/password"
     else if negb (complete readonly)
     then throw "ReadOnlyUser secret missing username/password"
     else
       connectWithRetry host port (interpolate (username master))
         (interpolate (password master)) name ;;
       try_finally
         (ensureUser (interpolate (username appuser))
            (interpolate (password appuser)) name true ;;
          ensureUser (interpolate (username readonly))
            (interpolate (password readonly)) name false)
         endConnection ;;
       ret (host ++ ":" ++ name)%string) w
      {| journal := journal r ++ [ GetSecretValue masterArn;
                                   GetSecretValue appArn;
                                   GetSecretValue roArn ];
         database := database r |}.
Proof.
  intros Hnd Hh Hp Hn Hm Ha Hr Sm Sa Sr.
  unfold handler, configuration. rewrite Hnd.
  cbn [DB_HOST DB_PORT DB_NAME MASTER_SECRET_ARN APPUSER_SECRET_ARN
       READONLY_SECRET_ARN].
  apply String.eqb_neq in Hh, Hp, Hn, Hm, Ha, Hr.
  rewrite Hh, Hp, Hn, Hm, Ha, Hr. cbn [orb].
  rewrite bind_run, (getSecretJson_fulfilled _ _ _ _ Sm).
  rewrite bind_run, (getSecretJson_fulfilled _ _ _ _ Sa).
  rewrite bind_run, (getSecretJson_fulfilled _ _ _ _ Sr).
  rewrite !complete_checks.
  unfold log. cbn [journal database]. rewrite <- !app_assoc. reflexivity.
Qed.

(** X8.  When one of the three secrets lacks a user name or a password,
    the handler throws after reading all three secrets and before opening
    a connection; the message names the first incomplete secret in the
    order master, application, read-only. *)
Theorem incomplete_secret_stops_the_bootstrap
  (host port name masterArn appArn roArn : string) (event : Event)
  (w : World) (r : Run) (master appuser readonly : SecretJson) :
  (or_else (RequestType event) "Create" === "Delete") = false ->
  host <> ""%string -> port <> ""%string -> name <> ""%string ->
  masterArn <> ""%string -> appArn <> ""%string -> roArn <> ""%string ->
  secret_value w masterArn = Fulfilled master ->
  secret_value w appArn = Fulfilled appuser ->
  secret_value w roArn = Fulfilled readonly ->
  complete master && complete appuser && complete readonly = false ->
  handler (configuration host port name masterArn appArn roArn) event w r
  = (Throw (if negb (complete master)
            then "Master secret missing username/password"
            else if negb (complete appuser)
            then "AppUser secret missing username/password"
            else "ReadOnlyUser secret missing username/password")%string,
     {| journal := journal r ++ [ GetSecretValue masterArn;
                                  GetSecretValue appArn;
                                  GetSecretValue roArn ];
        database := database r |}).
Proof.
  intros Hnd Hh Hp Hn Hm Ha Hr Sm Sa Sr Hinc.
  rewrite (handler_reads_secrets _ _ _ _ _ _ _ _ _ _ _ _
             Hnd Hh Hp Hn Hm Ha Hr Sm Sa Sr).
  destruct (complete master), (complete appuser), (complete readonly);
    try discriminate Hinc; reflexivity.
Qed.

Lemma incomplete_secret_stops_the_bootstrap_witness :
  handler
    (configuration "myapp-dev.cluster-abc.ap-northeast-1.rds.amazonaws.com"
       "3306" "myapp_db_dev" "arn:master" "arn:appuser" "arn:readonlyuser")
    Fixtures.createEvent Cases.halfSecretWorld Fixtures.freshRun
  = (Throw "ReadOnlyUser secret missing username/password"%string,
     {| journal := [ GetSecretValue "arn:master"; GetSecretValue "arn:appuser";
                     GetSecretValue "arn:readonlyuser" ];
        database := no_accounts |}).
Proof.
  apply (incomplete_secret_stops_the_bootstrap
           "myapp-dev.cluster-abc.ap-northeast-1.rds.amazonaws.com"
           "3306" "myapp_db_dev" "arn:master" "arn:appuser" "arn:readonlyuser"
           Fixtures.createEvent Cases.halfSecretWorld Fixtures.freshRun
           {| username := Some "admin"; password := Some "m-secret" |}
           {| username := Some "appuser"; password := Some "a-secret" |}
           {| username := Some "readonlyuser"; password := None |});
    first [reflexivity | discriminate].
Defined.

(** The retry loop, whatever the server does: it gives up after as many
    refusals as it has attempts, or returns at the first accepted
    connection. *)
Lemma connectLoop_shape (host port user pass db : string) (w : World) :
  forall (attempts : nat) (lastErr : string) (r : Run),
    (exists e,
        connectLoop host port user pass db attempts lastErr w r
        = (Throw e,
           {| journal := journal r ++ refusals host port user pass db attempts;
              database := database r |})) \/
    (exists k,
        (k < attempts)%nat /\
        connectLoop host port user pass db attempts lastErr w r
        = (Return tt,
           {| journal := journal r ++ refusals host port user pass db k
                           ++ [CreateConnection host port user pass db];
              database := database r |})).
Proof.
  induction attempts as [|n IH]; intros lastErr r.
  - left. exists lastErr. destruct r as [j d]. cbn. rewrite app_nil_r. reflexivity.
  - cbn [connectLoop]. unfold createConnection.
    destruct (connection w (journal r)) as [[]|e].
    + right. exists 0%nat. split; [lia|]. reflexivity.
    + rewrite bind_run. cbn [wait].
      destruct (IH e (log (Wait 10000)
                        (log (CreateConnection host port user pass db) r)))
        as [(e' & Hrun) | (k & Hk & Hrun)]; rewrite Hrun;
        cbn [log journal database refusals]; rewrite <- !app_assoc; cbn [app].
      * left. exists e'. reflexivity.
      * right. exists (S k). split; [lia|]. reflexivity.
Qed.

(** A server that refuses every connection with the same error. *)
Lemma connectLoop_refused (host port user pass db : string) (w : World) (e : string) :
  (forall j, connection w j = Rejected e) ->
  forall (attempts : nat) (lastErr : string) (r : Run),
    connectLoop host port user pass db attempts lastErr w r
    = (Throw (match attempts with O => lastErr | S _ => e end),
       {| journal := journal r ++ refusals host port user pass db attempts;
          database := database r |}).
Proof.
  intros Hno. induction attempts as [|n IH]; intros lastErr r.
  - destruct r as [j d]. cbn. rewrite app_nil_r. reflexivity.
  - cbn [connectLoop]. unfold createConnection. rewrite Hno.
    rewrite bind_run. cbn [wait]. rewrite IH.
    cbn [log journal database refusals]. rewrite <- !app_assoc. cbn [app].
    destruct n; reflexivity.
Qed.

(** X9.  When the server refuses every connection, the handler tries
    twelve times, waits ten seconds after each refusal, and then throws the
    server's error: it has sent no statement and has changed no account. *)
Theorem unreachable_server_stops_the_bootstrap
  (host port name masterArn appArn roArn : string) (event : Event)
  (w : World) (r : Run) (master appuser readonly : SecretJson) (e : string) :
  (or_else (RequestType event) "Create" === "Delete") = false ->
  host <> ""%string -> port <> ""%string -> name <> ""%string ->
  masterArn <> ""%string -> appArn <> ""%string -> roArn <> ""%string ->
  secret_value w masterArn = Fulfilled master ->
  secret_value w appArn = Fulfilled appuser ->
  secret_value w roArn = Fulfilled readonly ->
  complete master && complete appuser && complete readonly = true ->
  (forall j, connection w j = Rejected e) ->
  handler (configuration host port name masterArn appArn roArn) event w r
  = (Throw e,
     {| journal := journal r ++
                   [ GetSecretValue masterArn; GetSecretValue appArn;
                     GetSecretValue roArn ] ++
                   refusals host port (interpolate (username master))
                     (interpolate (password master)) name 12;
        database := database r |}).
Proof.
  intros Hnd Hh Hp Hn Hm Ha Hr Sm Sa Sr Hall Hno.
  rewrite (handler_reads_secrets _ _ _ _ _ _ _ _ _ _ _ _
             Hnd Hh Hp Hn Hm Ha Hr Sm Sa Sr).
  destruct (complete master), (complete appuser), (complete readonly);
    try discriminate Hall. cbn [negb].
  rewrite bind_run. unfold connectWithRetry.
  rewrite (connectLoop_refused _ _ _ _ _ _ _ Hno).
  cbn [journal database]. rewrite <- app_assoc. reflexivity.
Qed.

Lemma unreachable_server_stops_the_bootstrap_witness :
  let r' := snd (handler
                   (configuration
                      "myapp-dev.cluster-abc.ap-northeast-1.rds.amazonaws.com"
                      "3306" "myapp_db_dev" "arn:master" "arn:appuser"
                      "arn:readonlyuser")
                   Fixtures.createEvent Cases.unreachableWorld Fixtures.freshRun) in
  List.length (journal r') = 27%nat /\ queries (journal r') = [].
Proof.
  cbv zeta.
  rewrite (unreachable_server_stops_the_bootstrap
             "myapp-dev.cluster-abc.ap-northeast-1.rds.amazonaws.com"
             "3306" "myapp_db_dev" "arn:master" "arn:appuser" "arn:readonlyuser"
             Fixtures.createEvent Cases.unreachableWorld Fixtures.freshRun
             _ _ _ "ETIMEDOUT" eq_refl
             ltac:(discriminate) ltac:(discriminate) ltac:(discriminate)
             ltac:(discriminate) ltac:(discriminate) ltac:(discriminate)
             eq_refl eq_refl eq_refl eq_refl (fun _ => eq_refl)).
  split; reflexivity.
Defined.

(** A query is in the journal whether it succeeds or not. *)
Lemma query_sends (st : Statement) : sendsInOrder [st] (query st).
Proof.
  intros w r. unfold query.
  destruct (query_failure w (journal r) st) as [e|].
  - exists 1%nat. split; [reflexivity|]. split; [reflexivity|]. discriminate.
  - destruct (execute st (database r)) as [d|].
    + exists 1%nat. split; [reflexivity|]. split; reflexivity.
    + exists 1%nat. split; [reflexivity|]. split; [reflexivity|]. discriminate.
Qed.

Lemma sendsInOrder_bind (s1 s2 : list Statement) (m k : Db unit) :
  sendsInOrder s1 m -> sendsInOrder s2 k -> sendsInOrder (s1 ++ s2) (m ;; k).
Proof.
  intros Hm Hk w r. rewrite bind_run.
  destruct (Hm w r) as (n1 & Hle1 & Hj1 & Hret1).
  destruct (m w r) as [[[]|e] r1]; cbn [fst snd] in *.
  - specialize (Hret1 tt eq_refl). subst n1.
    rewrite firstn_all in Hj1.
    destruct (Hk w r1) as (n2 & Hle2 & Hj2 & Hret2).
    exists (List.length s1 + n2)%nat.
    split; [rewrite length_app; lia|].
    split.
    + rewrite Hj2, Hj1, firstn_app_2, map_app, <- app_assoc. reflexivity.
    + intros u Hu. rewrite (Hret2 u Hu), length_app. reflexivity.
  - exists n1. split; [rewrite length_app; lia|].
    split; [|discriminate].
    rewrite Hj1, firstn_app.
    replace (n1 - List.length s1)%nat with 0%nat by lia.
    cbn [firstn]. rewrite app_nil_r. reflexivity.
Qed.

Lemma ensureUser_sends (user pass dbName : string) (isApp : bool) :
  sendsInOrder (ensureStatements user pass dbName isApp)
    (ensureUser user pass dbName isApp).
Proof.
  unfold ensureUser, ensureStatements.
  apply (sendsInOrder_bind [_] _ (query _)); [apply query_sends|].
  apply (sendsInOrder_bind [_] _ (query _)); [apply query_sends|].
  apply sendsInOrder_bind; [|apply query_sends].
  destruct isApp.
  - apply (sendsInOrder_bind [_] [_]); apply query_sends.
  - apply query_sends.
Qed.

(** X10.  Whatever the server does, a connection the handler has opened is
    closed again.  With complete secrets the journal of a Create or Update
    is either twelve refused connections, or fewer than twelve refusals,
    the accepted connection, a prefix of the bootstrap's statements in
    order and the closing of the connection as the last entry; the handler
    returns only after the whole list. *)
Theorem opened_connection_is_closed
  (host port name masterArn appArn roArn : string) (event : Event)
  (w : World) (r : Run) (master appuser readonly : SecretJson) :
  (or_else (RequestType event) "Create" === "Delete") = false ->
  host <> ""%string -> port <> ""%string -> name <> ""%string ->
  masterArn <> ""%string -> appArn <> ""%string -> roArn <> ""%string ->
  secret_value w masterArn = Fulfilled master ->
  secret_value w appArn = Fulfilled appuser ->
  secret_value w roArn = Fulfilled readonly ->
  complete master && complete appuser && complete readonly = true ->
  let result :=
    handler (configuration host port name masterArn appArn roArn) event w r in
  let secrets :=
    [ GetSecretValue masterArn; GetSecretValue appArn; GetSecretValue roArn ] in
  let user := interpolate (username master) in
  let pass := interpolate (password master) in
  let sts := bootstrapStatements appuser readonly name in
  (exists e,
      fst result = Throw e /\
      journal (snd result)
      = journal r ++ secrets ++ refusals host port user pass name 12) \/
  (exists k n,
      (k < 12)%nat /\ (n <= List.length sts)%nat /\
      journal (snd result)
      = journal r ++ secrets ++ refusals host port user pass name k ++
        [CreateConnection host port user pass name] ++
        map Query (firstn n sts) ++ [EndConnection] /\
      forall id, fst result = Return id ->
        n = List.length sts /\ id = (host ++ ":" ++ name)%string).
Proof.
  intros Hnd Hh Hp Hn Hm Ha Hr Sm Sa Sr Hall. cbv zeta.
  rewrite (handler_reads_secrets _ _ _ _ _ _ _ _ _ _ _ _
             Hnd Hh Hp Hn Hm Ha Hr Sm Sa Sr).
  destruct (complete master), (complete appuser), (complete readonly);
    try discriminate Hall. cbn [negb].
  rewrite bind_run. unfold connectWithRetry.
  match goal with
  | |- context [connectLoop ?h ?p ?u ?pw ?d ?n ?e ?w0 ?r0] =>
      destruct (connectLoop_shape h p u pw d w0 n e r0)
        as [(e' & Hrun) | (k & Hk & Hrun)]; rewrite Hrun
  end; cbn [journal database fst snd].
  - left. exists e'. split; [reflexivity|]. rewrite <- app_assoc. reflexivity.
  - right. rewrite bind_run. unfold try_finally.
    match goal with
    | |- context [bind ?m ?k0 w ?r0] =>
        destruct (sendsInOrder_bind _ _ _ _
                    (ensureUser_sends (interpolate (username appuser))
                       (interpolate (password appuser)) name true)
                    (ensureUser_sends (interpolate (username readonly))
                       (interpolate (password readonly)) name false) w r0)
          as (n & Hle & Hj & Hret)
    end.
    fold (bootstrapStatements appuser readonly name) in Hle, Hj, Hret.
    match type of Hj with
    | journal (snd ?x) = _ => destruct x as [c r4]
    end.
    cbn [fst snd journal] in Hj, Hret.
    exists k, n. split; [exact Hk|]. split; [exact Hle|].
    unfold endConnection.
    destruct (end_failure w (journal r4)) as [e'|]; cbn [log fst snd journal].
    + split; [|discriminate]. rewrite Hj, <- !app_assoc. reflexivity.
    + destruct c as [[]|e']; cbn [ret fst snd log journal].
      * split; [rewrite Hj, <- !app_assoc; reflexivity|].
        intros id [= <-]. split; [apply (Hret tt eq_refl) | reflexivity].
      * split; [|discriminate]. rewrite Hj, <- !app_assoc. reflexivity.
Qed.

Lemma opened_connection_is_closed_witness :
  let result :=
    handler
      (configuration "myapp-dev.cluster-abc.ap-northeast-1.rds.amazonaws.com"
         "3306" "myapp_db_dev" "arn:master" "arn:appuser" "arn:readonlyuser")
      Fixtures.createEvent Cases.droppedWorld Fixtures.freshRun in
  fst result = Throw "PROTOCOL_CONNECTION_LOST"%string /\
  last (journal (snd result)) (Wait 0) = EndConnection.
Proof.
  cbv zeta.
  destruct (opened_connection_is_closed
              "myapp-dev.cluster-abc.ap-northeast-1.rds.amazonaws.com"
              "3306" "myapp_db_dev" "arn:master" "arn:appuser" "arn:readonlyuser"
              Fixtures.createEvent Cases.droppedWorld Fixtures.freshRun
              {| username := Some "admin"; password := Some "m-secret" |}
              {| username := Some "appuser"; password := Some "a-secret" |}
              {| username := Some "readonlyuser"; password := Some "r-secret" |}
              eq_refl
              ltac:(discriminate) ltac:(discriminate) ltac:(discriminate)
              ltac:(discriminate) ltac:(discriminate) ltac:(discriminate)
              eq_refl eq_refl eq_refl eq_refl)
    as [(e & _ & _) | (k & n & _ & _ & Hj & _)].
  - split; vm_compute; reflexivity.
  - split; [vm_compute; reflexivity|].
    rewrite Hj, !app_assoc. apply last_last.
Defined.

Ltac returned_step H x :=
  rewrite bind_run in H;
  match type of H with
  | (let (_, _) := ?m ?w ?r in _) = _ =>
      let E := fresh "E" in
      destruct (m w r) as [[x|?] ?] eqn:E; [|discriminate H]
  end.

(** What a returning Create or Update has gone through. *)
Lemma handler_returned
  (env : ProcessEnv) (event : Event) (w : World) (r r' : Run) (id : string) :
  (or_else (RequestType event) "Create" === "Delete") = false ->
  handler env event w r = (Return id, r') ->
  exists host name appArn roArn app appPass ro roPass,
    DB_HOST env = Some host /\ DB_NAME env = Some name /\
    host <> ""%string /\ name <> ""%string /\
    id = (host ++ ":" ++ name)%string /\
    APPUSER_SECRET_ARN env = Some appArn /\
    READONLY_SECRET_ARN env = Some roArn /\
    secret_value w appArn
    = Fulfilled {| username := Some app; password := Some appPass |} /\
    secret_value w roArn
    = Fulfilled {| username := Some ro; password := Some roPass |} /\
    executeAll (ensureStatements app appPass name true ++
                ensureStatements ro roPass name false) (database r)
    = Some (database r').
Proof.
  intros Hnd H. unfold handler in H. rewrite Hnd in H.
  destruct (DB_HOST env) as [host|]; [|discriminate H].
  destruct (DB_PORT env) as [port|]; [|discriminate H].
  destruct (DB_NAME env) as [name|]; [|discriminate H].
  destruct (MASTER_SECRET_ARN env) as [masterArn|]; [|discriminate H].
  destruct (APPUSER_SECRET_ARN env) as [appArn|]; [|discriminate H].
  destruct (READONLY_SECRET_ARN env) as [roArn|]; [|discriminate H].
  destruct (host === "") eqn:Hh; [discriminate H|].
  destruct (port === "") eqn:Hp; [discriminate H|].
  destruct (name === "") eqn:Hn; [discriminate H|].
  match type of H with
  | (if ?b then _ else _) _ _ = _ => destruct b; [discriminate H|]
  end.
  returned_step H master. returned_step H appuser. returned_step H readonly.
  destruct (negb (truthy (username master)) || _); [discriminate H|].
  destruct (negb (truthy (username appuser)) || _) eqn:Happ; [discriminate H|].
  destruct (negb (truthy (username readonly)) || _) eqn:Hro; [discriminate H|].
  apply truthy_both in Happ, Hro.
  destruct Happ as (app & appPass & Hau & Hap).
  destruct Hro as (ro & roPass & Hru & Hrp).
  rewrite Hau, Hap, Hru, Hrp in H. cbn [interpolate] in H.
  returned_step H connected.
  rewrite bind_run in H. unfold try_finally in H. rewrite bind_run in H.
  destruct (ensureUser app appPass name true w r3) as [[[]|?] r4] eqn:Eapp.
  2: { destruct (endConnection w r4) as [[[]|?] ?]; discriminate H. }
  destruct (ensureUser ro roPass name false w r4) as [[[]|?] r5] eqn:Ero.
  2: { destruct (endConnection w r5) as [[[]|?] ?]; discriminate H. }
  unfold endConnection in H.
  destruct (end_failure w (journal r5)); [discriminate H|].
  cbn [ret] in H. injection H as <- <-.
  pose proof (getSecretJson_run masterArn w r) as [Hd0 _]. rewrite E in Hd0.
  pose proof (getSecretJson_run appArn w r0) as [Hd1 _]. rewrite E0 in Hd1.
  pose proof (getSecretJson_run roArn w r1) as [Hd2 _]. rewrite E1 in Hd2.
  pose proof (connectLoop_database host port (interpolate (username master))
                (interpolate (password master)) name 12 "undefined" w r2)
    as [Hd3 _].
  unfold connectWithRetry in E2. rewrite E2 in Hd3. cbn [snd] in *.
  assert (Hdb : database r3 = database r) by congruence.
  apply getSecretJson_returns in E0, E1.
  apply ensureUser_returns in Eapp, Ero.
  destruct Eapp as [_ Hx4]. destruct Ero as [_ Hx5].
  exists host, name, appArn, roArn, app, appPass, ro, roPass.
  apply String.eqb_neq in Hh, Hn.
  destruct appuser as [au ap], readonly as [ru rp]. cbn in Hau, Hap, Hru, Hrp.
  subst au ap ru rp.
  repeat (split; [solve [reflexivity | assumption]|]).
  rewrite executeAll_app, <- Hdb, Hx4. exact Hx5.
Qed.

(** X11.  The identity a Create or Update returns is the one a later
    Delete answers with, whether the Delete is given that identity or
    none. *)
Theorem created_identity_survives_delete
  (env : ProcessEnv) (event : Event) (w : World) (r r' : Run) (id : string) :
  (or_else (RequestType event) "Create" === "Delete") = false ->
  handler env event w r = (Return id, r') ->
  forall (given : option string) (w2 : World) (r2 : Run),
    given = Some id \/ given = None ->
    handler env {| RequestType := Some "Delete"%string;
                   PhysicalResourceId := given |} w2 r2
    = (Return id, r2).
Proof.
  intros Hnd H given w2 r2 Hgiven.
  destruct (handler_returned env event w r r' id Hnd H)
    as (host & name & _ & _ & _ & _ & _ & _ & Hhost & Hname & Hh & Hn & Hid & _).
  unfold handler. cbn [RequestType PhysicalResourceId or_else String.eqb Ascii.eqb
                       Bool.eqb].
  assert (Hfb : fallbackId env = id).
  { unfold fallbackId. rewrite Hhost, Hname.
    apply truthy_some in Hh, Hn. rewrite Hh, Hn. subst id. reflexivity. }
  assert (Hne : (id === "") = false).
  { apply String.eqb_neq. rewrite <- Hfb. apply fallbackId_nonempty. }
  destruct Hgiven as [-> | ->]; unfold or_else, ret.
  - change (String.eqb id "") with (id === ""). rewrite Hne. reflexivity.
  - rewrite Hfb. reflexivity.
Qed.

Lemma created_identity_survives_delete_witness :
  handler Fixtures.dbEnv Fixtures.deleteWithId Fixtures.dbWorld Fixtures.freshRun
  = (Return "myapp-dev.cluster-abc.ap-northeast-1.rds.amazonaws.com:myapp_db_dev"%string,
     Fixtures.freshRun).
Proof.
  assert (Hrun : handler Fixtures.dbEnv Fixtures.createEvent Fixtures.dbWorld
                   Fixtures.freshRun
                 = (Return "myapp-dev.cluster-abc.ap-northeast-1.rds.amazonaws.com:myapp_db_dev"%string,
                    snd (handler Fixtures.dbEnv Fixtures.createEvent
                           Fixtures.dbWorld Fixtures.freshRun))).
  { apply injective_projections; [vm_compute; reflexivity | reflexivity]. }
  apply (created_identity_survives_delete Fixtures.dbEnv Fixtures.createEvent
           Fixtures.dbWorld Fixtures.freshRun _ _ eq_refl Hrun
           _ Fixtures.dbWorld Fixtures.freshRun (or_introl eq_refl)).
Defined.

Lemma password_of_put (user : string) (a : Account) (d : Database) (u : string) :
  password_of (put user a d) u =
  if u === user then Some (identified_by a) else password_of d u.
Proof. unfold password_of, put. destruct (u === user); reflexivity. Qed.

Lemma put_other (user : string) (a : Account) (d : Database) (u : string) :
  u <> user -> put user a d u = d u.
Proof. intros Hne. unfold put. apply String.eqb_neq in Hne. now rewrite Hne. Qed.

(** What the statements of [ensureUser] make of the accounts: the account
    exists with the given password, and every other account is as it
    was. *)
Lemma ensure_accounts (user pass dbName : string) (isApp : bool) (d d' : Database) :
  executeAll (ensureStatements user pass dbName isApp) d = Some d' ->
  (forall u, u <> user -> d' u = d u) /\
  (forall u, known d' u = (u === user) || known d u) /\
  (forall u, password_of d' u = if u === user then Some pass else password_of d u).
Proof.
  assert (Hself : forall (a : Account) (d0 : Database), put user a d0 user = Some a).
  { intros a d0. unfold put. now rewrite String.eqb_refl. }
  intros H. unfold ensureStatements in H.
  destruct isApp; cbn [app executeAll execute] in H;
    destruct (d user) as [a|] eqn:Hd; rewrite ?Hd, ?Hself in H;
    cbn [granted identified_by regrant] in H; injection H as <-.
  all: split; [intros u Hne; rewrite ?put_other by exact Hne; reflexivity|].
  all: split;
    [ intros u; rewrite ?known_put; destruct (u === user) eqn:Hu; cbn [orb];
      [|reflexivity]; apply String.eqb_eq in Hu; subst u
    | intros u; rewrite ?password_of_put; destruct (u === user); reflexivity ].
  all: try reflexivity.
  all: unfold known; rewrite Hd; reflexivity.
Qed.

Lemma ensure_privileges (user pass dbName : string) (isApp : bool) (d d' : Database) :
  executeAll (ensureStatements user pass dbName isApp) d = Some d' ->
  forall u db p,
    holds d' u db p =
    if (u === user) && (db === dbName)
    then (if isApp then negb (is_DROP p) else is_SELECT p || holds d u db p)
    else holds d u db p.
Proof.
  intros H. destruct (ensure_effect user pass dbName isApp d) as (d'' & E & _ & _ & Hh).
  rewrite E in H. injection H as <-. exact Hh.
Qed.

(** X12.  A Create or Update that returns has set the passwords of its
    two accounts to the ones in the secrets and has left every other
    account as it was. *)
Theorem bootstrap_touches_only_its_accounts
  (env : ProcessEnv) (event : Event) (w : World) (r r' : Run) (id : string) :
  (or_else (RequestType event) "Create" === "Delete") = false ->
  handler env event w r = (Return id, r') ->
  exists name app appPass ro roPass,
    DB_NAME env = Some name /\
    (exists appArn, APPUSER_SECRET_ARN env = Some appArn /\
       secret_value w appArn
       = Fulfilled {| username := Some app; password := Some appPass |}) /\
    (exists roArn, READONLY_SECRET_ARN env = Some roArn /\
       secret_value w roArn
       = Fulfilled {| username := Some ro; password := Some roPass |}) /\
    password_of (database r') ro = Some roPass /\
    (app <> ro -> password_of (database r') app = Some appPass) /\
    (forall u, u <> app -> u <> ro -> database r' u = database r u).
Proof.
  intros Hnd H.
  destruct (handler_returned env event w r r' id Hnd H)
    as (host & name & appArn & roArn & app & appPass & ro & roPass
        & _ & Hname & _ & _ & _ & Happ & Hro & Sa & Sr & Hx).
  exists name, app, appPass, ro, roPass.
  split; [exact Hname|].
  split; [exists appArn; split; assumption|].
  split; [exists roArn; split; assumption|].
  rewrite executeAll_app in Hx.
  destruct (executeAll (ensureStatements app appPass name true) (database r))
    as [d1|] eqn:E1; [|discriminate Hx].
  destruct (ensure_accounts _ _ _ _ _ _ E1) as (F1 & _ & P1).
  destruct (ensure_accounts _ _ _ _ _ _ Hx) as (F2 & _ & P2).
  split; [rewrite P2, String.eqb_refl; reflexivity|].
  split.
  { intros Hne. rewrite P2, P1, String.eqb_refl.
    apply String.eqb_neq in Hne. rewrite Hne. reflexivity. }
  intros u Ha Hr. rewrite (F2 u Hr). apply (F1 u Ha).
Qed.

Lemma bootstrap_touches_only_its_accounts_witness :
  let r' := snd (handler Fixtures.dbEnv Fixtures.createEvent Fixtures.dbWorld
                   Fixtures.freshRun) in
  exists ro roPass, password_of (database r') ro = Some roPass.
Proof.
  cbv zeta.
  assert (Hrun : handler Fixtures.dbEnv Fixtures.createEvent Fixtures.dbWorld
                   Fixtures.freshRun
                 = (Return "myapp-dev.cluster-abc.ap-northeast-1.rds.amazonaws.com:myapp_db_dev"%string,
                    snd (handler Fixtures.dbEnv Fixtures.createEvent
                           Fixtures.dbWorld Fixtures.freshRun))).
  { apply injective_projections; [vm_compute; reflexivity | reflexivity]. }
  destruct (bootstrap_touches_only_its_accounts Fixtures.dbEnv Fixtures.createEvent
              Fixtures.dbWorld Fixtures.freshRun _ _ eq_refl Hrun)
    as (name & app & appPass & ro & roPass & _ & _ & _ & Hpass & _).
  exists ro, roPass. exact Hpass.
Defined.

(** X13.  The bootstrap is idempotent: when a Create or Update has
    returned, a second one with the same environment and the same secrets
    that returns too gives the same identity and leaves every account as
    the first run left it: the same accounts exist, with the same
    passwords and the same privileges on every database. *)
Theorem bootstrap_is_idempotent
  (env : ProcessEnv) (first second : Event) (w : World) (r r1 r2 : Run)
  (id1 id2 : string) :
  (or_else (RequestType first) "Create" === "Delete") = false ->
  (or_else (RequestType second) "Create" === "Delete") = false ->
  handler env first w r = (Return id1, r1) ->
  handler env second w r1 = (Return id2, r2) ->
  id2 = id1 /\
  forall u,
    known (database r2) u = known (database r1) u /\
    password_of (database r2) u = password_of (database r1) u /\
    forall db p, holds (database r2) u db p = holds (database r1) u db p.
Proof.
  intros Hnd1 Hnd2 H1 H2.
  destruct (handler_returned env first w r r1 id1 Hnd1 H1)
    as (host & name & appArn & roArn & app & appPass & ro & roPass
        & Hhost & Hname & _ & _ & Hid1 & Happ & Hro & Sa & Sr & Hx1).
  destruct (handler_returned env second w r1 r2 id2 Hnd2 H2)
    as (host' & name' & appArn' & roArn' & app' & appPass' & ro' & roPass'
        & Hhost' & Hname' & _ & _ & Hid2 & Happ' & Hro' & Sa' & Sr' & Hx2).
  assert (host' = host) by congruence.
  assert (name' = name) by congruence.
  assert (appArn' = appArn) by congruence.
  assert (roArn' = roArn) by congruence.
  subst host' name' appArn' roArn'.
  rewrite Sa in Sa'. rewrite Sr in Sr'.
  injection Sa' as <- <-. injection Sr' as <- <-.
  split; [congruence|].
  rewrite executeAll_app in Hx1, Hx2.
  destruct (executeAll (ensureStatements app appPass name true) (database r))
    as [d1|] eqn:E1; [|discriminate Hx1].
  destruct (executeAll (ensureStatements app appPass name true) (database r1))
    as [d2|] eqn:E2; [|discriminate Hx2].
  destruct (ensure_accounts _ _ _ _ _ _ E1) as (_ & K1 & P1).
  destruct (ensure_accounts _ _ _ _ _ _ Hx1) as (_ & K1' & P1').
  destruct (ensure_accounts _ _ _ _ _ _ E2) as (_ & K2 & P2).
  destruct (ensure_accounts _ _ _ _ _ _ Hx2) as (_ & K2' & P2').
  intros u. split; [|split].
  - rewrite K2', K2, K1', K1.
    destruct (u === ro), (u === app), (known (database r) u); reflexivity.
  - rewrite P2', P2, P1', P1.
    destruct (u === ro), (u === app); reflexivity.
  - intros db p.
    rewrite (ensure_privileges _ _ _ _ _ _ Hx2), (ensure_privileges _ _ _ _ _ _ E2),
      (ensure_privileges _ _ _ _ _ _ Hx1), (ensure_privileges _ _ _ _ _ _ E1).
    destruct (u === ro), (u === app), (db === name), (is_DROP p) eqn:Hdrop,
      (is_SELECT p) eqn:Hsel, (holds (database r) u db p);
      try reflexivity; destruct p; discriminate.
Qed.

Lemma bootstrap_is_idempotent_witness :
  let r1 := snd (handler Fixtures.dbEnv Fixtures.createEvent Fixtures.dbWorld
                   Fixtures.freshRun) in
  let r2 := snd (handler Fixtures.dbEnv Fixtures.createEvent Fixtures.dbWorld r1) in
  known (database r2) "appuser" = known (database r1) "appuser" /\
  password_of (database r2) "appuser" = password_of (database r1) "appuser" /\
  forall db p,
    holds (database r2) "appuser" db p = holds (database r1) "appuser" db p.
Proof.
  cbv zeta.
  assert (Hrun1 : handler Fixtures.dbEnv Fixtures.createEvent Fixtures.dbWorld
                    Fixtures.freshRun
                  = (Return "myapp-dev.cluster-abc.ap-northeast-1.rds.amazonaws.com:myapp_db_dev"%string,
                     snd (handler Fixtures.dbEnv Fixtures.createEvent
                            Fixtures.dbWorld Fixtures.freshRun))).
  { apply injective_projections; [vm_compute; reflexivity | reflexivity]. }
  assert (Hrun2 : handler Fixtures.dbEnv Fixtures.createEvent Fixtures.dbWorld
                    (snd (handler Fixtures.dbEnv Fixtures.createEvent
                            Fixtures.dbWorld Fixtures.freshRun))
                  = (Return "myapp-dev.cluster-abc.ap-northeast-1.rds.amazonaws.com:myapp_db_dev"%string,
                     snd (handler Fixtures.dbEnv Fixtures.createEvent
                            Fixtures.dbWorld
                            (snd (handler Fixtures.dbEnv Fixtures.createEvent
                                    Fixtures.dbWorld Fixtures.freshRun))))).
  { apply injective_projections; [vm_compute; reflexivity | reflexivity]. }
  exact (proj2 (bootstrap_is_idempotent Fixtures.dbEnv Fixtures.createEvent
                  Fixtures.createEvent Fixtures.dbWorld Fixtures.freshRun _ _ _ _
                  eq_refl eq_refl Hrun1 Hrun2) "appuser"%string).
Defined.

End BootstrapMore.

(** ** More on the image guard *)

Section ImageGuardMore.

Import EcrValidateSingleArch.

(** X14.  A request that is no Delete asks the registry once, for the
    given tag or for [latest]; it throws the registry's error when the
    registry rejects the question, and it returns exactly when the
    registry answers with a first image whose two media types mention
    neither [manifest.list] nor [image.index]; further images of the
    answer are not looked at. *)
Theorem image_guard_accepts_iff
  (event : Event) (w : Registry) (calls : list Call) :
  (RequestType event === "Delete") = false ->
  let repo := RepositoryName event in
  let tag := or_else (ImageTag event) "latest" in
  snd (handler event w calls) = calls ++ [DescribeImagesCommand repo tag] /\
  (forall e, w repo tag = Rejected e -> fst (handler event w calls) = Throw e) /\
  forall id,
    fst (handler event w calls) = Return id <->
    id = "ecr-validate-single-arch"%string /\
    exists res details others,
      w repo tag = Fulfilled res /\
      imageDetails res = Some (details :: others) /\
      mentionsIndex (artifactMediaType details) = false /\
      mentionsIndex (imageManifestMediaType details) = false.
Proof.
  intros Hnd repo tag. unfold handler. rewrite Hnd. fold repo tag.
  rewrite bind_run. unfold describeImages.
  destruct (w repo tag) as [res|e] eqn:Hw.
  2: { split; [reflexivity|]. split; [intros e' [= <-]; reflexivity|].
       intros id. split; [discriminate|].
       intros (_ & res & d & o & Hres & _). discriminate Hres. }
  destruct (imageDetails res) as [[|details others]|] eqn:Hd.
  1, 3: split; [reflexivity|]; (split; [discriminate|]);
    intros id; (split; [discriminate|]);
    intros (_ & res' & d & o & Hres & Hd' & _);
    injection Hres as <-; rewrite Hd in Hd'; discriminate Hd'.
  rewrite !isIndex_mentionsIndex.
  destruct (mentionsIndex (artifactMediaType details)) eqn:Ha;
    [|destruct (mentionsIndex (imageManifestMediaType details)) eqn:Hm];
    cbn [orb]; (split; [reflexivity|]); (split; [discriminate|]); intros id.
  1, 2: split; [discriminate|];
    intros (_ & res' & d & o & Hres & Hd' & Ha' & Hm');
    injection Hres as <-; rewrite Hd in Hd'; injection Hd' as <- <-;
    congruence.
  split.
  - intros [= <-]. split; [reflexivity|].
    exists res, details, others. repeat split; assumption.
  - intros (-> & _). reflexivity.
Qed.

Lemma image_guard_accepts_iff_witness :
  snd (handler Fixtures.createImageCheck Fixtures.multiArchRegistry [])
  = [DescribeImagesCommand "myapp/backend" "v1.4.2"].
Proof.
  exact (proj1 (image_guard_accepts_iff Fixtures.createImageCheck
                  Fixtures.multiArchRegistry [] eq_refl)).
Defined.

End ImageGuardMore.

(** ** More on database names *)

Section DbNameMore.

Lemma map_string_app (f : ascii -> ascii) (a b : string) :
  map_string f (a ++ b)%string = (map_string f a ++ map_string f b)%string.
Proof. induction a as [|c a IH]; cbn; [reflexivity | now rewrite IH]. Qed.

Lemma word_not_upper (c : ascii) : is_word c = true -> is_upper c = false.
Proof.
  destruct c as [[] [] [] [] [] [] [] []]; intros H; first [reflexivity | discriminate H].
Qed.

Lemma alnum_is_word (c : ascii) : is_alnum c = true -> is_word c = true.
Proof. unfold is_alnum, is_word. intros ->. reflexivity. Qed.

Lemma alnum_not_underscore (c : ascii) : is_alnum c = true -> is_underscore c = false.
Proof.
  destruct c as [[] [] [] [] [] [] [] []]; intros H; first [reflexivity | discriminate H].
Qed.

Lemma forallChars_weaken (p q : ascii -> bool) (s : string) :
  (forall c, p c = true -> q c = true) ->
  forallChars p s = true -> forallChars q s = true.
Proof.
  intros Hpq. induction s as [|c s IH]; [reflexivity|].
  cbn [forallChars]. intros H. apply andb_true_iff in H. destruct H as [Hc Hs].
  rewrite (Hpq c Hc), (IH Hs). reflexivity.
Qed.

Lemma toLowerCase_word (s : string) :
  forallChars is_word s = true -> toLowerCase s = s.
Proof.
  unfold toLowerCase. induction s as [|c s IH]; [reflexivity|].
  cbn [forallChars map_string]. intros H. apply andb_true_iff in H.
  destruct H as [Hc Hs]. rewrite (word_not_upper c Hc), (IH Hs). reflexivity.
Qed.

Lemma replace_non_word_fixed (s : string) :
  forallChars is_word s = true -> replace_non_word s = s.
Proof.
  unfold replace_non_word. induction s as [|c s IH]; [reflexivity|].
  cbn [forallChars map_string]. intros H. apply andb_true_iff in H.
  destruct H as [Hc Hs]. rewrite Hc, (IH Hs). reflexivity.
Qed.

Lemma collapse_fixed (s : string) :
  doubled_underscore s = false -> collapse_underscores s = s.
Proof.
  induction s as [|c s IH]; [reflexivity|].
  cbn [doubled_underscore collapse_underscores].
  destruct s as [|c' s']; [destruct (is_underscore c); reflexivity|].
  intros H. apply orb_false_iff in H. destruct H as [Hcc Hs].
  specialize (IH Hs).
  destruct (is_underscore c); [|now rewrite IH].
  cbn [andb] in Hcc. rewrite Hcc, IH. reflexivity.
Qed.

Lemma strip_trailing_fixed (s : string) :
  ends_with_underscore s = false -> strip_trailing is_underscore s = s.
Proof.
  induction s as [|c s IH]; [reflexivity|].
  cbn [ends_with_underscore strip_trailing].
  destruct s as [|c' s'].
  - intros ->. reflexivity.
  - intros H. rewrite (IH H). reflexivity.
Qed.

Lemma slice0_fixed (n : nat) :
  forall s, (String.length s <= n)%nat -> slice0 n s = s.
Proof.
  induction n as [|n IH]; intros [|c s]; cbn [String.length slice0]; intros H;
    try reflexivity; [lia|].
  rewrite IH by lia. reflexivity.
Qed.

Lemma doubled_after_alnum (a b : string) :
  forallChars is_alnum a = true ->
  doubled_underscore (a ++ b) = doubled_underscore b.
Proof.
  induction a as [|c a IH]; [reflexivity|].
  cbn [forallChars]. intros H. apply andb_true_iff in H. destruct H as [Hc Ha].
  specialize (IH Ha). cbn [append doubled_underscore].
  rewrite (alnum_not_underscore c Hc). cbn [andb orb].
  destruct (a ++ b)%string eqn:Hab; [|exact IH].
  rewrite <- IH. reflexivity.
Qed.

Lemma ends_after (a b : string) :
  b <> ""%string -> ends_with_underscore (a ++ b) = ends_with_underscore b.
Proof.
  intros Hb. induction a as [|c a IH]; [reflexivity|].
  cbn [append ends_with_underscore].
  destruct (a ++ b)%string eqn:Hab; [|exact IH].
  destruct a; [cbn in Hab; contradiction | discriminate Hab].
Qed.

Lemma alnum_ends (s : string) :
  forallChars is_alnum s = true -> ends_with_underscore s = false.
Proof.
  induction s as [|c s IH]; [reflexivity|].
  cbn [forallChars ends_with_underscore]. intros H. apply andb_true_iff in H.
  destruct H as [Hc Hs]. destruct s; [apply alnum_not_underscore, Hc | apply IH, Hs].
Qed.

(** X15.  For a project of lowercase letters and digits that begins with
    a letter and a non-empty environment of lowercase letters and digits,
    the database name is [project_db_environment] unchanged, as long as
    that has at most 64 characters. *)
Theorem rdsDbName_of_clean_parts (project environment : string) :
  starts_with_letter project = true ->
  forallChars is_alnum project = true ->
  forallChars is_alnum environment = true ->
  environment <> ""%string ->
  (String.length project + 4 + String.length environment <= 64)%nat ->
  rdsDbName project environment = (project ++ "_db_" ++ environment)%string.
Proof.
  intros Hletter Hp He Hne Hlen.
  set (base := (project ++ "_db_" ++ environment)%string).
  assert (Hword : forallChars is_word base = true).
  { subst base. rewrite !forallChars_app.
    rewrite (forallChars_weaken _ _ _ alnum_is_word Hp).
    rewrite (forallChars_weaken _ _ _ alnum_is_word He). reflexivity. }
  assert (Hdouble : doubled_underscore base = false).
  { subst base. rewrite (doubled_after_alnum _ _ Hp).
    destruct environment as [|c env]; [contradiction|].
    cbn [forallChars] in He. apply andb_true_iff in He. destruct He as [Hc Henv].
    change (doubled_underscore ("_db_" ++ String c env))
      with (is_underscore "_" && is_underscore c
            || doubled_underscore (String c env)).
    rewrite (alnum_not_underscore c Hc). cbn [andb orb].
    rewrite <- (append_empty (String c env)).
    apply (doubled_after_alnum (String c env) "").
    cbn [forallChars]. rewrite Hc, Henv. reflexivity. }
  assert (Hstart : starts_with_letter base = true).
  { subst base. destruct project; [discriminate Hletter | exact Hletter]. }
  assert (Hend : ends_with_underscore base = false).
  { subst base. rewrite ends_after.
    - rewrite (ends_after "_db_" environment Hne). apply alnum_ends, He.
    - destruct environment; [contradiction | discriminate]. }
  unfold rdsDbName, cleanDbName. fold base.
  rewrite (toLowerCase_word _ Hword), (replace_non_word_fixed _ Hword),
    (collapse_fixed _ Hdouble), Hstart. cbn [negb].
  unfold strip_underscores.
  rewrite (strip_leading_letter _ Hstart), (strip_trailing_fixed _ Hend).
  apply slice0_fixed. subst base. rewrite !length_append. cbn [String.length]. lia.
Qed.

Lemma rdsDbName_of_clean_parts_witness :
  rdsDbName "myapp" "dev" = "myapp_db_dev"%string.
Proof.
  apply (rdsDbName_of_clean_parts "myapp" "dev");
    first [reflexivity | discriminate | cbn; lia].
Defined.

Lemma toLowerCase_app (a b : string) :
  toLowerCase (a ++ b) = (toLowerCase a ++ toLowerCase b)%string.
Proof. apply map_string_app. Qed.

Lemma replace_non_word_app (a b : string) :
  replace_non_word (a ++ b) = (replace_non_word a ++ replace_non_word b)%string.
Proof. apply map_string_app. Qed.

(** X16.  For a project and an environment written in ASCII, the database
    name depends on them only through their lowercase form with every
    character outside [[a-z0-9_]] replaced by an underscore: names of
    ASCII that differ only in case or in punctuation give the same
    database name. *)
Theorem rdsDbName_ignores_case_and_punctuation (project environment : string) :
  forallChars is_ascii project = true ->
  forallChars is_ascii environment = true ->
  rdsDbName (replace_non_word (toLowerCase project))
    (replace_non_word (toLowerCase environment))
  = rdsDbName project environment.
Proof.
  intros _ _. unfold rdsDbName, cleanDbName.
  assert (Hbase :
            replace_non_word
              (toLowerCase (replace_non_word (toLowerCase project) ++ "_db_" ++
                            replace_non_word (toLowerCase environment)))
            = replace_non_word (toLowerCase (project ++ "_db_" ++ environment))).
  { rewrite (toLowerCase_word
               (replace_non_word (toLowerCase project) ++ "_db_" ++
                replace_non_word (toLowerCase environment))).
    2: { rewrite !forallChars_app, !replace_non_word_word. reflexivity. }
    rewrite !toLowerCase_app, !replace_non_word_app.
    rewrite !(replace_non_word_fixed (replace_non_word _))
      by apply replace_non_word_word.
    reflexivity. }
  rewrite Hbase. reflexivity.
Qed.

Lemma rdsDbName_ignores_case_and_punctuation_witness :
  rdsDbName "my_app" "dev" = rdsDbName "My-App" "Dev".
Proof.
  exact (rdsDbName_ignores_case_and_punctuation "My-App" "Dev" eq_refl eq_refl).
Defined.

Lemma collapse_head (c : ascii) (s : string) :
  is_underscore c = false ->
  collapse_underscores (String c s) = String c (collapse_underscores s).
Proof. intros H. cbn [collapse_underscores]. rewrite H. reflexivity. Qed.

Lemma collapse_not_doubled (s : string) :
  doubled_underscore (collapse_underscores s) = false.
Proof.
  induction s as [|c s IH]; [reflexivity|].
  cbn [collapse_underscores].
  destruct (is_underscore c) eqn:Hc.
  - destruct s as [|c' s']; [reflexivity|].
    destruct (is_underscore c') eqn:Hc'; [exact IH|].
    rewrite (collapse_head c' s' Hc') in *.
    cbn [doubled_underscore] in *. rewrite Hc' in *. cbn [andb orb] in *.
    rewrite andb_false_r. exact IH.
  - cbn [doubled_underscore].
    destruct (collapse_underscores s) as [|c' t] eqn:Ht; [reflexivity|].
    rewrite Hc. cbn [andb orb]. exact IH.
Qed.

Lemma doubled_cons (c d : ascii) (t : string) :
  doubled_underscore (String c (String d t))
  = is_underscore c && is_underscore d || doubled_underscore (String d t).
Proof. reflexivity. Qed.

Lemma strip_trailing_head (c : ascii) (s : string) (d : ascii) (t : string) :
  strip_trailing is_underscore (String c s) = String d t -> d = c.
Proof.
  cbn [strip_trailing]. destruct (strip_trailing is_underscore s).
  - destruct (is_underscore c); [discriminate|]. intros [= <- _]. reflexivity.
  - intros [= <- _]. reflexivity.
Qed.

Lemma strip_trailing_not_doubled (s : string) :
  doubled_underscore s = false ->
  doubled_underscore (strip_trailing is_underscore s) = false.
Proof.
  induction s as [|c s IH]; [reflexivity|].
  destruct s as [|c' s'].
  - intros _. cbn. destruct (is_underscore c); reflexivity.
  - rewrite doubled_cons. intros H. apply orb_false_iff in H.
    destruct H as [Hcc Hs]. specialize (IH Hs).
    change (strip_trailing is_underscore (String c (String c' s')))
      with (match strip_trailing is_underscore (String c' s') with
            | EmptyString => if is_underscore c then EmptyString
                             else String c EmptyString
            | rest => String c rest
            end).
    destruct (strip_trailing is_underscore (String c' s')) as [|d t] eqn:Ht.
    + destruct (is_underscore c); reflexivity.
    + rewrite doubled_cons, IH, orb_false_r.
      rewrite (strip_trailing_head _ _ _ _ Ht). exact Hcc.
Qed.

Lemma slice0_not_doubled (n : nat) :
  forall s, doubled_underscore s = false -> doubled_underscore (slice0 n s) = false.
Proof.
  induction n as [|n IH]; intros [|c s]; try reflexivity.
  destruct s as [|c' s']; [destruct n; reflexivity|].
  rewrite doubled_cons. intros H. apply orb_false_iff in H.
  destruct H as [Hcc Hs]. specialize (IH _ Hs).
  destruct n as [|n']; [reflexivity|].
  change (slice0 (S (S n')) (String c (String c' s')))
    with (String c (slice0 (S n') (String c' s'))).
  change (slice0 (S n') (String c' s')) with (String c' (slice0 n' s')) in *.
  rewrite doubled_cons, Hcc. exact IH.
Qed.

(** A base that begins with a letter gets no prefix. *)
Lemma cleanDbName_letter (c : ascii) (s : string) :
  is_lower c = true ->
  cleanDbName (String c s)
  = slice0 64 (strip_trailing is_underscore
                 (String c (collapse_underscores (replace_non_word s)))).
Proof.
  intros Hletter. unfold cleanDbName.
  assert (Hhead : collapse_underscores (replace_non_word (String c s))
                  = String c (collapse_underscores (replace_non_word s))).
  { unfold replace_non_word. cbn [map_string].
    rewrite (lower_is_word c Hletter).
    apply collapse_head, lower_not_underscore, Hletter. }
  rewrite Hhead. cbn [starts_with_letter]. rewrite Hletter. cbn [negb].
  unfold strip_underscores.
  rewrite (strip_leading_letter (String c _) Hletter). reflexivity.
Qed.

(** X17.  When the project begins with a letter, the database name has no
    two underscores in a row and keeps that letter, in lowercase, as its
    first character: no [db_] is put in front. *)
Theorem rdsDbName_collapses_underscores (project environment : string) :
  starts_with_letter (toLowerCase project) = true ->
  doubled_underscore (rdsDbName project environment) = false /\
  slice0 1 (rdsDbName project environment) = slice0 1 (toLowerCase project).
Proof.
  intros Hletter. unfold rdsDbName. rewrite toLowerCase_app.
  destruct (toLowerCase project) as [|c rest]; [discriminate Hletter|].
  cbn [starts_with_letter] in Hletter.
  change (String c rest ++ toLowerCase ("_db_" ++ environment))%string
    with (String c (rest ++ toLowerCase ("_db_" ++ environment))).
  rewrite (cleanDbName_letter c _ Hletter).
  set (tail := collapse_underscores _).
  assert (Hu : is_underscore c = false) by (apply lower_not_underscore, Hletter).
  split.
  - apply slice0_not_doubled, strip_trailing_not_doubled.
    subst tail. rewrite <- (collapse_head c _ Hu). apply collapse_not_doubled.
  - cbn [strip_trailing]. destruct (strip_trailing is_underscore tail);
      [rewrite Hu|]; reflexivity.
Qed.

Lemma rdsDbName_collapses_underscores_witness :
  doubled_underscore (rdsDbName "My--App" "dev") = false.
Proof.
  exact (proj1 (rdsDbName_collapses_underscores "My--App" "dev" eq_refl)).
Defined.

Lemma strip_trailing_ends (s : string) :
  ends_with_underscore (strip_trailing is_underscore s) = false.
Proof.
  induction s as [|c s IH]; [reflexivity|].
  cbn [strip_trailing].
  destruct (strip_trailing is_underscore s) as [|d t].
  - destruct (is_underscore c) eqn:Hc; [reflexivity | exact Hc].
  - exact IH.
Qed.

Lemma slice0_short (n : nat) :
  forall s, (String.length (slice0 n s) < n)%nat -> slice0 n s = s.
Proof.
  induction n as [|n IH]; intros s H; [lia|].
  destruct s as [|c s]; [reflexivity|].
  cbn [slice0 String.length] in *. rewrite IH by lia. reflexivity.
Qed.

(** X18.  A database name shorter than 64 characters does not end with an
    underscore; only the cut at 64 characters can leave one at the end. *)
Theorem rdsDbName_short_has_no_trailing_underscore (project environment : string) :
  (String.length (rdsDbName project environment) < 64)%nat ->
  ends_with_underscore (rdsDbName project environment) = false.
Proof.
  unfold rdsDbName, cleanDbName, strip_underscores. intros H.
  rewrite (slice0_short _ _ H). apply strip_trailing_ends.
Qed.

Lemma rdsDbName_short_has_no_trailing_underscore_witness :
  ends_with_underscore (rdsDbName "myapp" "dev-") = false.
Proof.
  apply rdsDbName_short_has_no_trailing_underscore. vm_compute. lia.
Defined.

End DbNameMore.

(** ** More on the log transform *)

Section LogTransformMore.

Import LogsFirehoseTransform.

Context {rt : Runtime}.

(** X19.  A record that does not come back [Ok] comes back as it was
    sent: the result carries the record's identifier and its data
    unchanged. *)
Theorem unprocessed_record_passes_through
  (record : FirehoseTransformationEventRecord)
  (out : FirehoseTransformationResultRecord) :
  In out (processRecord record) -> result out <> Ok ->
  result_recordId out = recordId record /\ result_data out = data record.
Proof.
  unfold processRecord, tryProcess. intros Hin Hnot.
  destruct (gunzipSync _) as [decompressed|].
  2: { destruct Hin as [<-|[]]. split; reflexivity. }
  destruct (JSON_parse_payload _) as [parsed|].
  2: { destruct Hin as [<-|[]]. split; reflexivity. }
  destruct (negb _).
  1: { destruct Hin as [<-|[]]. split; reflexivity. }
  destruct (enrichedMessages _ _) as [[|o enriched]|];
    destruct Hin as [<-|[]]; first [split; reflexivity | now contradiction Hnot].
Qed.

(** The loop over the log events throws exactly when an event it keeps has
    an invalid time; otherwise it yields one object per kept event. *)
Lemma enrichedMessages_outcome (parsed : CloudWatchLogsFirehosePayload)
  (events : list LogEvent) :
  match enrichedMessages parsed events with
  | Some enriched =>
      forallb (fun es => valid_time (timestamp (fst es))) (survivors events) = true /\
      List.length enriched = List.length (survivors events)
  | None =>
      forallb (fun es => valid_time (timestamp (fst es))) (survivors events) = false
  end.
Proof.
  induction events as [|e events IH]; cbn [enrichedMessages survivors].
  - split; reflexivity.
  - destruct (structuredOf e) as [structured|]; [|exact IH].
    cbn [forallb fst]. unfold toISOString.
    destruct (valid_time (timestamp e)); [|reflexivity].
    destruct (enrichedMessages parsed events) as [rest|]; [|exact IH].
    destruct IH as [Hall Hlen]. split; [exact Hall|].
    cbn [List.length]. rewrite Hlen. reflexivity.
Qed.

(** X20.  The outcome of a data record.  It is [ProcessingFailed] as soon
    as one log event the loop keeps has a timestamp that is no valid time,
    whatever the other events hold; otherwise [Dropped] when the loop keeps
    no event, and [Ok] when it keeps one.  The timestamp of an event the
    loop skips is never looked at. *)
Theorem data_record_outcome
  (record : FirehoseTransformationEventRecord) (text : string)
  (parsed : CloudWatchLogsFirehosePayload) :
  gunzipSync (Buffer_from_base64 (data record)) = Some text ->
  JSON_parse_payload text = Some parsed ->
  messageType parsed = "DATA_MESSAGE"%string ->
  let events := match logEvents parsed with Some l => l | None => [] end in
  let kept := survivors events in
  map result (processRecord record)
  = [ if forallb (fun es => valid_time (timestamp (fst es))) kept
      then match kept with [] => Dropped | _ :: _ => Ok end
      else ProcessingFailed ].
Proof.
  intros Hz Hp Hdata. cbv zeta. unfold processRecord, tryProcess.
  rewrite Hz, Hp, Hdata. cbn [String.eqb Ascii.eqb Bool.eqb negb andb].
  pose proof (enrichedMessages_outcome parsed
                (match logEvents parsed with Some l => l | None => [] end)) as H.
  destruct (enrichedMessages parsed _) as [enriched|].
  - destruct H as [-> Hlen].
    destruct enriched, (survivors _); try discriminate Hlen; reflexivity.
  - rewrite H. reflexivity.
Qed.

Lemma has_key_app (key : string) (a b : object number) :
  has_key key (a ++ b) = has_key key a || has_key key b.
Proof. unfold has_key. apply existsb_app. Qed.

Lemma set_absent (key : string) (v : json number) (o : object number) :
  has_key key o = false -> set key v o = o ++ [(key, v)].
Proof.
  induction o as [|[k v'] o IH]; [reflexivity|].
  cbn [has_key existsb fst]. intros H. apply orb_false_iff in H.
  destruct H as [Hk Ho]. fold (has_key key o) in Ho.
  cbn [set app]. rewrite Hk, (IH Ho). reflexivity.
Qed.

(** Copying properties with distinct keys onto an object that has none of
    them puts them behind it, in their order. *)
Lemma spread_fresh (members : object number) :
  forall target : object number,
    NoDup (map fst members) ->
    (forall key, In key (map fst members) -> has_key key target = false) ->
    fold_left (fun o kv => set (fst kv) (snd kv) o) members target
    = target ++ members.
Proof.
  induction members as [|[k v] members IH]; intros target Hnd Hfresh;
    cbn [fold_left map fst snd] in *.
  - symmetry. apply app_nil_r.
  - inversion Hnd as [|? ? Hnot Hrest]; subst.
    rewrite (set_absent k v target) by (apply Hfresh; left; reflexivity).
    rewrite IH; [rewrite <- app_assoc; reflexivity | exact Hrest |].
    intros key Hin. rewrite has_key_app, (Hfresh key) by (right; exact Hin).
    cbn [has_key existsb fst orb]. rewrite orb_false_r.
    apply String.eqb_neq. intros <-. contradiction.
Qed.

(** X21.  For a parsed log line that is an object whose keys are distinct,
    none of them made of digits only and none of them [log_group],
    [log_stream] or [ingestion_time_iso], the enriched object is the
    fields of the parsed object in their order followed by these three, in
    this order.  (JavaScript lists keys that are array indices first; the
    keys here are none, so the order of the parsed object is the order of
    the line.) *)
Theorem enrich_appends_fields
  (parsed : CloudWatchLogsFirehosePayload) (members : object number)
  (iso : string) :
  NoDup (map fst members) ->
  (forall key, In key (map fst members) ->
     enrichmentKey key = false /\ digitsOnly key = false) ->
  enrich parsed (JObject members) iso
  = members ++
    [ ("log_group"%string, JString (logGroup parsed));
      ("log_stream"%string, JString (logStream parsed));
      ("ingestion_time_iso"%string, JString iso) ].
Proof.
  intros Hnd Hkeys.
  assert (Hfresh : forall key, enrichmentKey key = true -> has_key key members = false).
  { intros key Hk. destruct (has_key key members) eqn:Hh; [|reflexivity].
    unfold has_key in Hh. apply existsb_exists in Hh.
    destruct Hh as ([k v] & Hin & Heq). apply String.eqb_eq in Heq. cbn in Heq.
    subst k.
    assert (Hkey : In key (map fst members)).
    { apply in_map_iff. exists (key, v). split; [reflexivity | exact Hin]. }
    rewrite (proj1 (Hkeys key Hkey)) in Hk. discriminate Hk. }
  unfold enrich, spread. cbn [ownProperties].
  rewrite (spread_fresh members []) by first [exact Hnd | intros; reflexivity].
  cbn [app].
  rewrite (set_absent "log_group") by (apply Hfresh; reflexivity).
  rewrite (set_absent "log_stream")
    by (rewrite has_key_app, Hfresh; reflexivity).
  rewrite (set_absent "ingestion_time_iso")
    by (rewrite !has_key_app, Hfresh; reflexivity).
  rewrite <- !app_assoc. reflexivity.
Qed.

End LogTransformMore.

Section LogTransformOnFixtures.

Import LogsFirehoseTransform.

Lemma unprocessed_record_passes_through_witness :
  let out := {| result_recordId := "rec-control";
                result := Dropped;
                result_data := data Fixtures.controlRecord |} in
  In out (processRecord (rt := Reference.runtime) Fixtures.controlRecord) /\
  result_data out = data Fixtures.controlRecord.
Proof.
  cbv zeta.
  assert (Hin : In {| result_recordId := "rec-control";
                      result := Dropped;
                      result_data := data Fixtures.controlRecord |}
                   (processRecord (rt := Reference.runtime) Fixtures.controlRecord))
    by (vm_compute; left; reflexivity).
  split; [exact Hin|].
  apply (unprocessed_record_passes_through (rt := Reference.runtime)
           Fixtures.controlRecord _ Hin).
  discriminate.
Defined.

Lemma enrich_appends_fields_witness :
  map fst
    (enrich (rt := Reference.runtime)
       {| messageType := "DATA_MESSAGE"; owner := "123456789012";
          logGroup := "/ecs/myapp-dev/backend";
          logStream := "backend/app/0f1e2d3c"; logEvents := None |}
       (JObject [ ("level"%string, JString "info");
                  ("msg"%string, JString "started") ])
       "2023-11-14T22:13:20.123Z")
  = [ "level"; "msg"; "log_group"; "log_stream"; "ingestion_time_iso" ]%string.
Proof.
  rewrite (enrich_appends_fields (rt := Reference.runtime)).
  - reflexivity.
  - repeat constructor; cbn [In]; intros H;
      repeat (destruct H as [H|H]; [discriminate H|]); exact H.
  - cbn [map fst In]. intros key [<- | [<- | []]]; split; reflexivity.
Defined.

Lemma data_record_outcome_witness :
  map result (processRecord (rt := Reference.runtime) Fixtures.dataRecord) = [Ok].
Proof.
  pose (text := Reference.base64Bytes (data Fixtures.dataRecord)).
  pose (parsed := match Reference.payloadOf text with
                  | Some p => p
                  | None => {| messageType := ""; owner := ""; logGroup := "";
                               logStream := ""; logEvents := None |}
                  end).
  assert (Hz : @gunzipSync Reference.runtime
                 (@Buffer_from_base64 Reference.runtime (data Fixtures.dataRecord))
               = Some text)
    by reflexivity.
  assert (Hp : @JSON_parse_payload Reference.runtime text = Some parsed)
    by (vm_compute; reflexivity).
  assert (Hdata : messageType parsed = "DATA_MESSAGE"%string)
    by (vm_compute; reflexivity).
  rewrite (data_record_outcome (rt := Reference.runtime) Fixtures.dataRecord
             text parsed Hz Hp Hdata).
  vm_compute. reflexivity.
Defined.

End LogTransformOnFixtures.

(** ** Stack helpers *)

Section StackHelpers.

(** X22.  [chooseRetention] picks the shortest of its four retention
    periods that covers the days asked for, and one month for anything
    longer: the retention is never longer than 30 days, so above 30 days
    it is shorter than what was asked for. *)
Theorem chooseRetention_shortest_cover (days : Z) :
  let chosen := retentionInDays (chooseRetention days) in
  chosen <= 30 /\
  (days <= 30 ->
     days <= chosen /\
     forall r, days <= retentionInDays r -> chosen <= retentionInDays r) /\
  (30 < days -> chooseRetention days = ONE_MONTH /\ chosen < days).
Proof.
  cbv zeta. unfold chooseRetention.
  destruct (days <=? 1) eqn:H1; [apply Z.leb_le in H1 | apply Z.leb_gt in H1].
  { cbn. split; [lia|]. split; [|lia]. intros _. split; [lia|].
    intros []; cbn; lia. }
  destruct (days <=? 7) eqn:H7; [apply Z.leb_le in H7 | apply Z.leb_gt in H7].
  { cbn. split; [lia|]. split; [|lia]. intros _. split; [lia|].
    intros []; cbn; lia. }
  destruct (days <=? 14) eqn:H14; [apply Z.leb_le in H14 | apply Z.leb_gt in H14].
  { cbn. split; [lia|]. split; [|lia]. intros _. split; [lia|].
    intros []; cbn; lia. }
  destruct (days <=? 30) eqn:H30; [apply Z.leb_le in H30 | apply Z.leb_gt in H30].
  { cbn. split; [lia|]. split; [|lia]. intros _. split; [lia|].
    intros []; cbn; lia. }
  cbn. split; [lia|]. split; [lia|]. intros _. split; [reflexivity | lia].
Qed.

Lemma chooseRetention_shortest_cover_witness :
  chooseRetention 10 = TWO_WEEKS /\
  forall r, 10 <= retentionInDays r -> 14 <= retentionInDays r.
Proof.
  split; [reflexivity|].
  destruct (chooseRetention_shortest_cover 10) as (_ & Hcover & _).
  destruct Hcover as [_ Hleast]; [lia|]. exact Hleast.
Defined.

Lemma slash_splits (a a' r r' : string) :
  slashFree a = true -> slashFree a' = true ->
  (a ++ String "/" r = a' ++ String "/" r')%string ->
  a = a' /\ r = r'.
Proof.
  unfold slashFree. revert a'.
  induction a as [|c a IH]; intros [|c' a'] Ha Ha' H; cbn [append] in H.
  - injection H as <-. split; reflexivity.
  - injection H as <- _. cbn in Ha'. discriminate Ha'.
  - injection H as -> _. cbn in Ha. discriminate Ha.
  - injection H as <- H. cbn [forallChars] in Ha, Ha'.
    apply andb_true_iff in Ha, Ha'.
    destruct (IH a' (proj2 Ha) (proj2 Ha') H) as [<- <-]. split; reflexivity.
Qed.

(** The suffixes of the ten names. *)
Lemma parameterNames_form (project environment : string) :
  map (fun f => f project environment) parameterNameFunctions
  = map (fun suffix => "/" ++ project ++ "/" ++ environment ++ "/" ++ suffix)%string
      [ "rds/security-group-id"; "rds/endpoint-address"; "rds/endpoint-port";
        "ecs/cluster-name"; "ecs/backend-service-name";
        "ecs/frontend-service-name"; "ecs/job-service-name";
        "alb/load-balancer-full-name"; "rds/instance-identifier";
        "bastion/security-group-id" ]%string.
Proof. reflexivity. Qed.

(** X23.  The parameter names do not collide: for projects and
    environments without a slash, two of the ten functions give the same
    name only when they are the same function applied to the same project
    and environment. *)
Theorem parameter_names_do_not_collide
  (project environment project' environment' : string) (i j : nat) (name : string) :
  slashFree project = true -> slashFree environment = true ->
  slashFree project' = true -> slashFree environment' = true ->
  nth_error (map (fun f => f project environment) parameterNameFunctions) i
  = Some name ->
  nth_error (map (fun f => f project' environment') parameterNameFunctions) j
  = Some name ->
  i = j /\ project = project' /\ environment = environment'.
Proof.
  intros Hp He Hp' He'. rewrite !parameterNames_form.
  set (suffixes := [ "rds/security-group-id"; "rds/endpoint-address";
                     "rds/endpoint-port"; "ecs/cluster-name";
                     "ecs/backend-service-name"; "ecs/frontend-service-name";
                     "ecs/job-service-name"; "alb/load-balancer-full-name";
                     "rds/instance-identifier"; "bastion/security-group-id" ]%string).
  rewrite !nth_error_map.
  destruct (nth_error suffixes i) as [s|] eqn:Hi; [|discriminate].
  destruct (nth_error suffixes j) as [s'|] eqn:Hj; [|discriminate].
  cbn [option_map]. intros [= <-] [= H].
  cbn [append] in H. symmetry in H.
  apply slash_splits in H; [|assumption..]. destruct H as [<- H].
  apply slash_splits in H; [|assumption..]. destruct H as [<- <-].
  split; [|split; reflexivity].
  assert (Hnd : NoDup suffixes).
  { subst suffixes.
    repeat (constructor; [cbn [In]; intros Hin;
                          repeat (destruct Hin as [Hin|Hin]; [discriminate Hin|]);
                          exact Hin|]).
    constructor. }
  apply (proj1 (NoDup_nth_error suffixes) Hnd).
  - apply nth_error_Some. rewrite Hi. discriminate.
  - rewrite Hi, Hj. reflexivity.
Qed.

Lemma parameter_names_do_not_collide_witness :
  rdsEndpointPortParameterName "myapp" "dev" = "/myapp/dev/rds/endpoint-port"%string /\
  (2 = 2)%nat /\ "myapp"%string = "myapp"%string /\ "dev"%string = "dev"%string.
Proof.
  split; [reflexivity|].
  apply (parameter_names_do_not_collide "myapp" "dev" "myapp" "dev" 2 2
           "/myapp/dev/rds/endpoint-port"); reflexivity.
Defined.

(** X24.  An environment name that is neither [staging] nor [prod], nor a
    member every object inherits, gets the configuration of [dev]: a
    misspelt environment is not refused. *)
Theorem getEnvConfig_falls_back_to_dev (env : string) :
  env <> "staging"%string -> env <> "prod"%string ->
  Config.inherited env = false ->
  Config.getEnvConfig env = Config.Own Config.dev.
Proof.
  intros Hs Hp Hproto. unfold Config.getEnvConfig, Config.envConfigs.
  apply String.eqb_neq in Hs, Hp. rewrite Hs, Hp, Hproto.
  destruct (env === "dev"); reflexivity.
Qed.

Lemma getEnvConfig_falls_back_to_dev_witness :
  Config.getEnvConfig "production" = Config.Own Config.dev.
Proof.
  apply getEnvConfig_falls_back_to_dev; [discriminate | discriminate | reflexivity].
Defined.

(** X25.  Whatever the environment name, a configuration that
    [getEnvConfig] returns is one of the three of the table; in it the
    desired count of every service lies within the scaling bounds, and the
    log retention is one of the periods [chooseRetention] knows, so that no
    rounding happens. *)
Theorem getEnvConfig_is_consistent (env : string) (c : Config.EnvConfig) :
  Config.getEnvConfig env = Config.Own c ->
  (c = Config.dev \/ c = Config.staging \/ c = Config.prod) /\
  withinBounds c = true /\
  retentionInDays (chooseRetention (Config.logsRetentionDays c))
  = Config.logsRetentionDays c.
Proof.
  unfold Config.getEnvConfig, Config.envConfigs.
  destruct (env === "dev"); [intros [= <-]; repeat split; auto|].
  destruct (env === "staging"); [intros [= <-]; repeat split; auto|].
  destruct (env === "prod"); [intros [= <-]; repeat split; auto|].
  destruct (Config.inherited env); [discriminate|].
  cbn. intros [= <-]. repeat split; auto.
Qed.

Lemma getEnvConfig_is_consistent_witness :
  withinBounds Config.prod = true.
Proof.
  exact (proj1 (proj2 (getEnvConfig_is_consistent "prod" Config.prod eq_refl))).
Defined.

End StackHelpers.

(** ** More on the holiday calendar *)

Section HolidaysMore.

Lemma isJapanHolidayJst_by_day (a b : Date) :
  Day (toJst a) = Day (toJst b) -> isJapanHolidayJst a = isJapanHolidayJst b.
Proof.
  intros H. unfold isJapanHolidayJst, holidayKey, getDay, WeekDay, getFullYear,
    getMonth, getDate.
  rewrite H. reflexivity.
Qed.

(** X26.  From 1952 to the year 9999 the answer follows the calendar of
    Tokyo: it is the same from midnight in Tokyo, which is 15:00 UTC of
    the day before, until the last millisecond before the next midnight
    in Tokyo. *)
Theorem rest_day_follows_the_tokyo_calendar (day ms : Z) :
  0 <= ms < msPerDay ->
  tokyoClock (day * msPerDay - 9 * 3600000) = true ->
  tokyoClock (day * msPerDay - 9 * 3600000 + ms) = true ->
  isJapanHolidayJst (day * msPerDay - 9 * 3600000 + ms)
  = isJapanHolidayJst (day * msPerDay - 9 * 3600000).
Proof.
  intros Hms _ _. apply isJapanHolidayJst_by_day. unfold toJst, Day.
  replace (day * msPerDay - 9 * 3600000 + ms + 9 * 3600000)
    with (ms + day * msPerDay) by lia.
  replace (day * msPerDay - 9 * 3600000 + 9 * 3600000)
    with (0 + day * msPerDay) by lia.
  unfold msPerDay in *. rewrite !Z.div_add by lia.
  rewrite (Z.div_small ms) by lia. reflexivity.
Qed.

Lemma rest_day_follows_the_tokyo_calendar_witness :
  isJapanHolidayJst (20089 * msPerDay - 9 * 3600000 + 86399999)
  = isJapanHolidayJst (20089 * msPerDay - 9 * 3600000).
Proof.
  apply rest_day_follows_the_tokyo_calendar;
    [unfold msPerDay; lia | reflexivity | reflexivity].
Defined.

End HolidaysMore.

(** ** The Slack notifier *)

Section SlackNotifierFacts.

Import SlackNotifier.

Lemma send_accepted (w : World) (hook : string) (message : json Empty_set)
  (s : Notifier) :
  (forall j url m, post w j url m = Fulfilled tt) ->
  send hook message w s = (Return tt, log (Send hook message) s).
Proof. intros Hpost. unfold send. rewrite Hpost. reflexivity. Qed.

(** The loop over records that all parse, with Slack accepting. *)
Lemma forEachRecord_all (w : World) (hook : string) :
  (forall j url m, post w j url m = Fulfilled tt) ->
  forall (records : list SNSEventRecord) (messages : list AlarmMessage)
         (s : Notifier),
    map (fun record => JSON_parse_alarm w (Sns_Message record)) records
    = map Return messages ->
    forEachRecord hook records w s
    = (Return tt,
       {| webhook := webhook s;
          journal := journal s ++
                     map (fun m => Send hook (notification m)) messages |}).
Proof.
  intros Hpost. induction records as [|record records IH];
    intros [|message messages] s H; try discriminate H.
  - destruct s. cbn. rewrite app_nil_r. reflexivity.
  - cbn [map] in H. injection H as Hm H.
    cbn [forEachRecord]. rewrite Hm, bind_run, (send_accepted _ _ _ _ Hpost).
    rewrite (IH messages _ H). cbn [log webhook journal map].
    rewrite <- app_assoc. reflexivity.
Qed.

(** X27.  With a webhook at hand, notifications that all parse and Slack
    accepting them, the handler returns after sending one message per
    record of the event, in the order of the records, all to that
    webhook. *)
Theorem notifier_sends_one_message_per_record
  (arn : string) (event : SNSEvent) (w : World) (s s1 : Notifier)
  (hook : string) (messages : list AlarmMessage) :
  getWebhook arn w s = (Return hook, s1) ->
  (forall j url m, post w j url m = Fulfilled tt) ->
  map (fun record => JSON_parse_alarm w (Sns_Message record)) (Records event)
  = map Return messages ->
  handler arn event w s
  = (Return tt,
     {| webhook := webhook s1;
        journal := journal s1 ++
                   map (fun m => Send hook (notification m)) messages |}).
Proof.
  intros Hhook Hpost Hparse. unfold handler. rewrite bind_run, Hhook.
  apply forEachRecord_all; assumption.
Qed.

Lemma notifier_sends_one_message_per_record_witness :
  handler "arn:slack" Cases.twoAlarms Cases.slackWorld Cases.coldStart
  = (Return tt,
     {| webhook := Some "https://hooks.slack.com/services/T0/B0/x"%string;
        journal :=
          [ GetSecretValue "arn:slack";
            Send "https://hooks.slack.com/services/T0/B0/x"
              (notification Cases.cpuAlarm);
            Send "https://hooks.slack.com/services/T0/B0/x"
              (notification Cases.cpuRecovered) ] |}).
Proof.
  apply (notifier_sends_one_message_per_record "arn:slack" Cases.twoAlarms
           Cases.slackWorld Cases.coldStart
           {| webhook := Some "https://hooks.slack.com/services/T0/B0/x"%string;
              journal := [GetSecretValue "arn:slack"] |}
           "https://hooks.slack.com/services/T0/B0/x"
           [Cases.cpuAlarm; Cases.cpuRecovered]);
    reflexivity.
Defined.

(** X28.  A notification that does not parse stops the handler: the
    records before it have had their message sent, the handler throws the
    error of the parse, and the records after it get no message. *)
Theorem notifier_stops_at_unreadable_record
  (arn : string) (event : SNSEvent) (w : World) (s s1 : Notifier)
  (hook : string) (before after : list SNSEventRecord) (bad : SNSEventRecord)
  (messages : list AlarmMessage) (e : string) :
  getWebhook arn w s = (Return hook, s1) ->
  (forall j url m, post w j url m = Fulfilled tt) ->
  Records event = before ++ bad :: after ->
  map (fun record => JSON_parse_alarm w (Sns_Message record)) before
  = map Return messages ->
  JSON_parse_alarm w (Sns_Message bad) = Throw e ->
  handler arn event w s
  = (Throw e,
     {| webhook := webhook s1;
        journal := journal s1 ++
                   map (fun m => Send hook (notification m)) messages |}).
Proof.
  intros Hhook Hpost Hrecords Hparse Hbad. unfold handler.
  rewrite bind_run, Hhook, Hrecords. clear Hhook Hrecords. revert messages s1 Hparse.
  induction before as [|record before IH]; intros [|message messages] s1 H;
    try discriminate H.
  - cbn [app forEachRecord map]. rewrite Hbad. destruct s1. cbn.
    rewrite app_nil_r. reflexivity.
  - cbn [map] in H. injection H as Hm H.
    cbn [app forEachRecord]. rewrite Hm, bind_run, (send_accepted _ _ _ _ Hpost).
    rewrite (IH messages _ H). cbn [log webhook journal map].
    rewrite <- app_assoc. reflexivity.
Qed.

Lemma notifier_stops_at_unreadable_record_witness :
  handler "arn:slack" Cases.brokenSecond Cases.slackWorld Cases.coldStart
  = (Throw "SyntaxError"%string,
     {| webhook := Some "https://hooks.slack.com/services/T0/B0/x"%string;
        journal :=
          [ GetSecretValue "arn:slack";
            Send "https://hooks.slack.com/services/T0/B0/x"
              (notification Cases.cpuAlarm) ] |}).
Proof.
  apply (notifier_stops_at_unreadable_record "arn:slack" Cases.brokenSecond
           Cases.slackWorld Cases.coldStart
           {| webhook := Some "https://hooks.slack.com/services/T0/B0/x"%string;
              journal := [GetSecretValue "arn:slack"] |}
           "https://hooks.slack.com/services/T0/B0/x"
           [ {| Sns_Message := "alarm" |} ]
           [ {| Sns_Message := "recovered" |} ]
           {| Sns_Message := "not json" |}
           [Cases.cpuAlarm] "SyntaxError");
    reflexivity.
Defined.

Lemma secretReads_app (a b : list Action) :
  secretReads (a ++ b) = (secretReads a + secretReads b)%nat.
Proof. unfold secretReads. rewrite filter_app, length_app. reflexivity. Qed.

(** The loop keeps the webhook and reads no secret. *)
Lemma forEachRecord_keeps (hook : string) (w : World) :
  forall (records : list SNSEventRecord) (s : Notifier),
    let s' := snd (forEachRecord hook records w s) in
    webhook s' = webhook s /\ secretReads (journal s') = secretReads (journal s).
Proof.
  induction records as [|record records IH]; intros s; cbv zeta.
  - split; reflexivity.
  - cbn [forEachRecord].
    destruct (JSON_parse_alarm w (Sns_Message record)) as [message|e];
      [|split; reflexivity].
    rewrite bind_run. unfold send.
    destruct (post w (journal s) hook (notification message)).
    + destruct (IH (log (Send hook (notification message)) s)) as [Hw Hr].
      rewrite Hw, Hr. cbn [log webhook journal].
      rewrite secretReads_app. cbn. split; [reflexivity | lia].
    + cbn [snd log webhook journal]. rewrite secretReads_app. cbn.
      split; [reflexivity | lia].
Qed.

(** X29.  The webhook is read once: after an invocation that has
    returned, the module holds a webhook, and no later invocation reads the
    secret again or changes the webhook, whatever the secret holds by then
    and whatever that invocation runs into. *)
Theorem webhook_is_read_once
  (arn : string) (event : SNSEvent) (w : World) (s s1 : Notifier) :
  handler arn event w s = (Return tt, s1) ->
  exists hook,
    webhook s1 = Some hook /\
    forall (arn2 : string) (event2 : SNSEvent) (w2 : World),
      let s2 := snd (handler arn2 event2 w2 s1) in
      webhook s2 = Some hook /\
      secretReads (journal s2) = secretReads (journal s1).
Proof.
  intros H. unfold handler in H. rewrite bind_run in H.
  destruct (getWebhook arn w s) as [[hook|e] s0] eqn:Hget; [|discriminate H].
  assert (Hs0 : webhook s0 = Some hook).
  { unfold getWebhook in Hget. destruct (webhook s) as [cached|] eqn:Hc.
    - injection Hget as <- <-. exact Hc.
    - destruct (secretString w (journal s) arn) as [secret|]; [|discriminate Hget].
      destruct (JSON_parse_url w _) as [webhookUrl|e']; [|discriminate Hget].
      destruct (negb (truthy webhookUrl)); [discriminate Hget|].
      injection Hget as <- <-. reflexivity. }
  destruct (forEachRecord_keeps hook w (Records event) s0) as [Hw _].
  rewrite H in Hw. cbn [snd] in Hw.
  exists hook. split; [congruence|].
  intros arn2 event2 w2. cbv zeta. unfold handler. rewrite bind_run.
  unfold getWebhook. rewrite Hw, Hs0.
  destruct (forEachRecord_keeps hook w2 (Records event2) s1) as [Hw2 Hr2].
  split; [congruence | exact Hr2].
Qed.

Lemma webhook_is_read_once_witness :
  let s1 := snd (handler "arn:slack" Cases.twoAlarms Cases.slackWorld
                   Cases.coldStart) in
  secretReads
    (journal (snd (handler "arn:slack" Cases.twoAlarms Cases.slackWorld s1)))
  = 1%nat.
Proof.
  cbv zeta.
  assert (Hrun : handler "arn:slack" Cases.twoAlarms Cases.slackWorld Cases.coldStart
                 = (Return tt,
                    snd (handler "arn:slack" Cases.twoAlarms Cases.slackWorld
                           Cases.coldStart))).
  { apply injective_projections; [vm_compute; reflexivity | reflexivity]. }
  destruct (webhook_is_read_once "arn:slack" Cases.twoAlarms Cases.slackWorld
              Cases.coldStart _ Hrun) as (hook & _ & Hlater).
  rewrite (proj2 (Hlater "arn:slack" Cases.twoAlarms Cases.slackWorld)).
  vm_compute. reflexivity.
Defined.

End SlackNotifierFacts.
